(** * PBF downloader: a shallow embedding of [pbfdownloader.py]

    The script walks a tile space (source, zoom, row, column), fetches every
    tile over HTTP with a retry budget equal to the number of mirrors,
    buffers the fetched tiles, flushes them to an MBtiles store in batches
    and keeps a checkpoint file so that a later run can resume.

    The embedding keeps the script's global variables in a [state] record and
    threads it through the loops.  What the script cannot decide by itself is
    supplied by an [environment]: the configuration, the HTTP status of every
    request, the moments at which a stop signal is delivered and the files
    found on disk at start.  [deg2num] works on IEEE doubles with [math.tan]
    and [math.asinh]; it is a parameter of the environment. *)

From Stdlib Require Import String QArith ZArith Arith Bool Lia List.
Import ListNotations.
Open Scope string_scope.
Open Scope list_scope.
Open Scope Z_scope.

(** ** Data *)

(** One entry of [mapconfig.json], under the names the script gives to its
    fields when it reads them (lines 158-165). *)
Record bbox := { BB0 : Q; BB1 : Q; BB2 : Q; BB3 : Q }.

Record MapSource := {
  DownloadURL : string;
  ServerParts : list string;
  MBtilesDB : string;
  MapName : string;
  max_z : Z;
  BoundingBox : bbox;
  ReadSpacing : Q;
  min_z0 : Z }.

(** [Status = namedtuple("Status", ['Source', 'X', 'Y', 'Z', 'TotalTileCount'])] *)
Record Status := mkStatus {
  St_Source : Z; St_X : Z; St_Y : Z; St_Z : Z; St_TotalTileCount : Z }.

(** [Tile(z, x, y, data)]; the compressed payload is identified by the number
    of the request that delivered it. *)
Record Tile := mkTile { tile_z : Z; tile_x : Z; tile_y : Z; tile_data : nat }.

Inductive exn := IndexError | NameError.

(** The lines written by [Log], one constructor per call site. *)
Inductive message :=
| MsgStart
| MsgPickup (name : string) (z x y total : Z)
| MsgNowProcessing (name db : string)
| MsgWillDownload (z tiles : Z)
| MsgOutOfBounds (z x y : Z)
| MsgFailed (z x y : Z)
| MsgFailedStatus (code : Z)
| MsgFailedURL (server : string)
| MsgFailedRequestHeaders
| MsgFailedResponseHeaders
| MsgAdded (n total : Z)
| MsgWholeArea
| MsgShutdown
| MsgEnded (session : Z).

(** The three places that call [WriteGlobalStatus]: line 226, line 266 and
    line 299. *)
Inductive save_site := AtZoomStart | AtBatchFlush | AtLoopExit.

(** What the process does to the outside, in the order it happens.  [EvTile]
    and [EvBuffered] are not effects: they mark the assignment of the loop
    variable [X] (line 243) and the length of [VectorTiles] right after the
    append of line 258. *)
Inductive event :=
| EvLog (m : message)
| EvMeta (db : string)
| EvTile (z x y : Z)
| EvGet (server : string) (x y z : Z) (status : Z)
| EvBuffered (n : nat)
| EvWriteToDB (db : string) (tiles : list Tile)
| EvWriteGlobalStatus (site : save_site) (st : Status)
| EvWriteMapStatus (name : string) (loops : Z)
| EvCopy (db : string) (loops : Z)
| EvSleep (seconds : Q).

(** The module-level variables, the two kinds of status file, and the history
    of the run.  [clock] counts the blocking operations performed so far and
    [requests] the HTTP requests. *)
Record state := mkState {
  ServerPartNumber : nat;
  SessionTileCount : Z;
  TotalTileCount : Z;
  SourceCounter : Z;
  VectorTiles : list Tile;
  Run : bool;
  PickupDone : bool;
  PickupStatus : option Status;
  min_z : Z;
  MapRun : bool;
  FullLoops : Z;
  cur_Z : option Z;
  cur_Y : option Z;
  cur_X : option Z;
  StateFile : option Status;
  MapStatusFiles : string -> option Z;
  clock : nat;
  requests : nat;
  trace : list event }.

Definition set_ServerPartNumber (v : nat) (s : state) : state :=
  {| ServerPartNumber := v; SessionTileCount := SessionTileCount s;
     TotalTileCount := TotalTileCount s; SourceCounter := SourceCounter s;
     VectorTiles := VectorTiles s; Run := Run s; PickupDone := PickupDone s;
     PickupStatus := PickupStatus s; min_z := min_z s; MapRun := MapRun s;
     FullLoops := FullLoops s; cur_Z := cur_Z s; cur_Y := cur_Y s; cur_X := cur_X s;
     StateFile := StateFile s; MapStatusFiles := MapStatusFiles s; clock := clock s;
     requests := requests s; trace := trace s |}.

Definition set_SessionTileCount (v : Z) (s : state) : state :=
  {| ServerPartNumber := ServerPartNumber s; SessionTileCount := v;
     TotalTileCount := TotalTileCount s; SourceCounter := SourceCounter s;
     VectorTiles := VectorTiles s; Run := Run s; PickupDone := PickupDone s;
     PickupStatus := PickupStatus s; min_z := min_z s; MapRun := MapRun s;
     FullLoops := FullLoops s; cur_Z := cur_Z s; cur_Y := cur_Y s; cur_X := cur_X s;
     StateFile := StateFile s; MapStatusFiles := MapStatusFiles s; clock := clock s;
     requests := requests s; trace := trace s |}.

Definition set_TotalTileCount (v : Z) (s : state) : state :=
  {| ServerPartNumber := ServerPartNumber s; SessionTileCount := SessionTileCount s;
     TotalTileCount := v; SourceCounter := SourceCounter s; VectorTiles := VectorTiles s;
     Run := Run s; PickupDone := PickupDone s; PickupStatus := PickupStatus s;
     min_z := min_z s; MapRun := MapRun s; FullLoops := FullLoops s; cur_Z := cur_Z s;
     cur_Y := cur_Y s; cur_X := cur_X s; StateFile := StateFile s;
     MapStatusFiles := MapStatusFiles s; clock := clock s; requests := requests s;
     trace := trace s |}.

Definition set_SourceCounter (v : Z) (s : state) : state :=
  {| ServerPartNumber := ServerPartNumber s; SessionTileCount := SessionTileCount s;
     TotalTileCount := TotalTileCount s; SourceCounter := v; VectorTiles := VectorTiles s;
     Run := Run s; PickupDone := PickupDone s; PickupStatus := PickupStatus s;
     min_z := min_z s; MapRun := MapRun s; FullLoops := FullLoops s; cur_Z := cur_Z s;
     cur_Y := cur_Y s; cur_X := cur_X s; StateFile := StateFile s;
     MapStatusFiles := MapStatusFiles s; clock := clock s; requests := requests s;
     trace := trace s |}.

Definition set_VectorTiles (v : list Tile) (s : state) : state :=
  {| ServerPartNumber := ServerPartNumber s; SessionTileCount := SessionTileCount s;
     TotalTileCount := TotalTileCount s; SourceCounter := SourceCounter s; VectorTiles := v;
     Run := Run s; PickupDone := PickupDone s; PickupStatus := PickupStatus s;
     min_z := min_z s; MapRun := MapRun s; FullLoops := FullLoops s; cur_Z := cur_Z s;
     cur_Y := cur_Y s; cur_X := cur_X s; StateFile := StateFile s;
     MapStatusFiles := MapStatusFiles s; clock := clock s; requests := requests s;
     trace := trace s |}.

Definition set_Run (v : bool) (s : state) : state :=
  {| ServerPartNumber := ServerPartNumber s; SessionTileCount := SessionTileCount s;
     TotalTileCount := TotalTileCount s; SourceCounter := SourceCounter s;
     VectorTiles := VectorTiles s; Run := v; PickupDone := PickupDone s;
     PickupStatus := PickupStatus s; min_z := min_z s; MapRun := MapRun s;
     FullLoops := FullLoops s; cur_Z := cur_Z s; cur_Y := cur_Y s; cur_X := cur_X s;
     StateFile := StateFile s; MapStatusFiles := MapStatusFiles s; clock := clock s;
     requests := requests s; trace := trace s |}.

Definition set_PickupDone (v : bool) (s : state) : state :=
  {| ServerPartNumber := ServerPartNumber s; SessionTileCount := SessionTileCount s;
     TotalTileCount := TotalTileCount s; SourceCounter := SourceCounter s;
     VectorTiles := VectorTiles s; Run := Run s; PickupDone := v;
     PickupStatus := PickupStatus s; min_z := min_z s; MapRun := MapRun s;
     FullLoops := FullLoops s; cur_Z := cur_Z s; cur_Y := cur_Y s; cur_X := cur_X s;
     StateFile := StateFile s; MapStatusFiles := MapStatusFiles s; clock := clock s;
     requests := requests s; trace := trace s |}.

Definition set_PickupStatus (v : option Status) (s : state) : state :=
  {| ServerPartNumber := ServerPartNumber s; SessionTileCount := SessionTileCount s;
     TotalTileCount := TotalTileCount s; SourceCounter := SourceCounter s;
     VectorTiles := VectorTiles s; Run := Run s; PickupDone := PickupDone s; PickupStatus := v;
     min_z := min_z s; MapRun := MapRun s; FullLoops := FullLoops s; cur_Z := cur_Z s;
     cur_Y := cur_Y s; cur_X := cur_X s; StateFile := StateFile s;
     MapStatusFiles := MapStatusFiles s; clock := clock s; requests := requests s;
     trace := trace s |}.

Definition set_min_z (v : Z) (s : state) : state :=
  {| ServerPartNumber := ServerPartNumber s; SessionTileCount := SessionTileCount s;
     TotalTileCount := TotalTileCount s; SourceCounter := SourceCounter s;
     VectorTiles := VectorTiles s; Run := Run s; PickupDone := PickupDone s;
     PickupStatus := PickupStatus s; min_z := v; MapRun := MapRun s; FullLoops := FullLoops s;
     cur_Z := cur_Z s; cur_Y := cur_Y s; cur_X := cur_X s; StateFile := StateFile s;
     MapStatusFiles := MapStatusFiles s; clock := clock s; requests := requests s;
     trace := trace s |}.

Definition set_MapRun (v : bool) (s : state) : state :=
  {| ServerPartNumber := ServerPartNumber s; SessionTileCount := SessionTileCount s;
     TotalTileCount := TotalTileCount s; SourceCounter := SourceCounter s;
     VectorTiles := VectorTiles s; Run := Run s; PickupDone := PickupDone s;
     PickupStatus := PickupStatus s; min_z := min_z s; MapRun := v; FullLoops := FullLoops s;
     cur_Z := cur_Z s; cur_Y := cur_Y s; cur_X := cur_X s; StateFile := StateFile s;
     MapStatusFiles := MapStatusFiles s; clock := clock s; requests := requests s;
     trace := trace s |}.

Definition set_FullLoops (v : Z) (s : state) : state :=
  {| ServerPartNumber := ServerPartNumber s; SessionTileCount := SessionTileCount s;
     TotalTileCount := TotalTileCount s; SourceCounter := SourceCounter s;
     VectorTiles := VectorTiles s; Run := Run s; PickupDone := PickupDone s;
     PickupStatus := PickupStatus s; min_z := min_z s; MapRun := MapRun s; FullLoops := v;
     cur_Z := cur_Z s; cur_Y := cur_Y s; cur_X := cur_X s; StateFile := StateFile s;
     MapStatusFiles := MapStatusFiles s; clock := clock s; requests := requests s;
     trace := trace s |}.

Definition set_cur_Z (v : option Z) (s : state) : state :=
  {| ServerPartNumber := ServerPartNumber s; SessionTileCount := SessionTileCount s;
     TotalTileCount := TotalTileCount s; SourceCounter := SourceCounter s;
     VectorTiles := VectorTiles s; Run := Run s; PickupDone := PickupDone s;
     PickupStatus := PickupStatus s; min_z := min_z s; MapRun := MapRun s;
     FullLoops := FullLoops s; cur_Z := v; cur_Y := cur_Y s; cur_X := cur_X s;
     StateFile := StateFile s; MapStatusFiles := MapStatusFiles s; clock := clock s;
     requests := requests s; trace := trace s |}.

Definition set_cur_Y (v : option Z) (s : state) : state :=
  {| ServerPartNumber := ServerPartNumber s; SessionTileCount := SessionTileCount s;
     TotalTileCount := TotalTileCount s; SourceCounter := SourceCounter s;
     VectorTiles := VectorTiles s; Run := Run s; PickupDone := PickupDone s;
     PickupStatus := PickupStatus s; min_z := min_z s; MapRun := MapRun s;
     FullLoops := FullLoops s; cur_Z := cur_Z s; cur_Y := v; cur_X := cur_X s;
     StateFile := StateFile s; MapStatusFiles := MapStatusFiles s; clock := clock s;
     requests := requests s; trace := trace s |}.

Definition set_cur_X (v : option Z) (s : state) : state :=
  {| ServerPartNumber := ServerPartNumber s; SessionTileCount := SessionTileCount s;
     TotalTileCount := TotalTileCount s; SourceCounter := SourceCounter s;
     VectorTiles := VectorTiles s; Run := Run s; PickupDone := PickupDone s;
     PickupStatus := PickupStatus s; min_z := min_z s; MapRun := MapRun s;
     FullLoops := FullLoops s; cur_Z := cur_Z s; cur_Y := cur_Y s; cur_X := v;
     StateFile := StateFile s; MapStatusFiles := MapStatusFiles s; clock := clock s;
     requests := requests s; trace := trace s |}.

Definition set_StateFile (v : option Status) (s : state) : state :=
  {| ServerPartNumber := ServerPartNumber s; SessionTileCount := SessionTileCount s;
     TotalTileCount := TotalTileCount s; SourceCounter := SourceCounter s;
     VectorTiles := VectorTiles s; Run := Run s; PickupDone := PickupDone s;
     PickupStatus := PickupStatus s; min_z := min_z s; MapRun := MapRun s;
     FullLoops := FullLoops s; cur_Z := cur_Z s; cur_Y := cur_Y s; cur_X := cur_X s;
     StateFile := v; MapStatusFiles := MapStatusFiles s; clock := clock s;
     requests := requests s; trace := trace s |}.

Definition set_MapStatusFiles (v : string -> option Z) (s : state) : state :=
  {| ServerPartNumber := ServerPartNumber s; SessionTileCount := SessionTileCount s;
     TotalTileCount := TotalTileCount s; SourceCounter := SourceCounter s;
     VectorTiles := VectorTiles s; Run := Run s; PickupDone := PickupDone s;
     PickupStatus := PickupStatus s; min_z := min_z s; MapRun := MapRun s;
     FullLoops := FullLoops s; cur_Z := cur_Z s; cur_Y := cur_Y s; cur_X := cur_X s;
     StateFile := StateFile s; MapStatusFiles := v; clock := clock s; requests := requests s;
     trace := trace s |}.

Definition set_clock (v : nat) (s : state) : state :=
  {| ServerPartNumber := ServerPartNumber s; SessionTileCount := SessionTileCount s;
     TotalTileCount := TotalTileCount s; SourceCounter := SourceCounter s;
     VectorTiles := VectorTiles s; Run := Run s; PickupDone := PickupDone s;
     PickupStatus := PickupStatus s; min_z := min_z s; MapRun := MapRun s;
     FullLoops := FullLoops s; cur_Z := cur_Z s; cur_Y := cur_Y s; cur_X := cur_X s;
     StateFile := StateFile s; MapStatusFiles := MapStatusFiles s; clock := v;
     requests := requests s; trace := trace s |}.

Definition set_requests (v : nat) (s : state) : state :=
  {| ServerPartNumber := ServerPartNumber s; SessionTileCount := SessionTileCount s;
     TotalTileCount := TotalTileCount s; SourceCounter := SourceCounter s;
     VectorTiles := VectorTiles s; Run := Run s; PickupDone := PickupDone s;
     PickupStatus := PickupStatus s; min_z := min_z s; MapRun := MapRun s;
     FullLoops := FullLoops s; cur_Z := cur_Z s; cur_Y := cur_Y s; cur_X := cur_X s;
     StateFile := StateFile s; MapStatusFiles := MapStatusFiles s; clock := clock s;
     requests := v; trace := trace s |}.

Definition set_trace (v : list event) (s : state) : state :=
  {| ServerPartNumber := ServerPartNumber s; SessionTileCount := SessionTileCount s;
     TotalTileCount := TotalTileCount s; SourceCounter := SourceCounter s;
     VectorTiles := VectorTiles s; Run := Run s; PickupDone := PickupDone s;
     PickupStatus := PickupStatus s; min_z := min_z s; MapRun := MapRun s;
     FullLoops := FullLoops s; cur_Z := cur_Z s; cur_Y := cur_Y s; cur_X := cur_X s;
     StateFile := StateFile s; MapStatusFiles := MapStatusFiles s; clock := clock s;
     requests := requests s; trace := v |}.

(** What the run depends on and the script does not contain. *)
Record environment := {
  WriteInterval : Z;                     (* line 50 *)
  Maplist : list (string * MapSource);   (* mapconfig.json, in file order *)
  deg2num : Q -> Q -> Z -> Z * Z;        (* lines 82-87, on doubles *)
  http_status : nat -> Z;                (* status code of the n-th request *)
  stop_signal : nat -> bool;             (* SIGINT or SIGTERM during the n-th
                                            blocking operation *)
  disk_StateFile : option Status;        (* ProcessStateFile at start *)
  disk_MapStatus : string -> option Z }. (* the <name>_status.txt files *)

(** A run of a piece of the script ends normally or with a Python exception;
    either way the state reached is kept. *)
Inductive outcome :=
| Ok (s : state)
| Crash (e : exn) (s : state).

Definition bind (o : outcome) (k : state -> outcome) : outcome :=
  match o with
  | Ok s => k s
  | Crash e s => Crash e s
  end.

Notation "x <- o ;; k" := (bind o (fun x => k))
  (at level 61, o at next level, right associativity).

Definition final (o : outcome) : state :=
  match o with
  | Ok s => s
  | Crash _ s => s
  end.

(** The whole process: it left the main loop, died of an exception, or was
    still looping when the fuel ran out. *)
Inductive run_result :=
| Exited (s : state)
| Crashed (e : exn) (s : state)
| StillRunning (s : state).

(** ** Python helpers *)

(** [range(a, b)] *)
Definition range (a b : Z) : list Z :=
  map (fun i => a + Z.of_nat i) (seq 0 (Z.to_nat (b - a))).

(** [l[i]] for a Python list, negative indices counting from the end. *)
Definition py_index {A : Type} (l : list A) (i : Z) : option A :=
  if 0 <=? i then nth_error l (Z.to_nat i)
  else if 0 <=? Z.of_nat (length l) + i
       then nth_error l (Z.to_nat (Z.of_nat (length l) + i))
       else None.

(** A [for] loop whose body ends with [if not Run: break].  [between] is what
    happens after an iteration that does not break, before the loop variable
    takes its next value. *)
Fixpoint for_each {A : Type} (body : A -> state -> outcome)
    (between : state -> state) (l : list A) (s : state) : outcome :=
  match l with
  | [] => Ok s
  | a :: l' =>
      s' <- body a s ;;
      if Run s' then for_each body between l' (between s') else Ok s'
  end.

(** ** Procedures (lines 89-136) *)

Definition emit (e : event) (s : state) : state :=
  set_trace (trace s ++ [e]) s.

Definition Log (m : message) (s : state) : state := emit (EvLog m) s.

Definition WriteGlobalStatus (site : save_site) (Source X Y Zv Total : Z)
    (s : state) : state :=
  let st := mkStatus Source X Y Zv Total in
  emit (EvWriteGlobalStatus site st) (set_StateFile (Some st) s).

Definition WriteMapStatus (name : string) (loops : Z) (s : state) : state :=
  emit (EvWriteMapStatus name loops)
    (set_MapStatusFiles
       (fun k => if String.eqb k name then Some loops else MapStatusFiles s k) s).

(** Returns the new total, as the script does; the caller stores it. *)
Definition WriteToDB (DatabaseFile : string) (TileList : list Tile)
    (Total : Z) (s : state) : Z * state :=
  let Total' := Total + Z.of_nat (length TileList) in
  (Total',
   Log (MsgAdded (Z.of_nat (length TileList)) Total')
     (emit (EvWriteToDB DatabaseFile TileList) s)).

Section Program.

Variable E : environment.

(** [handler_stop_signals] can run between any two bytecodes.  The model
    lets it run during the operations that take time and that [clock]
    counts: an HTTP request, a sleep, the opening of the store at the head
    of a turn of the main loop (line 198).  A signal that arrives at another
    moment, such as a write to the store (line 127) or the archive copy
    (line 305), is not among the runs described here. *)
Definition blocking (s : state) : state :=
  set_clock (S (clock s))
    (set_Run (Run s && negb (stop_signal E (clock s))) s).

(** [sleep(ReadSpacing)] with a pause that is not negative.  For a negative
    one [time.sleep] raises ValueError; the runs described here do not. *)
Definition sleep (src : MapSource) (s : state) : state :=
  blocking (emit (EvSleep (ReadSpacing src)) s).

(** ** Start (lines 140-154) *)

(** Lines 67-75.  [PickupDone], [min_z], [MapRun] and [FullLoops] are not
    bound before lines 145-173 assign them; the loop variables are bound by
    their loops. *)
Definition initial_state : state :=
  {| ServerPartNumber := 0; SessionTileCount := 0; TotalTileCount := 0;
     SourceCounter := 0; VectorTiles := []; Run := true;
     PickupDone := true; PickupStatus := None; min_z := 0; MapRun := false;
     FullLoops := 0; cur_Z := None; cur_Y := None; cur_X := None;
     StateFile := disk_StateFile E; MapStatusFiles := disk_MapStatus E;
     clock := 0; requests := 0; trace := [] |}.

Definition startup : outcome :=
  let s := Log MsgStart initial_state in
  match StateFile s with
  | Some p =>
      let s := set_PickupStatus (Some p) s in
      match py_index (Maplist E) (St_Source p) with
      | None => Crash IndexError s
      | Some (name, _) =>
          let s := Log (MsgPickup name (St_Z p) (St_X p) (St_Y p)
                          (St_TotalTileCount p)) s in
          let s := set_min_z (St_Z p) s in
          let s := set_TotalTileCount (St_TotalTileCount p) s in
          let s := set_SourceCounter (St_Source p) s in
          let s := set_PickupDone (St_X p =? 0) s in
          Ok (set_MapRun true s)
      end
  | None => Ok (set_PickupDone true s)
  end.

(** ** One tile (lines 245-282) *)

(** Lines 248-251. *)
Definition next_ServerPart (parts : list string) (n : nat)
    : option (string * nat) :=
  match nth_error parts n with
  | None => None
  | Some ServerPart =>
      Some (ServerPart, if (S n =? length parts)%nat then 0%nat else S n)
  end.

(** Lines 257-266, after a 200.  [2 ^ Zv] is Python's [2 ** Z] for a zoom
    level that is not negative.  Below 0 Python's value is a float (0.5 at
    zoom -1) where [2 ^ Zv] is 0, and the row stored by the script is not
    the one computed here. *)
Definition tile_fetched (src : MapSource) (Zv Yv Xv : Z) (data : nat)
    (s : state) : state :=
  let Yconversion := 2 ^ Zv - 1 in
  let s := set_VectorTiles
             (VectorTiles s ++ [mkTile Zv Xv (Yconversion - Yv) data]) s in
  let s := emit (EvBuffered (length (VectorTiles s))) s in
  let s := set_SessionTileCount (SessionTileCount s + 1) s in
  if Z.of_nat (length (VectorTiles s)) =? WriteInterval E then
    let (Total, s) := WriteToDB (MBtilesDB src) (VectorTiles s)
                        (TotalTileCount s) s in
    let s := set_TotalTileCount Total s in
    let s := set_VectorTiles [] s in
    WriteGlobalStatus AtBatchFlush (SourceCounter s) Xv Yv Zv
      (TotalTileCount s) s
  else s.

(** Lines 273-279, after the last attempt failed with something else than
    404. *)
Definition tile_failed (Zv Yv Xv : Z) (code : Z) (server : string)
    (s : state) : state :=
  let s := Log (MsgFailed Zv Xv Yv) s in
  let s := Log (MsgFailedStatus code) s in
  let s := Log (MsgFailedURL server) s in
  let s := Log MsgFailedRequestHeaders s in
  let s := Log MsgFailedResponseHeaders s in
  set_Run false s.

(** The [while (RetryCounter < MaxRetries)] loop.  [remaining] is
    [MaxRetries - RetryCounter]: the loop is over when it is 0, an attempt
    that is not a success takes 1 off, and a success sets it to 0. *)
Fixpoint retry_loop (src : MapSource) (Zv Yv Xv : Z) (remaining : nat)
    (s : state) : outcome :=
  match remaining with
  | O => Ok s
  | S remaining' =>
      match next_ServerPart (ServerParts src) (ServerPartNumber s) with
      | None => Crash IndexError s
      | Some (ServerPart, n) =>
          let s := set_ServerPartNumber n s in
          let code := http_status E (requests s) in
          let data := requests s in
          let s := set_requests (S (requests s)) s in
          let s := blocking (emit (EvGet ServerPart Xv Yv Zv code) s) in
          if code =? 200 then
            Ok (tile_fetched src Zv Yv Xv data s)
          else
            let s :=
              if code =? 404 then
                match remaining' with
                | O => Log (MsgOutOfBounds Zv Xv Yv) s
                | S _ => s
                end
              else
                match remaining' with
                | O => tile_failed Zv Yv Xv code ServerPart s
                | S _ => s
                end in
            if Run s then retry_loop src Zv Yv Xv remaining' s else Ok s
      end
  end.

(** The body of [for X in range(StartX, max_x + 1)] up to line 282. *)
Definition tile (src : MapSource) (Zv Yv Xv : Z) (s : state) : outcome :=
  let s := emit (EvTile Zv Xv Yv) (set_cur_X (Some Xv) s) in
  retry_loop src Zv Yv Xv (length (ServerParts src)) s.

(** ** The loops over columns, rows and zoom levels (lines 210-293) *)

(** Lines 243-287: [if Run: sleep(ReadSpacing) else: break]. *)
Definition for_X (src : MapSource) (Zv Yv : Z) (xs : list Z) (s : state)
    : outcome :=
  for_each (tile src Zv Yv) (sleep src) xs s.

(** Lines 237-290, one row. *)
Definition row (src : MapSource) (Zv min_x max_x : Z) (Yv : Z) (s : state)
    : outcome :=
  let s := set_cur_Y (Some Yv) s in
  if PickupDone s then
    for_X src Zv Yv (range min_x (max_x + 1)) s
  else
    match PickupStatus s with
    | None => Crash NameError s
    | Some p =>
        for_X src Zv Yv (range (St_X p) (max_x + 1)) (set_PickupDone true s)
    end.

(** Lines 213-219: the tile rectangle [(min_x, min_y, max_x, max_y)] of the
    bounding box at zoom [Zv], from its two corners. *)
Definition tile_rect (src : MapSource) (Zv : Z) : Z * Z * Z * Z :=
  let LowerLeft := deg2num E (BB0 (BoundingBox src)) (BB1 (BoundingBox src)) Zv in
  let UpperRight := deg2num E (BB2 (BoundingBox src)) (BB3 (BoundingBox src)) Zv in
  let min_x := fst LowerLeft in
  let max_x := fst UpperRight in
  let min_y := snd UpperRight in
  let max_y := snd LowerLeft in
  (min_x, min_y, max_x, max_y).

(** Lines 210-228: entering a zoom level. *)
Definition zoom_start (src : MapSource) (Zv : Z) (s : state) : state :=
  let s := set_cur_Z (Some Zv) s in
  let '(min_x, min_y, max_x, max_y) := tile_rect src Zv in
  let NumberOfTiles := (max_x - min_x + 1) * (max_y - min_y + 1) in
  let s := WriteGlobalStatus AtZoomStart (SourceCounter s) min_x min_y
             (min_z s) (TotalTileCount s) s in
  Log (MsgWillDownload Zv NumberOfTiles) s.

(** Lines 210-293, one zoom level. *)
Definition zoom_level (src : MapSource) (Zv : Z) (s : state) : outcome :=
  let s := zoom_start src Zv s in
  let '(min_x, min_y, max_x, max_y) := tile_rect src Zv in
  if PickupDone s then
    for_each (row src Zv min_x max_x) (fun s => s) (range min_y (max_y + 1)) s
  else
    match PickupStatus s with
    | None => Crash NameError s
    | Some p =>
        for_each (row src Zv min_x max_x) (fun s => s)
          (range (St_Y p) (max_y + 1)) s
    end.

Definition for_Z (src : MapSource) (zs : list Z) (s : state) : outcome :=
  for_each (zoom_level src) (fun s => s) zs s.

(** ** After the loops (lines 295-314)

    The archive copy of line 305 is taken to succeed.  [shutil.copy] raises
    SameFileError when the name computed for the copy is the name of the
    store, which happens when the latter does not hold ".mbtiles"; the pass
    counter is written by then and the source counter is not yet moved.
    The runs described here do not end that way. *)

Definition after_loops (name : string) (src : MapSource) (s : state)
    : outcome :=
  let s :=
    if (0 <? length (VectorTiles s))%nat then
      let (Total, s) := WriteToDB (MBtilesDB src) (VectorTiles s)
                          (TotalTileCount s) s in
      set_TotalTileCount Total s
    else s in
  s <- (if 0 <? SessionTileCount s then
          match cur_X s, cur_Y s, cur_Z s with
          | Some Xv, Some Yv, Some Zv =>
              Ok (WriteGlobalStatus AtLoopExit (SourceCounter s) Xv Yv Zv
                    (TotalTileCount s) s)
          | _, _, _ => Crash NameError s
          end
        else Ok s) ;;
  let s := set_VectorTiles [] s in
  if Run s then
    let s := set_FullLoops (FullLoops s + 1) s in
    let s := WriteMapStatus name (FullLoops s) s in
    let s := emit (EvCopy (MBtilesDB src) (FullLoops s)) s in
    let s := Log MsgWholeArea s in
    let s := set_SourceCounter (SourceCounter s + 1) s in
    let s := set_TotalTileCount 0 s in
    let s := set_MapRun false s in
    let s := set_PickupDone true s in
    Ok (if SourceCounter s >=? Z.of_nat (length (Maplist E))
        then set_SourceCounter 0 s else s)
  else Ok s.

(** The body of [while (MapRun and Run)] (lines 208-314). *)
Definition map_body (name : string) (src : MapSource) (s : state) : outcome :=
  let s := Log (MsgNowProcessing name (MBtilesDB src)) s in
  s <- for_Z src (range (min_z s) (max_z src + 1)) s ;;
  after_loops name src s.

(** [while (MapRun and Run)].  The body ends with [Run] false or with
    [MapRun = False] (lemma [map_body_leaves_loop] below), so it runs at most
    once. *)
Definition map_loop (name : string) (src : MapSource) (s : state) : outcome :=
  if MapRun s && Run s then map_body name src s else Ok s.

(** ** The main loop (lines 156-314) *)

(** Lines 158-204. *)
Definition source_setup (name : string) (src : MapSource) (s : state) : state :=
  let s :=
    match MapStatusFiles s name with
    | Some loops => set_FullLoops loops s
    | None => set_FullLoops 0 s
    end in
  let s := if PickupDone s then set_min_z (min_z0 src) s else s in
  let s := set_MapRun true s in
  blocking (emit (EvMeta (MBtilesDB src)) s).

(** One turn of [while Run]. *)
Definition iteration (s : state) : outcome :=
  match py_index (Maplist E) (SourceCounter s) with
  | None => Crash IndexError s
  | Some (name, src) => map_loop name src (source_setup name src s)
  end.

(** Lines 316-317. *)
Definition exit_logs (s : state) : state :=
  Log (MsgEnded (SessionTileCount s)) (Log MsgShutdown s).

Fixpoint main_loop (fuel : nat) (s : state) : run_result :=
  if Run s then
    match fuel with
    | O => StillRunning s
    | S fuel' =>
        match iteration s with
        | Ok s' => main_loop fuel' s'
        | Crash e s' => Crashed e s'
        end
    end
  else Exited (exit_logs s).

Definition main (fuel : nat) : run_result :=
  match startup with
  | Ok s => main_loop fuel s
  | Crash e s => Crashed e s
  end.

End Program.

(** ** Sample configurations

    [deg2num] at the corners of three bounding boxes, zoom 0 to 6, as the
    script computes them.  The script passes [BoundingBox[0]] and
    [BoundingBox[2]] as latitudes and [BoundingBox[1]] and [BoundingBox[3]]
    as longitudes. *)
Definition deg2num_table (lat_deg lon_deg : Q) (zoom : Z) : Z * Z :=
  let at_ (lat lon : Z) :=
    Qeq_bool lat_deg (inject_Z lat) && Qeq_bool lon_deg (inject_Z lon) in
  let tiles :=
    if at_ 35 0 then [(0,0); (1,0); (2,1); (4,3); (8,6); (16,12); (32,25)]
    else if at_ 60 30 then [(0,0); (1,0); (2,1); (4,2); (9,4); (18,9); (37,18)]
    else if at_ (-10) (-80) then [(0,0); (0,1); (1,2); (2,4); (4,8); (8,16); (17,33)]
    else if at_ 70 (-10) then [(0,0); (0,0); (1,0); (3,1); (7,3); (15,7); (30,14)]
    else if at_ 47 0 then [(0,0); (1,0); (2,1); (4,2); (8,5); (16,11); (32,22)]
    else if at_ 48 70 then [(0,0); (1,0); (2,1); (5,2); (11,5); (22,11); (44,22)]
    else [] in
  if zoom <? 0 then (0, 0) else nth (Z.to_nat zoom) tiles (0, 0).

Definition box (a b c d : Z) : bbox :=
  {| BB0 := inject_Z a; BB1 := inject_Z b; BB2 := inject_Z c; BB3 := inject_Z d |}.

Definition source (b : bbox) (parts : list string) (lo hi : Z) : MapSource :=
  {| DownloadURL := "https://{server}.example.org/{z}/{x}/{y}.pbf";
     ServerParts := parts; MBtilesDB := "map.mbtiles"; MapName := "map";
     max_z := hi; BoundingBox := b; ReadSpacing := inject_Z 1; min_z0 := lo |}.

Definition europe : bbox := box 35 0 60 30.
Definition atlantic : bbox := box (-10) (-80) 70 (-10).
Definition strip : bbox := box 47 0 48 70.

Definition env (interval : Z) (maps : list (string * MapSource))
    (http : nat -> Z) (stop : nat -> bool) (saved : option Status)
    : environment :=
  {| WriteInterval := interval; Maplist := maps; deg2num := deg2num_table;
     http_status := http; stop_signal := stop; disk_StateFile := saved;
     disk_MapStatus := fun _ => None |}.

Definition never : nat -> bool := fun _ => false.
Definition always200 : nat -> Z := fun _ => 200.

Definition result_state (r : run_result) : state :=
  match r with
  | Exited s => s
  | Crashed _ s => s
  | StillRunning s => s
  end.

Definition saves (t : list event) : list (save_site * Status) :=
  flat_map (fun e => match e with
                     | EvWriteGlobalStatus site st => [(site, st)]
                     | _ => []
                     end) t.

Definition flushes (t : list event) : list nat :=
  flat_map (fun e => match e with
                     | EvWriteToDB _ tiles => [length tiles]
                     | _ => []
                     end) t.

(** Two mirrors; the first tile is answered 500 then 404, the next ones 200. *)
Definition env_mixed : environment :=
  env 250 [("eu", source europe ["a"; "b"] 3 3)]
    (fun n => match n with 0%nat => 500 | 1%nat => 404 | _ => 200 end)
    never None.

(** One mirror, threshold 3, the seven tiles of zoom 5 of [strip]. *)
Definition env_seven : environment :=
  env 3 [("st", source strip ["a"] 5 5)] always200 never None.

(** The same box at zoom 6 has thirteen tiles; a stop signal arrives during
    the seventh request (the store is opened at time 0, request [k] is sent
    at time [2k - 1]). *)
Definition env_seven_stopped : environment :=
  env 3 [("st", source strip ["a"] 6 6)] always200
    (fun n => (n =? 13)%nat) None.

(** One mirror, zoom levels 1 and 2 of [europe], one tile each. *)
Definition env_two_zooms : environment :=
  env 250 [("eu", source europe ["a"] 1 2)] always200 never None.

(** Threshold 1: every fetched tile is flushed at once.  Zoom 3 of [europe]
    has the two tiles (4,2) and (4,3). *)
Definition env_flush_each : environment :=
  env 1 [("eu", source europe ["a"] 3 3)] always200 never None.

(** The first tile of zoom 3 is delivered, the second is answered 500. *)
Definition env_broken : environment :=
  env 250 [("eu", source europe ["a"] 3 3)]
    (fun n => if (n =? 0)%nat then 200 else 500) never None.

(** A run of [atlantic], zoom 1 to 2, that finds the checkpoint the script
    writes when it enters zoom 2: zoom 1 (the first zoom of the pass) with
    the minimum column 1 and the minimum row 0 of the rectangle of zoom 2. *)
Definition env_resumed : environment :=
  env 250 [("at", source atlantic ["a"] 1 2)] always200 never
    (Some (mkStatus 0 1 0 1 0)).

Definition added (t : list event) : list (Z * Z) :=
  flat_map (fun e => match e with
                     | EvLog (MsgAdded n total) => [(n, total)]
                     | _ => []
                     end) t.

(** The tiles the column loop reached, as [(zoom, column, row)]. *)
Definition enumerated (t : list event) : list (Z * Z * Z) :=
  flat_map (fun e => match e with
                     | EvTile z x y => [(z, x, y)]
                     | _ => []
                     end) t.

(** The tiles delivered with status 200. *)
Definition fetched (t : list event) : list (Z * Z * Z) :=
  flat_map (fun e => match e with
                     | EvGet _ x y z 200 => [(z, x, y)]
                     | _ => []
                     end) t.

Definition position (st : Status) : Z * Z * Z := (St_Z st, St_X st, St_Y st).

Definition same_tile (a b : Z * Z * Z) : bool :=
  let '(z, x, y) := a in
  let '(z', x', y') := b in
  (z =? z') && (x =? x') && (y =? y').

(** Does every checkpoint written on a batch flush hold the position of the
    tile that is attempted next, when there is one? *)
Fixpoint flush_saves_point_ahead (t : list event) : bool :=
  match t with
  | [] => true
  | EvWriteGlobalStatus AtBatchFlush st :: t' =>
      match enumerated t' with
      | next :: _ => same_tile (position st) next
      | [] => true
      end && flush_saves_point_ahead t'
  | _ :: t' => flush_saves_point_ahead t'
  end.

(** A checkpoint inside the grid: zoom 3 of [atlantic] is the rectangle
    (2,1)-(3,4). *)
Definition env_resumed_inside : environment :=
  env 250 [("at", source atlantic ["a"] 1 3)] always200 never
    (Some (mkStatus 0 3 2 3 5)).

(** A fresh run of the configuration of [env_resumed]: the two tiles of zoom
    1 are answered 404, and a stop signal arrives during the first request
    of zoom 2 (time 5). *)
Definition env_interrupted : environment :=
  env 250 [("at", source atlantic ["a"] 1 2)] (fun _ => 404)
    (fun n => (n =? 5)%nat) None.


(** Two sources that do not have the same number of mirrors: zoom 1 of
    [europe] (one tile) with two mirrors, then zoom 6 of [strip] with one. *)
Definition env_uneven : environment :=
  env 250 [("eu", source europe ["a"; "b"] 1 1); ("st", source strip ["a"] 6 6)]
    always200 never None.

(** ** Observations on a history *)

(** [N] calls of the rotator of lines 248-251 in a row, from index [i]: the
    index used and the mirror obtained at each call. *)
Fixpoint next_calls (parts : list string) (N i : nat)
    : option (list (nat * string)) :=
  match N with
  | O => Some []
  | S N' =>
      match next_ServerPart parts i with
      | None => None
      | Some (ServerPart, i') =>
          option_map (cons (i, ServerPart)) (next_calls parts N' i')
      end
  end.

(** The [t]-th call from index [i] uses index [(i + t) mod L]. *)
Definition rotation (parts : list string) (i t : nat) : nat * string :=
  let j := ((i + t) mod length parts)%nat in (j, nth j parts "").

(** The requests of a retry cycle of [r] attempts for tile [(Zv, Xv, Yv)],
    the first one being request number [req] on mirror number [i]. *)
Definition attempts (E : environment) (parts : list string) (i : nat)
    (Zv Yv Xv : Z) (req r : nat) : list event :=
  map (fun k => EvGet (snd (rotation parts i k)) Xv Yv Zv
                  (http_status E (req + k)))
      (seq 0 r).

(** What is logged when the last attempt of a cycle returned [code]. *)
Definition verdict (Zv Yv Xv : Z) (code : Z) (server : string) : list event :=
  if code =? 404 then [EvLog (MsgOutOfBounds Zv Xv Yv)]
  else [EvLog (MsgFailed Zv Xv Yv); EvLog (MsgFailedStatus code);
        EvLog (MsgFailedURL server); EvLog MsgFailedRequestHeaders;
        EvLog MsgFailedResponseHeaders].

(** A property of the state a piece of the script ends in: [R] when it ends
    normally, [C] when it raises. *)
Definition holds (R C : state -> Prop) (o : outcome) : Prop :=
  match o with
  | Ok s => R s
  | Crash _ s => C s
  end.

(** An append to [VectorTiles] that stays within the flush threshold. *)
Definition within (E : environment) (e : event) : Prop :=
  match e with
  | EvBuffered n => Z.of_nat n <= WriteInterval E
  | _ => True
  end.

(** What holds of every state of a run that started with history [t0]: the
    history only grows; with a positive threshold the buffer is below it and
    was never above it; [PickupStatus] is bound while [PickupDone] is false. *)
Record Core (E : environment) (t0 : list event) (s : state) : Prop := {
  core_grows : exists evs, trace s = t0 ++ evs;
  core_buffer : 1 <= WriteInterval E ->
                Z.of_nat (length (VectorTiles s)) < WriteInterval E /\
                Forall (within E) (trace s);
  core_pickup : PickupDone s = false -> PickupStatus s <> None }.

(** The loop variables [Z], [Y], [X] are bound inside their loops (flags
    [z], [y], [x]) and, outside, as soon as a tile was fetched. *)
Definition Vars (z y x : bool) (s : state) : Prop :=
  (cur_Z s <> None \/ (z = false /\ SessionTileCount s <= 0)) /\
  (cur_Y s <> None \/ (y = false /\ SessionTileCount s <= 0)) /\
  (cur_X s <> None \/ (x = false /\ SessionTileCount s <= 0)).

Definition At (E : environment) (t0 : list event) (z y x : bool) (s : state)
    : Prop :=
  Core E t0 s /\ Vars z y x s.

(** The fatal branch of the retry loop (lines 273-279) was never taken. *)
Definition not_failure (e : event) : Prop :=
  match e with
  | EvLog (MsgFailed _ _ _) => False
  | _ => True
  end.

Definition Clean (s : state) : Prop := Forall not_failure (trace s).

(** The fatal branch was taken once, for tile [(z, x, y)], and the loops have
    not assigned their variables since. *)
Definition Halted (z x y : Z) (s : state) : Prop :=
  Run s = false /\
  cur_X s = Some x /\ cur_Y s = Some y /\ cur_Z s = Some z /\
  forall z' x' y', In (EvLog (MsgFailed z' x' y')) (trace s) ->
                   (z', x', y') = (z, x, y).

(** ... and the code after the loops has run. *)
Definition HaltedSaved (z x y : Z) (s : state) : Prop :=
  Halted z x y s /\
  VectorTiles s = [] /\
  (0 < SessionTileCount s ->
   StateFile s = Some (mkStatus (SourceCounter s) x y z (TotalTileCount s))).

Definition agrees (expected current : option Z) : Prop :=
  match expected with
  | None => True
  | Some v => current = Some v
  end.

(** No failure so far, and the loop variables that are known hold the given
    values. *)
Definition Going (z y x : option Z) (s : state) : Prop :=
  Clean s /\ agrees z (cur_Z s) /\ agrees y (cur_Y s) /\ agrees x (cur_X s).



(** The tiles of a source from zoom [lo] on, in the order of the loops:
    zoom, then row, then column. *)
Definition grid (E : environment) (src : MapSource) (lo : Z)
    : list (Z * Z * Z) :=
  flat_map
    (fun z =>
       let '(min_x, min_y, max_x, max_y) := tile_rect E src z in
       flat_map (fun y => map (fun x => (z, x, y)) (range min_x (max_x + 1)))
         (range min_y (max_y + 1)))
    (range lo (max_z src + 1)).

(** The state of a process in which nothing is buffered and no tile was
    reached yet. *)
Definition Fresh (E : environment) (s : state) : Prop :=
  VectorTiles s = [] /\ Forall (within E) (trace s) /\ enumerated (trace s) = [].

(** [o] ends in a state whose history starts with a history without tiles
    followed by tile [(z, x, y)]. *)
Definition Starts (E : environment) (z x y : Z) (f : bool * bool * bool)
    (o : outcome) : Prop :=
  exists t, enumerated t = [] /\
    holds (let '(fz, fy, fx) := f in At E (t ++ [EvTile z x y]) fz fy fx)
      (Core E (t ++ [EvTile z x y])) o.

(** The arithmetic of the buffer: [n] tiles appended one by one to a buffer
    of [b] tiles that is emptied whenever it holds [w].  The result is the
    sizes of the batches written and the number of tiles left. *)
Fixpoint batches (w b n : nat) : list nat * nat :=
  match n with
  | O => ([], b)
  | S n' =>
      if (S b =? w)%nat
      then (w :: fst (batches w 0 n'), snd (batches w 0 n'))
      else batches w (S b) n'
  end.

(** The [(batch size, new total)] pairs logged for batches of the given
    sizes, from total [T]. *)
Fixpoint logged_totals (T : Z) (sizes : list nat) : list (Z * Z) :=
  match sizes with
  | [] => []
  | n :: sizes' =>
      (Z.of_nat n, T + Z.of_nat n) :: logged_totals (T + Z.of_nat n) sizes'
  end.

(** ** Tiles delivered one after the other *)

(** State [s] was reached from [s0] by [n] tiles delivered at the first
    attempt, and by nothing else that touches the buffer or the store: the
    batches written are those of [batches] for threshold [w].  No checkpoint
    is being picked up. *)
Record Fed (src : MapSource) (w : nat) (s0 s : state) (n : nat) : Prop := {
  fed_rotator : (ServerPartNumber s < length (ServerParts src))%nat;
  fed_pickup : PickupDone s = true;
  fed_requests : requests s = (requests s0 + n)%nat;
  fed_session : SessionTileCount s = SessionTileCount s0 + Z.of_nat n;
  fed_buffer : length (VectorTiles s)
               = snd (batches w (length (VectorTiles s0)) n);
  fed_added : added (trace s)
              = added (trace s0)
                ++ logged_totals (TotalTileCount s0)
                     (fst (batches w (length (VectorTiles s0)) n));
  fed_flushes : flushes (trace s)
                = flushes (trace s0)
                  ++ fst (batches w (length (VectorTiles s0)) n);
  fed_total : TotalTileCount s
              = TotalTileCount s0
                + Z.of_nat (list_sum
                              (fst (batches w (length (VectorTiles s0)) n))) }.

(** ... and the loops go on: [Run] is set, every tile took a request and a
    sleep since time [c0], and a stop signal that arrives during the request
    of tile number [M] (counted from 0) is still ahead. *)
Definition Feeding (E : environment) (src : MapSource) (w M : nat)
    (s0 : state) (c0 : nat) (s : state) (n : nat) : Prop :=
  Fed src w s0 s n /\ Run s = true /\ clock s = (c0 + 2 * n)%nat /\
  (stop_signal E (c0 + 2 * M) = true -> (n <= M)%nat).

(** The state after a part of the loops that holds [n] tiles all told: the
    loops go on, or they were stopped when tile number [M] had been
    delivered. *)
Definition Fed_up (E : environment) (src : MapSource) (w M : nat)
    (s0 : state) (c0 : nat) (s : state) (n : nat) : Prop :=
  Feeding E src w M s0 c0 s n \/ (Fed src w s0 s (S M) /\ Run s = false).

(** The number of tiles of zoom level [z]. *)
Definition zoom_size (E : environment) (src : MapSource) (z : Z) : nat :=
  length
    (let '(min_x, min_y, max_x, max_y) := tile_rect E src z in
     flat_map (fun y => map (fun x => (z, x, y)) (range min_x (max_x + 1)))
       (range min_y (max_y + 1))).

(** Seven tiles over three zoom levels: zoom 2 to 4 of [strip] have 1, 2 and
    4 tiles. *)
Definition env_three_zooms : environment :=
  env 3 [("st", source strip ["a"] 2 4)] always200 never None.

(** Zoom 3 of [atlantic] has four rows of two tiles; a stop signal arrives
    during the seventh request (time 13). *)
Definition env_rows_stopped : environment :=
  env 3 [("at", source atlantic ["a"] 3 3)] always200
    (fun n => (n =? 13)%nat) None.

(** ** The columns of [deg2num] (line 85)

    [xtile = int((lon_deg + 180.0) / 360.0 * n)] with [n = 2.0 ** zoom], in
    the arithmetic of doubles: the kernel's floats are IEEE 754 binary64
    numbers with rounding to nearest even, as Python's are.  The row of line
    86 goes through [math.tan] and [math.asinh] and stays with the
    environment. *)

From Stdlib Require PrimFloat FloatOps SpecFloat Uint63.

Module Deg2num.

(** An integer below [2 ** 53] in absolute value is a double. *)
Definition exact (n : Z) : option PrimFloat.float :=
  if Z.abs n <? 2 ^ 53 then
    Some (if n <? 0 then PrimFloat.opp (PrimFloat.of_uint63 (Uint63.of_Z (- n)))
          else PrimFloat.of_uint63 (Uint63.of_Z n))
  else None.



(** [int(f)]: truncation towards zero; an exception for an infinity or a
    NaN. *)
Definition int (f : PrimFloat.float) : option Z :=
  match FloatOps.Prim2SF f with
  | SpecFloat.S754_zero _ => Some 0
  | SpecFloat.S754_finite s m e =>
      let v := if 0 <=? e then Zpos m * 2 ^ e else Zpos m / 2 ^ (- e) in
      Some (if s then - v else v)
  | _ => None
  end.


End Deg2num.





(** * Further observations

    What follows serves the properties proved at the end of the file: more
    ways of reading a history, the invariants behind them, and the text the
    script writes to its status files and puts into its URLs, which the run
    above keeps as numbers and events. *)

From Stdlib Require Import Ascii.
From Stdlib Require Decimal DecimalString DecimalZ.

(** ** Stop signals *)

(** A stop signal delivered during a blocking operation already performed
    has cleared [Run], and at most one more blocking operation followed. *)
Definition Prompt (E : environment) (s : state) : Prop :=
  forall n, (n < clock s)%nat -> stop_signal E n = true ->
            Run s = false /\ (clock s <= n + 2)%nat.

(** ... and if there was one, it was the last operation performed. *)
Definition Armed (E : environment) (s : state) : Prop :=
  forall n, (n < clock s)%nat -> stop_signal E n = true ->
            Run s = false /\ clock s = S n.

(** The blocking operations of a history, in order: the requests, the
    sleeps, and the openings of the store at the head of a turn of the main
    loop (line 198).  They are the operations [clock] counts and the moments
    [stop_signal] speaks of. *)
Definition timed (t : list event) : list event :=
  filter (fun e => match e with
                   | EvGet _ _ _ _ _ | EvSleep _ | EvMeta _ => true
                   | _ => false
                   end) t.

Definition request (e : event) : bool :=
  match e with
  | EvGet _ _ _ _ _ => true
  | _ => false
  end.

(** Every blocking operation performed is in the history; as long as [Run] is
    set none of them was signalled; and every sleep and every opening of the
    store was started with no signal delivered before. *)
Definition Heeded (E : environment) (s : state) : Prop :=
  clock s = length (timed (trace s)) /\
  (Run s = true -> forall j, (j < clock s)%nat -> stop_signal E j = false) /\
  forall k e, nth_error (timed (trace s)) k = Some e -> request e = false ->
              forall j, (j < k)%nat -> stop_signal E j = false.

(** The run of [env_seven_stopped] with the stop signal one operation
    earlier, during the sleep after the sixth tile. *)
Definition env_stopped_asleep : environment :=
  env 3 [("st", source strip ["a"] 6 6)] always200
    (fun n => (n =? 12)%nat) None.

(** ** Exceptions *)

(** A property of the way a piece of the script ends: [R] of the state when
    it ends normally, [P] of the exception when it raises. *)
Definition ends (R : state -> Prop) (P : exn -> Prop) (o : outcome) : Prop :=
  match o with
  | Ok s => R s
  | Crash e _ => P e
  end.


(** [M], and the checkpoint read at start is there as long as the resume
    branches of lines 233 and 240 can be taken. *)
Definition Bound (M : state -> Prop) (s : state) : Prop :=
  M s /\ (PickupDone s = false -> PickupStatus s <> None).

(** ** The order of the tiles *)

(** From state [s], [o] has reached the tiles of a first part of [full], in
    order and nothing else; all of [full] when it ended normally with [Run]
    still set.  No checkpoint is being picked up. *)
Definition Swept (s : state) (full : list (Z * Z * Z)) (o : outcome) : Prop :=
  exists reached rest,
    full = reached ++ rest /\
    enumerated (trace (final o)) = enumerated (trace s) ++ reached /\
    match o with
    | Ok s' => PickupDone s' = true /\ (Run s' = true -> rest = [])
    | Crash _ _ => True
    end.

(** Zoom levels 1 and 2 of [europe], found with a checkpoint at zoom 2,
    column 0, row 1 and 5 tiles collected. *)
Definition env_column_zero : environment :=
  env 250 [("eu", source europe ["a"] 1 2)] always200 never
    (Some (mkStatus 0 0 1 2 5)).

(** ** The end of a pass *)

(** The archive copies made (line 305): the store copied and the number that
    goes into the name of the copy. *)
Definition archives (t : list event) : list (string * Z) :=
  flat_map (fun e => match e with
                     | EvCopy db loops => [(db, loops)]
                     | _ => []
                     end) t.

(** Since [s0], nothing was done that belongs to the end of a pass. *)
Definition Framed (s0 s : state) : Prop :=
  MapStatusFiles s = MapStatusFiles s0 /\
  FullLoops s = FullLoops s0 /\
  SourceCounter s = SourceCounter s0 /\
  archives (trace s) = archives (trace s0).

(** ** The store and the totals *)

(** The tiles written to the store, in order. *)
Definition written (t : list event) : list Tile :=
  flat_map (fun e => match e with
                     | EvWriteToDB _ tiles => tiles
                     | _ => []
                     end) t.

Definition tile_key (t : Tile) : Z * Z * Z := (tile_z t, tile_x t, tile_y t).

(** The key under which tile [(z, x, y)] of the crawl is stored (line 258,
    with [Yconversion] of line 222), for a zoom level that is not negative:
    below 0 Python's [2 ** Z] is a float, which [2 ^ z] on [Z] is not. *)
Definition store_key (p : Z * Z * Z) : Z * Z * Z :=
  let '(z, x, y) := p in (z, x, 2 ^ z - 1 - y).

(** Written or buffered: exactly the tiles delivered so far. *)
Definition Stored (s : state) : Prop :=
  map tile_key (written (trace s) ++ VectorTiles s)
  = map store_key (fetched (trace s)).

Definition Counted (s : state) : Prop :=
  SessionTileCount s = Z.of_nat (length (fetched (trace s))).

(** Reading a history from the start with the running total [T] of the pass
    under way: the total restored from the checkpoint at start, plus the
    sizes of the writes to the store since, back to 0 when a pass is
    completed.  [None] when a checkpoint or an "Added" log line carries
    another total. *)
Fixpoint tally (T : Z) (t : list event) : option Z :=
  match t with
  | [] => Some T
  | EvLog (MsgPickup _ _ _ _ total) :: t' => tally total t'
  | EvWriteToDB _ tiles :: t' => tally (T + Z.of_nat (length tiles)) t'
  | EvLog (MsgAdded _ total) :: t' =>
      if total =? T then tally T t' else None
  | EvWriteGlobalStatus _ st :: t' =>
      if St_TotalTileCount st =? T then tally T t' else None
  | EvLog MsgWholeArea :: t' => tally 0 t'
  | _ :: t' => tally T t'
  end.

Definition Tallied (s : state) : Prop :=
  tally 0 (trace s) = Some (TotalTileCount s).

(** ** Requests and pauses *)

(** The requests answered, in order: the tile asked for and the status. *)
Definition answers (t : list event) : list (Z * Z * Z * Z) :=
  flat_map (fun e => match e with
                     | EvGet _ x y z code => [((z, x, y), code)]
                     | _ => []
                     end) t.

(** Reading a history from the start: [Some slept] when every tile but the
    first was reached after a sleep that followed the tile before it,
    [slept] telling whether the script has slept since the last tile. *)
Fixpoint pace (slept : bool) (t : list event) : option bool :=
  match t with
  | [] => Some slept
  | EvTile _ _ _ :: t' => if slept then pace false t' else None
  | EvSleep _ :: t' => pace true t'
  | _ :: t' => pace slept t'
  end.

Definition Paced (s : state) : Prop := pace true (trace s) = Some true.

(** ... or the last tile was the one after which [Run] was found cleared. *)
Definition Pacing (s : state) : Prop :=
  exists slept, pace true (trace s) = Some slept /\
                (slept = false -> Run s = false).

Definition Timed (s : state) : Prop := pace true (trace s) <> None.

(** ** The status files as text (lines 89-118)

    The run above keeps of a status file the numbers written to it.  Here is
    the text: what [WriteGlobalStatus] and [WriteMapStatus] put in the file
    and what [ReadGlobalStatus] and [ReadMapStatus] make of a file.  A file
    is a string of ASCII characters; [None] is a [ValueError]. *)
Module Text.

Definition LF : ascii := "010"%char.
Definition CR : ascii := "013"%char.

(** A file opened with mode ['r'] is read with universal newlines: a
    carriage return, alone or followed by a line feed, is a line feed. *)
Fixpoint universal_newlines (f : string) : string :=
  match f with
  | EmptyString => EmptyString
  | String c t =>
      if Ascii.eqb c CR then
        match t with
        | String c' t' =>
            if Ascii.eqb c' LF then String LF (universal_newlines t')
            else String LF (universal_newlines t)
        | EmptyString => String LF EmptyString
        end
      else String c (universal_newlines t)
  end.

(** [readline()]: the text up to the first line feed, included, and what is
    left of the file. *)
Fixpoint readline (f : string) : string * string :=
  match f with
  | EmptyString => (EmptyString, EmptyString)
  | String c t =>
      if Ascii.eqb c LF then (String LF EmptyString, t)
      else let (line, rest) := readline t in (String c line, rest)
  end.

(** Since Python 3.11 the conversions between [int] and [str] refuse numbers
    of more than [sys.get_int_max_str_digits()] digits (4300 unless set
    otherwise); the limit is 0 (no limit, as in the older versions) or at
    least 640.  The sign, the underscores and the white space do not count,
    leading zeros do. *)
Definition refused (max_str_digits digits : nat) : bool :=
  (0 <? max_str_digits)%nat && (max_str_digits <? digits)%nat.

(** [str(n)] of an integer. *)
Definition str (max_str_digits : nat) (n : Z) : option string :=
  let d := Z.to_int n in
  if refused max_str_digits (Decimal.nb_digits (Decimal.abs d)) then None
  else Some (DecimalString.NilZero.string_of_int d).

Definition digit (c : ascii) : option (Decimal.uint -> Decimal.uint) :=
  match c with
  | "0" => Some Decimal.D0
  | "1" => Some Decimal.D1
  | "2" => Some Decimal.D2
  | "3" => Some Decimal.D3
  | "4" => Some Decimal.D4
  | "5" => Some Decimal.D5
  | "6" => Some Decimal.D6
  | "7" => Some Decimal.D7
  | "8" => Some Decimal.D8
  | "9" => Some Decimal.D9
  | _ => None
  end%char.

(** The white space [int] passes over: tab, line feed, vertical tab, form
    feed, carriage return and space. *)
Definition isspace (c : ascii) : bool :=
  let n := nat_of_ascii c in
  ((9 <=? n) && (n <=? 13) || (n =? 32))%nat.

Fixpoint lstrip (s : string) : string :=
  match s with
  | EmptyString => EmptyString
  | String c t => if isspace c then lstrip t else s
  end.

Fixpoint all_space (s : string) : bool :=
  match s with
  | EmptyString => true
  | String c t => isspace c && all_space t
  end.

(** The digits of an integer literal followed by white space only: at least
    one digit, single underscores between digits.  [after_digit] tells
    whether the character before was a digit. *)
Fixpoint digits (s : string) (after_digit : bool) : option Decimal.uint :=
  match s with
  | EmptyString => if after_digit then Some Decimal.Nil else None
  | String c t =>
      match digit c with
      | Some d => option_map d (digits t true)
      | None =>
          if Ascii.eqb c "_" then
            if after_digit then digits t false else None
          else if isspace c && after_digit && all_space t
               then Some Decimal.Nil
               else None
      end
  end.

(** [int(s)] of a string: white space, an optional sign, the digits, white
    space. *)
Definition int (max_str_digits : nat) (s : string) : option Z :=
  let s := lstrip s in
  let (negative, s) :=
    match s with
    | String "-" t => (true, t)
    | String "+" t => (false, t)
    | _ => (false, s)
    end in
  match digits s false with
  | None => None
  | Some u =>
      if refused max_str_digits (Decimal.nb_digits u) then None
      else Some (if negative then - Z.of_uint u else Z.of_uint u)
  end.

(** Lines 89-97.  A file opened with mode ['w'] gets the line separator of
    the platform, [linesep], for each line feed written. *)
Definition WriteGlobalStatus (max_str_digits : nat) (linesep : string)
    (Source X Y Zv Total : Z) : option string :=
  match str max_str_digits Source, str max_str_digits Zv,
        str max_str_digits X, str max_str_digits Y,
        str max_str_digits Total with
  | Some source, Some z, Some x, Some y, Some total =>
      Some (source ++ linesep ++ z ++ linesep ++ x ++ linesep ++
            y ++ linesep ++ total ++ linesep)%string
  | _, _, _, _, _ => None
  end.

(** Lines 99-107. *)
Definition ReadGlobalStatus (max_str_digits : nat) (file : string)
    : option Status :=
  let f := universal_newlines file in
  let (line, f) := readline f in
  match int max_str_digits line with
  | None => None
  | Some Source =>
      let (line, f) := readline f in
      match int max_str_digits line with
      | None => None
      | Some Zv =>
          let (line, f) := readline f in
          match int max_str_digits line with
          | None => None
          | Some X =>
              let (line, f) := readline f in
              match int max_str_digits line with
              | None => None
              | Some Y =>
                  let (line, f) := readline f in
                  match int max_str_digits line with
                  | None => None
                  | Some Total => Some (mkStatus Source X Y Zv Total)
                  end
              end
          end
      end
  end.

(** Lines 109-112. *)
Definition WriteMapStatus (max_str_digits : nat) (linesep : string)
    (FullLoops : Z) : option string :=
  match str max_str_digits FullLoops with
  | Some loops => Some (loops ++ linesep)%string
  | None => None
  end.

(** Lines 114-118. *)
Definition ReadMapStatus (max_str_digits : nat) (file : string) : option Z :=
  let f := universal_newlines file in
  let (line, f) := readline f in
  int max_str_digits line.

(** The number of line feeds of a text. *)
Fixpoint newlines (f : string) : nat :=
  match f with
  | EmptyString => 0
  | String c t => if Ascii.eqb c LF then S (newlines t) else newlines t
  end.

(** No character of [s] ends a line. *)
Fixpoint plain (s : string) : bool :=
  match s with
  | EmptyString => true
  | String c t => negb (Ascii.eqb c LF) && negb (Ascii.eqb c CR) && plain t
  end.

End Text.

(** ** The names built with [str.replace] (lines 253 and 305) *)
Module Names.

(** [s.startswith(old)] *)
Fixpoint startswith (old s : string) : bool :=
  match old with
  | EmptyString => true
  | String a old' =>
      match s with
      | EmptyString => false
      | String b s' => Ascii.eqb a b && startswith old' s'
      end
  end.

(** [s.replace(old, new)] for an empty [old]: [new] before every character
    and at the end. *)
Fixpoint intersperse (new s : string) : string :=
  match s with
  | EmptyString => new
  | String c t => (new ++ String c (intersperse new t))%string
  end.

(** [s.replace(old, new)] for a non-empty [old], reading [s] from the left;
    [skip] is the number of characters of an occurrence just replaced that
    are still to be passed over. *)
Fixpoint replace_from (old new : string) (skip : nat) (s : string) : string :=
  match s with
  | EmptyString => EmptyString
  | String c t =>
      match skip with
      | S k => replace_from old new k t
      | O =>
          if startswith old s
          then (new ++ replace_from old new (String.length old - 1) t)%string
          else String c (replace_from old new 0 t)
      end
  end.

(** [s.replace(old, new)]: every occurrence of [old], from the left and
    without overlap. *)
Definition replace (old new s : string) : string :=
  match old with
  | EmptyString => intersperse new s
  | String _ _ => replace_from old new 0 s
  end.

(** Line 253. *)
Definition URL (max_str_digits : nat) (DownloadURL ServerPart : string)
    (X Y Zv : Z) : option string :=
  match Text.str max_str_digits X, Text.str max_str_digits Y,
        Text.str max_str_digits Zv with
  | Some x, Some y, Some z =>
      Some (replace "{z}" z
              (replace "{y}" y
                 (replace "{x}" x
                    (replace "{server}" ServerPart DownloadURL))))
  | _, _, _ => None
  end.

(** Line 305: the file the store is copied to. *)
Definition archive_name (max_str_digits : nat) (MBtilesDB : string)
    (FullLoops : Z) : option string :=
  match Text.str max_str_digits FullLoops with
  | Some loops => Some (replace ".mbtiles" (loops ++ ".mbtiles") MBtilesDB)
  | None => None
  end.

(** A URL template cut into its literal parts and its placeholders. *)
Inductive hole := HServer | HX | HY | HZ.

Inductive segment :=
| Lit (s : string)
| Hole (h : hole).

Definition placeholder (h : hole) : string :=
  match h with
  | HServer => "{server}"
  | HX => "{x}"
  | HY => "{y}"
  | HZ => "{z}"
  end.

Fixpoint render (f : hole -> string) (segs : list segment) : string :=
  match segs with
  | [] => EmptyString
  | Lit s :: segs' => (s ++ render f segs')%string
  | Hole h :: segs' => (f h ++ render f segs')%string
  end.

Definition fill (server x y z : string) (h : hole) : string :=
  match h with
  | HServer => server
  | HX => x
  | HY => y
  | HZ => z
  end.

Definition hole_eqb (h h' : hole) : bool :=
  match h, h' with
  | HServer, HServer | HX, HX | HY, HY | HZ, HZ => true
  | _, _ => false
  end.

(** [c] is not a character of [s]. *)
Fixpoint lacks (c : ascii) (s : string) : bool :=
  match s with
  | EmptyString => true
  | String c' t => negb (Ascii.eqb c c') && lacks c t
  end.

(** [old in s] *)
Fixpoint occurs (old s : string) : bool :=
  startswith old s ||
  match s with
  | EmptyString => false
  | String _ t => occurs old t
  end.

End Names.

(** * Properties *)

(** Reading a field of an updated state. *)
Ltac fields :=
  cbn [ServerPartNumber SessionTileCount TotalTileCount SourceCounter
       VectorTiles Run PickupDone PickupStatus min_z MapRun FullLoops
       cur_Z cur_Y cur_X StateFile MapStatusFiles clock requests trace
       set_ServerPartNumber set_SessionTileCount set_TotalTileCount
       set_SourceCounter set_VectorTiles set_Run set_PickupDone
       set_PickupStatus set_min_z set_MapRun set_FullLoops set_cur_Z
       set_cur_Y set_cur_X set_StateFile set_MapStatusFiles set_clock
       set_requests set_trace
       Log emit WriteGlobalStatus WriteMapStatus WriteToDB tile_failed
       blocking sleep fst snd].

Tactic Notation "fields" "in" hyp(H) :=
  cbn [ServerPartNumber SessionTileCount TotalTileCount SourceCounter
       VectorTiles Run PickupDone PickupStatus min_z MapRun FullLoops
       cur_Z cur_Y cur_X StateFile MapStatusFiles clock requests trace
       set_ServerPartNumber set_SessionTileCount set_TotalTileCount
       set_SourceCounter set_VectorTiles set_Run set_PickupDone
       set_PickupStatus set_min_z set_MapRun set_FullLoops set_cur_Z
       set_cur_Y set_cur_X set_StateFile set_MapStatusFiles set_clock
       set_requests set_trace
       Log emit WriteGlobalStatus WriteMapStatus WriteToDB tile_failed
       blocking sleep fst snd] in H.

(** ** The mirror rotator *)

Lemma next_index_mod (L n : nat) :
  (n < L)%nat -> (if (S n =? L)%nat then 0%nat else S n) = (S n mod L)%nat.
Proof.
  intros Hn. destruct (Nat.eqb_spec (S n) L) as [->|Hne].
  - now rewrite Nat.Div0.mod_same.
  - rewrite Nat.mod_small; lia.
Qed.

Lemma next_ServerPart_in_range (parts : list string) (i : nat) :
  (i < length parts)%nat ->
  next_ServerPart parts i
  = Some (nth i parts "", (S i mod length parts)%nat).
Proof.
  intros Hi. unfold next_ServerPart.
  rewrite (nth_error_nth' parts "" Hi), next_index_mod; auto.
Qed.

Lemma next_calls_rotation (parts : list string) (N : nat) :
  forall i, (i < length parts)%nat ->
  next_calls parts N i = Some (map (rotation parts i) (seq 0 N)).
Proof.
  induction N as [|N IH]; intros i Hi; [reflexivity|].
  cbn [next_calls]. rewrite (next_ServerPart_in_range _ _ Hi).
  rewrite IH by (apply Nat.mod_upper_bound; lia).
  cbn [option_map seq map]. f_equal. f_equal.
  - unfold rotation. rewrite Nat.add_0_r, Nat.mod_small; auto.
  - rewrite <- seq_shift, map_map. apply map_ext. intros t.
    unfold rotation.
    replace ((S i mod length parts + t) mod length parts)%nat
      with ((i + S t) mod length parts)%nat; auto.
    rewrite Nat.Div0.add_mod_idemp_l. f_equal. lia.
Qed.

Lemma rotation_indices_NoDup (L i : nat) :
  NoDup (map (fun t => ((i + t) mod L)%nat) (seq 0 L)).
Proof.
  destruct (Nat.eq_dec L 0) as [->|HL]; [constructor|].
  apply NoDup_nth with (d := 0%nat). intros a b.
  rewrite !length_map, !length_seq. intros Ha Hb.
  rewrite !(nth_indep _ 0%nat ((i + 0) mod L)%nat)
    by (rewrite length_map, length_seq; lia).
  rewrite !(map_nth (fun t => ((i + t) mod L)%nat)), !seq_nth by lia.
  cbn [Nat.add]. intros Heq.
  assert (Hmod : forall t, (t < L)%nat ->
            ((i + t) mod L = if (i mod L + t <? L) then i mod L + t else i mod L + t - L)%nat).
  { intros t Ht. rewrite <- Nat.Div0.add_mod_idemp_l.
    pose proof (Nat.mod_upper_bound i L HL) as Hi.
    destruct (Nat.ltb_spec (i mod L + t) L).
    - apply Nat.mod_small; lia.
    - replace (i mod L + t)%nat with ((i mod L + t - L) + 1 * L)%nat at 1 by lia.
      rewrite Nat.Div0.mod_add. apply Nat.mod_small. lia. }
  rewrite (Hmod a Ha), (Hmod b Hb) in Heq.
  pose proof (Nat.mod_upper_bound i L HL).
  destruct (Nat.ltb_spec (i mod L + a) L), (Nat.ltb_spec (i mod L + b) L); lia.
Qed.

Lemma rotation_indices_count (L i j : nat) :
  (j < L)%nat ->
  count_occ Nat.eq_dec (map (fun t => ((i + t) mod L)%nat) (seq 0 L)) j = 1%nat.
Proof.
  intros Hj.
  apply (proj1 (NoDup_count_occ' Nat.eq_dec _) (rotation_indices_NoDup L i)).
  apply in_map_iff.
  exists ((j + (L - i mod L)) mod L)%nat. split.
  - rewrite Nat.Div0.add_mod_idemp_r, <- Nat.Div0.add_mod_idemp_l.
    pose proof (Nat.mod_upper_bound i L ltac:(lia)).
    replace (i mod L + (j + (L - i mod L)))%nat with (j + 1 * L)%nat by lia.
    rewrite Nat.Div0.mod_add. apply Nat.mod_small; auto.
  - apply in_seq. split; [lia|]. cbn. apply Nat.mod_upper_bound. lia.
Qed.

Lemma seq_from (a len : nat) : seq a len = map (Nat.add a) (seq 0 len).
Proof.
  induction a as [|a IH].
  - cbn. now rewrite map_id.
  - rewrite <- seq_shift, IH, map_map. reflexivity.
Qed.

Lemma rotation_indices_count_rounds (L i j k : nat) :
  (j < L)%nat ->
  count_occ Nat.eq_dec (map (fun t => ((i + t) mod L)%nat) (seq 0 (k * L))) j = k.
Proof.
  intros Hj. induction k as [|k IH]; [reflexivity|].
  replace (S k * L)%nat with (k * L + L)%nat by lia.
  rewrite seq_app, map_app, count_occ_app, IH. cbn [Nat.add].
  enough (count_occ Nat.eq_dec
            (map (fun t => ((i + t) mod L)%nat) (seq (k * L) L)) j = 1%nat) by lia.
  rewrite <- (rotation_indices_count L (i + k * L) j Hj).
  f_equal.
  rewrite (seq_from (k * L)), map_map. apply map_ext. intros t.
  f_equal. lia.
Qed.

Lemma rotation_shift (parts : list string) (i t : nat) :
  rotation parts (S i mod length parts) t = rotation parts i (S t).
Proof.
  unfold rotation.
  replace ((S i mod length parts + t) mod length parts)%nat
    with ((i + S t) mod length parts)%nat; auto.
  rewrite Nat.Div0.add_mod_idemp_l. f_equal. lia.
Qed.

(** ** The retry loop *)

Section Retry.

Variable E : environment.
Variable src : MapSource.
Variables Zv Yv Xv : Z.

Lemma retry_loop_exhausted (r : nat) :
  forall s,
  (ServerPartNumber s < length (ServerParts src))%nat ->
  Run s = true ->
  (forall k, (k < r)%nat -> http_status E (requests s + k) <> 200) ->
  (forall k, (k < r)%nat -> stop_signal E (clock s + k) = false) ->
  exists s',
    retry_loop E src Zv Yv Xv r s = Ok s' /\
    requests s' = (requests s + r)%nat /\
    trace s' = trace s
               ++ attempts E (ServerParts src) (ServerPartNumber s) Zv Yv Xv (requests s) r
               ++ match r with
                  | O => []
                  | S r' => verdict Zv Yv Xv (http_status E (requests s + r'))
                              (snd (rotation (ServerParts src) (ServerPartNumber s) r'))
                  end /\
    Run s' = match r with
             | O => true
             | S r' => http_status E (requests s + r') =? 404
             end.
Proof.
  induction r as [|r IH]; intros s Hi HRun Hhttp Hstop.
  - exists s. cbn. rewrite Nat.add_0_r, app_nil_r. auto.
  - cbn [retry_loop].
    rewrite (next_ServerPart_in_range _ _ Hi).
    pose proof (Hhttp 0%nat ltac:(lia)) as H0. rewrite Nat.add_0_r in H0.
    pose proof (Hstop 0%nat ltac:(lia)) as S0. rewrite Nat.add_0_r in S0.
    cbn [requests set_ServerPartNumber set_requests].
    destruct (Z.eqb_spec (http_status E (requests s)) 200) as [|_]; [contradiction|].
    set (s1 := blocking E (emit _ _)).
    assert (Hs1 : Run s1 = true /\ requests s1 = S (requests s) /\
                  clock s1 = S (clock s) /\
                  ServerPartNumber s1
                  = (S (ServerPartNumber s) mod length (ServerParts src))%nat /\
                  trace s1 = trace s ++ [EvGet (nth (ServerPartNumber s) (ServerParts src) "")
                                           Xv Yv Zv (http_status E (requests s))]).
    { subst s1. fields. rewrite HRun, S0. auto. }
    destruct Hs1 as (R1 & Q1 & C1 & P1 & T1). clearbody s1.
    assert (Hfirst : attempts E (ServerParts src) (ServerPartNumber s) Zv Yv Xv (requests s) (S r)
                     = EvGet (nth (ServerPartNumber s) (ServerParts src) "") Xv Yv Zv
                         (http_status E (requests s))
                       :: attempts E (ServerParts src) (ServerPartNumber s1) Zv Yv Xv (requests s1) r).
    { unfold attempts. cbn [seq map]. f_equal.
      - unfold rotation. cbn [snd]. rewrite !Nat.add_0_r, Nat.mod_small; auto.
      - rewrite <- seq_shift, map_map. apply map_ext. intros k.
        rewrite P1, Q1, rotation_shift. f_equal. f_equal. lia. }
    rewrite Hfirst. clear Hfirst.
    destruct r as [|r'].
    + unfold verdict. rewrite Nat.add_0_r.
      replace (snd (rotation (ServerParts src) (ServerPartNumber s) 0))
        with (nth (ServerPartNumber s) (ServerParts src) "")
        by (unfold rotation; cbn [snd]; rewrite Nat.add_0_r, Nat.mod_small; auto).
      destruct (http_status E (requests s) =? 404).
      * eexists. fields. rewrite R1. cbn [retry_loop].
        split; [reflexivity|]. fields. rewrite Q1, T1.
        cbn [attempts seq map]. rewrite <- !app_assoc. cbn. repeat split; auto; lia.
      * eexists. fields.
        split; [reflexivity|]. fields. rewrite Q1, T1.
        cbn [attempts seq map]. rewrite <- !app_assoc. cbn. repeat split; auto; lia.
    + assert (Hsame : (if http_status E (requests s) =? 404 then s1 else s1) = s1)
        by (destruct (_ =? _); reflexivity).
      rewrite Hsame, R1.
      destruct (IH s1) as (s' & Hrun & Hreq & Htr & HR).
      * rewrite P1. apply Nat.mod_upper_bound. lia.
      * exact R1.
      * intros k Hk. rewrite Q1. replace (S (requests s) + k)%nat
          with (requests s + S k)%nat by lia. apply Hhttp. lia.
      * intros k Hk. rewrite C1. replace (S (clock s) + k)%nat
          with (clock s + S k)%nat by lia. apply Hstop. lia.
      * exists s'. split; [exact Hrun|].
        rewrite Hreq, Htr, HR, T1, Q1, P1, rotation_shift, <- !app_assoc.
        replace (S (requests s) + r')%nat with (requests s + S r')%nat by lia.
        repeat split; auto; lia.
Qed.


End Retry.

(** The rotation from a position of the list.  From an index [i] below the
    length [L] of the mirror list, [k] rounds of calls of the rotator
    succeed, the [t]-th call uses index [(i + t) mod L] (round-robin order),
    every index is used exactly [k] times, and one round uses pairwise
    different mirrors and is followed by the mirror it started with.  A retry
    cycle that never gets a 200 and is not interrupted sends exactly that
    round: attempt [t] goes to mirror [(i + t) mod L]. *)
Theorem mirror_rotation_fairness (parts : list string) (i k : nat) :
  (i < length parts)%nat ->
  exists calls cycle,
    next_calls parts (k * length parts) i = Some calls /\
    (forall t, (t < k * length parts)%nat ->
       nth_error calls t = Some (rotation parts i t)) /\
    (forall j, (j < length parts)%nat ->
       count_occ Nat.eq_dec (map fst calls) j = k) /\
    next_calls parts (length parts) i = Some cycle /\
    NoDup (map fst cycle) /\
    next_calls parts (S (length parts)) i
    = Some (cycle ++ [(i, nth i parts "")]) /\
    forall E src Zv Yv Xv s,
      ServerParts src = parts -> ServerPartNumber s = i -> Run s = true ->
      (forall t, (t < length parts)%nat ->
         http_status E (requests s + t) <> 200) ->
      (forall t, (t < length parts)%nat ->
         stop_signal E (clock s + t) = false) ->
      exists s' logs,
        retry_loop E src Zv Yv Xv (length parts) s = Ok s' /\
        trace s'
        = trace s
          ++ map (fun t => EvGet (snd (nth t cycle (0%nat, ""))) Xv Yv Zv
                             (http_status E (requests s + t)))
               (seq 0 (length parts))
          ++ logs /\
        Forall (fun e => exists m, e = EvLog m) logs.
Proof.
  intros Hi. set (L := length parts).
  exists (map (rotation parts i) (seq 0 (k * L))),
         (map (rotation parts i) (seq 0 L)).
  rewrite !next_calls_rotation by exact Hi.
  split; [reflexivity|]. split; [|split; [|split; [reflexivity|split; [|split]]]].
  - intros t Ht. rewrite nth_error_map, nth_error_seq.
    destruct (Nat.ltb_spec t (k * L)); [reflexivity | lia].
  - intros j Hj. rewrite map_map. cbn [rotation fst].
    apply rotation_indices_count_rounds. exact Hj.
  - rewrite map_map. cbn [rotation fst]. apply rotation_indices_NoDup.
  - rewrite seq_S, map_app. cbn [map Nat.add]. do 3 f_equal.
    unfold rotation. fold L.
    replace (i + L)%nat with (i + 1 * L)%nat by lia.
    rewrite Nat.Div0.mod_add, Nat.mod_small; auto.
  - intros E src Zv Yv Xv s Hparts Hspn HR Hhttp Hstop. subst parts.
    destruct (retry_loop_exhausted E src Zv Yv Xv L s) as (s' & Hrun & _ & Htr & _);
      auto; [lia|].
    exists s'. eexists. split; [exact Hrun|]. split.
    + rewrite Htr. f_equal. f_equal. unfold attempts. apply map_ext_in.
      intros t Ht. apply in_seq in Ht.
      rewrite (nth_indep _ (0%nat, "") (rotation (ServerParts src) i 0))
        by (rewrite length_map, length_seq; lia).
      rewrite map_nth, seq_nth, Hspn by lia. reflexivity.
    + destruct L; [constructor|]. unfold verdict.
      destruct (_ =? 404); repeat constructor; eauto.
Qed.

Lemma mirror_rotation_fairness_witness :
  exists calls cycle,
    next_calls ["a"; "b"; "c"] (2 * 3) 1 = Some calls /\
    (forall t, (t < 2 * 3)%nat ->
       nth_error calls t = Some (rotation ["a"; "b"; "c"] 1 t)) /\
    (forall j, (j < 3)%nat -> count_occ Nat.eq_dec (map fst calls) j = 2%nat) /\
    next_calls ["a"; "b"; "c"] 3 1 = Some cycle /\
    NoDup (map fst cycle) /\
    next_calls ["a"; "b"; "c"] 4 1 = Some (cycle ++ [(1%nat, "b")]) /\
    forall E src Zv Yv Xv s,
      ServerParts src = ["a"; "b"; "c"] -> ServerPartNumber s = 1%nat ->
      Run s = true ->
      (forall t, (t < 3)%nat -> http_status E (requests s + t) <> 200) ->
      (forall t, (t < 3)%nat -> stop_signal E (clock s + t) = false) ->
      exists s' logs,
        retry_loop E src Zv Yv Xv 3 s = Ok s' /\
        trace s'
        = trace s
          ++ map (fun t => EvGet (snd (nth t cycle (0%nat, ""))) Xv Yv Zv
                             (http_status E (requests s + t)))
               (seq 0 3)
          ++ logs /\
        Forall (fun e => exists m, e = EvLog m) logs.
Proof.
  apply (mirror_rotation_fairness ["a"; "b"; "c"] 1 2). cbn. lia.
Defined.

(** C6.  The rotator does not serve every starting index.  An index at or
    beyond the end of the mirror list makes the first call raise IndexError
    (line 248), and the script reaches such an index: [ServerPartNumber]
    (line 67) is shared by all sources and is not reset when the source
    changes.  In [env_uneven] the first source, with two mirrors, is crawled
    with one request and leaves the rotator at 1; the second source has one
    mirror, and its first tile ends the run with IndexError before any
    request is sent for it. *)
Theorem rotator_is_not_reset_between_sources :
  (forall parts k N,
     next_calls parts (S N) (length parts + k) = None) /\
  (forall E src Zv Yv Xv r k s,
     let s0 := set_ServerPartNumber (length (ServerParts src) + k) s in
     retry_loop E src Zv Yv Xv (S r) s0 = Crash IndexError s0) /\
  (exists s,
     main env_uneven 1 = StillRunning s /\
     SourceCounter s = 1 /\ ServerPartNumber s = 1%nat /\
     requests s = 1%nat) /\
  next_calls ["a"] 1 1 = None /\
  exists s,
    main env_uneven 2 = Crashed IndexError s /\
    enumerated (trace s) = [(1, 1, 0); (6, 32, 22)] /\
    requests s = 1%nat.
Proof.
  assert (Hnone : forall parts k,
            next_ServerPart parts (length parts + k) = None).
  { intros parts k. unfold next_ServerPart.
    replace (nth_error parts (length parts + k)) with (@None string);
      [reflexivity|].
    symmetry. apply nth_error_None. lia. }
  split; [|split; [|split; [|split]]].
  - intros parts k N. cbn [next_calls]. rewrite Hnone. reflexivity.
  - intros E src Zv Yv Xv r k s. cbn [retry_loop]. fields. rewrite Hnone.
    reflexivity.
  - eexists. split; [vm_compute; reflexivity|]. repeat split.
  - reflexivity.
  - eexists. split; [vm_compute; reflexivity|]. split; reflexivity.
Qed.

(** C5, amended.  When no attempt returns 200 and no stop signal arrives, a
    tile takes exactly as many requests as there are mirrors, one per mirror
    in rotation order.  The status of the last attempt alone decides what
    follows: on 404 the warning is logged and [Run] stays true, so the column
    loop goes on; on anything else the failure is logged and [Run] becomes
    false. *)
Theorem retry_budget_is_mirror_count (E : environment) (src : MapSource)
    (Zv Yv Xv : Z) (s : state) :
  let M := length (ServerParts src) in
  let last := http_status E (requests s + pred M) in
  (ServerPartNumber s < M)%nat ->
  Run s = true ->
  (forall k, (k < M)%nat -> http_status E (requests s + k) <> 200) ->
  (forall k, (k < M)%nat -> stop_signal E (clock s + k) = false) ->
  exists s',
    tile E src Zv Yv Xv s = Ok s' /\
    requests s' = (requests s + M)%nat /\
    trace s' = trace s
               ++ EvTile Zv Xv Yv
               :: attempts E (ServerParts src) (ServerPartNumber s) Zv Yv Xv
                    (requests s) M
               ++ verdict Zv Yv Xv last
                    (snd (rotation (ServerParts src) (ServerPartNumber s) (pred M))) /\
    Run s' = (last =? 404).
Proof.
  intros M last Hi HRun Hhttp Hstop. unfold tile.
  set (s0 := emit _ _).
  destruct (retry_loop_exhausted E src Zv Yv Xv M s0) as (s' & Hrun & Hreq & Htr & HR);
    try (subst s0; fields; auto).
  exists s'. split; [exact Hrun|].
  fields in Hreq. fields in Htr. fields in HR.
  subst last. destruct M as [|m]; [lia|]. cbn [pred].
  rewrite Hreq, Htr, HR, <- app_assoc. auto.
Qed.

Lemma retry_budget_is_mirror_count_witness :
  exists s',
    tile env_mixed (source europe ["a"; "b"] 3 3) 3 2 4 (initial_state env_mixed)
    = Ok s' /\
    requests s' = 2%nat /\
    trace s' = [EvTile 3 4 2; EvGet "a" 4 2 3 500; EvGet "b" 4 2 3 404;
                EvLog (MsgOutOfBounds 3 4 2)] /\
    Run s' = true.
Proof.
  apply (retry_budget_is_mirror_count env_mixed (source europe ["a"; "b"] 3 3)
           3 2 4 (initial_state env_mixed)).
  - cbn. lia.
  - reflexivity.
  - intros [|[|k]] Hk; cbn in *; try lia; discriminate.
  - reflexivity.
Defined.

(** C5 as stated fails: with two mirrors, a tile answered 500 and then 404
    never got a 200 and did get a status that is neither 200 nor 404, yet it
    is logged as out of bounds, nothing is logged as failed, [Run] stays true
    and the next tile is fetched. *)
Lemma mixed_failures_are_not_fatal :
  let t := trace (result_state (main env_mixed 1)) in
  firstn 5 (skipn 5 t)
  = [EvTile 3 4 2; EvGet "a" 4 2 3 500; EvGet "b" 4 2 3 404;
     EvLog (MsgOutOfBounds 3 4 2); EvSleep (inject_Z 1)] /\
  ~ In (EvLog (MsgFailed 3 4 2)) t /\
  In (EvGet "a" 4 3 3 200) t /\
  Run (result_state (main env_mixed 1)) = true.
Proof.
  vm_compute. repeat split; auto.
  - intros H. repeat (destruct H as [H|H]; [discriminate H|]). exact H.
  - tauto.
Qed.

(** ** Loops *)

Lemma for_each_rule {A : Type} (body : A -> state -> outcome)
    (between : state -> state) (I R C : state -> Prop) :
  (forall s, I s -> R s) ->
  (forall a s, I s ->
     holds (fun s' => if Run s' then I (between s') else R s') C (body a s)) ->
  forall l s, I s -> holds R C (for_each body between l s).
Proof.
  intros Hend Hbody l. induction l as [|a l IH]; intros s HI; cbn.
  - auto.
  - specialize (Hbody a s HI). destruct (body a s) as [s'|e s']; cbn in *; auto.
    destruct (Run s'); cbn; auto.
Qed.

Lemma holds_weaken (R R' C C' : state -> Prop) (o : outcome) :
  (forall s, R s -> R' s) -> (forall s, C s -> C' s) ->
  holds R C o -> holds R' C' o.
Proof. destruct o; cbn; auto. Qed.

Lemma holds_bind (R C Q : state -> Prop) (o : outcome) (k : state -> outcome) :
  holds Q C o -> (forall s, Q s -> holds R C (k s)) -> holds R C (bind o k).
Proof. destruct o; cbn; auto. Qed.

(** ** What every run preserves *)

Section Invariant_steps.

Variable E : environment.
Variable t0 : list event.

Lemma Core_passive (s s' : state) (evs : list event) :
  trace s' = trace s ++ evs ->
  Forall (within E) evs ->
  (length (VectorTiles s') <= length (VectorTiles s))%nat ->
  PickupStatus s' = PickupStatus s ->
  PickupDone s' = PickupDone s \/ PickupDone s' = true ->
  Core E t0 s -> Core E t0 s'.
Proof.
  intros Ht Hev Hv Hp Hd [[evs0 Hg] Hb Hk]. constructor.
  - exists (evs0 ++ evs). rewrite Ht, Hg, app_assoc. reflexivity.
  - intros HW. destruct (Hb HW). rewrite Ht. split; [lia|].
    apply Forall_app; auto.
  - rewrite Hp. destruct Hd as [->| ->]; [exact Hk | discriminate].
Qed.

Lemma Vars_passive (z y x : bool) (s s' : state) :
  cur_Z s' = cur_Z s -> cur_Y s' = cur_Y s -> cur_X s' = cur_X s ->
  SessionTileCount s' = SessionTileCount s ->
  Vars z y x s -> Vars z y x s'.
Proof. unfold Vars. intros -> -> -> ->. auto. Qed.

Lemma Vars_mono (z y x z' y' x' : bool) (s : state) :
  (z' = true -> z = true) -> (y' = true -> y = true) ->
  (x' = true -> x = true) ->
  Vars z y x s -> Vars z' y' x' s.
Proof.
  unfold Vars. destruct z, y, x, z', y', x'; intuition congruence.
Qed.

End Invariant_steps.

(** A step that only adds harmless events. *)
Ltac passive :=
  eapply Core_passive;
  [fields;
   first [rewrite <- ?app_assoc; reflexivity | symmetry; apply app_nil_r]
  |cbn [app]; repeat constructor
  |fields; cbn [length]; lia
  |reflexivity
  |first [left; reflexivity | right; reflexivity]
  | ].

Ltac same_vars := eapply Vars_passive; [reflexivity ..| ].

Section Invariant.

Variable E : environment.
Variable t0 : list event.

Lemma tile_fetched_Core (src : MapSource) (Zv Yv Xv : Z) (data : nat) (s : state) :
  Core E t0 s -> Core E t0 (tile_fetched E src Zv Yv Xv data s).
Proof.
  intros [[evs0 Hg] Hb Hk]. unfold tile_fetched. fields.
  rewrite length_app. cbn [length].
  destruct (Z.eqb_spec (Z.of_nat (length (VectorTiles s) + 1)) (WriteInterval E))
    as [Hfull|Hroom]; constructor; fields.
  - rewrite Hg, <- !app_assoc. eexists. reflexivity.
  - intros HW. destruct (Hb HW) as [Hlen Htr]. split; [cbn; lia|].
    repeat (apply Forall_app; split); auto; repeat constructor. cbn. lia.
  - exact Hk.
  - rewrite Hg, <- !app_assoc. eexists. reflexivity.
  - intros HW. destruct (Hb HW) as [Hlen Htr]. rewrite length_app. cbn [length].
    split; [lia|].
    repeat (apply Forall_app; split); auto; repeat constructor. cbn. lia.
  - exact Hk.
Qed.

Lemma tile_fetched_Vars (src : MapSource) (Zv Yv Xv : Z) (data : nat) (s : state) :
  Vars true true true s -> Vars true true true (tile_fetched E src Zv Yv Xv data s).
Proof.
  unfold Vars, tile_fetched. fields. intros H.
  destruct (_ =? _); fields; intuition congruence.
Qed.

Lemma retry_loop_inv (src : MapSource) (Zv Yv Xv : Z) (r : nat) :
  forall s, Core E t0 s /\ Vars true true true s ->
  holds (fun s' => Core E t0 s' /\ Vars true true true s') (Core E t0)
    (retry_loop E src Zv Yv Xv r s).
Proof.
  induction r as [|r IH]; intros s [HC HV]; cbn [retry_loop holds]; auto.
  destruct (next_ServerPart _ _) as [[ServerPart n]|]; cbn [holds]; auto.
  set (code := http_status E _).
  set (s1 := blocking E _).
  assert (H1 : Core E t0 s1 /\ Vars true true true s1).
  { subst s1. split.
    - passive. exact HC.
    - same_vars. exact HV. }
  clearbody s1. destruct H1 as [HC1 HV1].
  destruct (code =? 200).
  - cbn [holds]. split; [apply tile_fetched_Core | apply tile_fetched_Vars]; auto.
  - match goal with |- holds _ _ (if Run ?st then _ else _) => set (s2 := st) end.
    assert (H2 : Core E t0 s2 /\ Vars true true true s2).
    { subst s2. destruct (code =? 404), r; auto; split.
      - passive. exact HC1.
      - same_vars. exact HV1.
      - passive. exact HC1.
      - same_vars. exact HV1. }
    clearbody s2. destruct (Run s2); cbn [holds]; auto.
Qed.

Lemma tile_inv (src : MapSource) (Zv Yv Xv : Z) (s : state) :
  At E t0 true true false s ->
  holds (At E t0 true true true) (Core E t0) (tile E src Zv Yv Xv s).
Proof.
  intros [HC HV]. unfold tile. apply retry_loop_inv. split.
  - passive. exact HC.
  - unfold Vars in *. fields. intuition congruence.
Qed.

Lemma for_X_inv (src : MapSource) (Zv Yv : Z) (xs : list Z) (s : state) :
  At E t0 true true false s ->
  holds (At E t0 true true false) (Core E t0) (for_X E src Zv Yv xs s).
Proof.
  unfold for_X. apply (for_each_rule _ _ (At E t0 true true false)); auto.
  intros Xv s1 H1. eapply holds_weaken; [| |apply tile_inv; exact H1]; auto.
  cbn beta. intros s2 [HC HV].
  assert (At E t0 true true false s2)
    by (split; auto; eapply Vars_mono; [..|exact HV]; auto).
  destruct (Run s2); auto.
  destruct H as [HC' HV']. split; [passive; exact HC' | same_vars; exact HV'].
Qed.

Lemma row_inv (src : MapSource) (Zv min_x max_x Yv : Z) (s : state) :
  At E t0 true false false s ->
  holds (At E t0 true false false) (Core E t0) (row E src Zv min_x max_x Yv s).
Proof.
  intros [HC HV]. unfold row.
  set (s1 := set_cur_Y (Some Yv) s).
  assert (H1 : At E t0 true true false s1).
  { split; [subst s1; passive; exact HC|].
    subst s1. unfold Vars in *. fields. intuition congruence. }
  assert (Hpost : forall s', At E t0 true true false s' ->
                             At E t0 true false false s').
  { intros s' [? HV']. split; auto. eapply Vars_mono; [..|exact HV']; auto. }
  destruct (PickupDone s1) eqn:HD.
  - eapply holds_weaken; [exact Hpost| |apply for_X_inv; exact H1]; auto.
  - destruct (PickupStatus s1) as [p|] eqn:HP; [|exact (proj1 H1)].
    eapply holds_weaken; [exact Hpost| |apply for_X_inv]; auto.
    destruct H1 as [HC1 HV1]. split; [passive; exact HC1 | same_vars; exact HV1].
Qed.

Lemma rows_inv (src : MapSource) (Zv a b : Z) (ys : list Z) (s : state) :
  At E t0 true false false s ->
  holds (At E t0 true false false) (Core E t0)
    (for_each (row E src Zv a b) (fun s => s) ys s).
Proof.
  apply (for_each_rule _ _ (At E t0 true false false)); auto.
  intros Yv s2 H2. eapply holds_weaken; [| |apply row_inv; exact H2]; auto.
  cbn beta. intros s3 H3. destruct (Run s3); auto.
Qed.

Lemma zoom_level_inv (src : MapSource) (Zv : Z) (s : state) :
  At E t0 false false false s ->
  holds (At E t0 false false false) (Core E t0) (zoom_level E src Zv s).
Proof.
  intros [HC HV]. unfold zoom_level.
  destruct (tile_rect E src Zv) as [[[min_x min_y] max_x] max_y] eqn:Hrect.
  set (s1 := zoom_start E src Zv s).
  assert (H1 : At E t0 true false false s1).
  { subst s1. unfold zoom_start. rewrite Hrect.
    split; [passive; exact HC|].
    unfold Vars in *. fields. intuition congruence. }
  assert (Hrows : forall a b ys, holds (At E t0 false false false) (Core E t0)
                    (for_each (row E src Zv a b) (fun s => s) ys s1)).
  { intros a b ys.
    eapply holds_weaken; [| |apply rows_inv; exact H1]; auto.
    intros s' [? HV']. split; auto. eapply Vars_mono; [..|exact HV']; auto. }
  clearbody s1.
  destruct (PickupDone s1); [apply Hrows|].
  destruct (PickupStatus s1); [apply Hrows | exact (proj1 H1)].
Qed.

Lemma for_Z_inv (src : MapSource) (zs : list Z) (s : state) :
  At E t0 false false false s ->
  holds (At E t0 false false false) (Core E t0) (for_Z E src zs s).
Proof.
  unfold for_Z. apply (for_each_rule _ _ (At E t0 false false false)); auto.
  intros Zv s1 H1. eapply holds_weaken; [| |apply zoom_level_inv; exact H1]; auto.
  cbn beta. intros s2 H2. destruct (Run s2); auto.
Qed.

Lemma after_loops_inv (name : string) (src : MapSource) (s : state) :
  At E t0 false false false s ->
  holds (fun s' => At E t0 false false false s' /\ VectorTiles s' = [])
    (Core E t0) (after_loops E name src s).
Proof.
  intros [HC HV]. unfold after_loops.
  destruct (0 <? length (VectorTiles s))%nat; fields;
    destruct (0 <? SessionTileCount s);
    try (destruct (cur_X s), (cur_Y s), (cur_Z s)); cbn [bind holds]; fields;
    try (passive; exact HC);
    destruct (Run s); cbn [holds]; fields;
    try (destruct (_ >=? _)); fields;
    (split; [split; [passive; exact HC | same_vars; exact HV] | reflexivity]).
Qed.

Lemma map_body_inv (name : string) (src : MapSource) (s : state) :
  At E t0 false false false s ->
  holds (fun s' => At E t0 false false false s' /\ VectorTiles s' = [])
    (Core E t0) (map_body E name src s).
Proof.
  intros [HC HV]. unfold map_body.
  eapply holds_bind; [apply for_Z_inv | apply after_loops_inv].
  split; [passive; exact HC | same_vars; exact HV].
Qed.

Lemma source_setup_inv (name : string) (src : MapSource) (s : state) :
  At E t0 false false false s ->
  At E t0 false false false (source_setup E name src s).
Proof.
  intros [HC HV]. unfold source_setup.
  destruct (MapStatusFiles s name), (PickupDone s) eqn:HD; fields; rewrite ?HD;
    fields; (split; [passive; exact HC | same_vars; exact HV]).
Qed.

Lemma iteration_inv (s : state) :
  At E t0 false false false s /\ VectorTiles s = [] ->
  holds (fun s' => At E t0 false false false s' /\ VectorTiles s' = [])
    (Core E t0) (iteration E s).
Proof.
  intros [H Hv]. unfold iteration.
  destruct (py_index _ _) as [[name src]|]; [|exact (proj1 H)].
  unfold map_loop.
  pose proof (source_setup_inv name src s H) as H1.
  assert (Hv1 : VectorTiles (source_setup E name src s) = []).
  { unfold source_setup.
    destruct (MapStatusFiles s name), (PickupDone s) eqn:HD; fields;
      rewrite ?HD; fields; exact Hv. }
  destruct (_ && _); [apply map_body_inv; exact H1 | cbn; auto].
Qed.

End Invariant.

Lemma initial_Core (E : environment) (s : state) :
  startup E = Ok s \/ (exists e, startup E = Crash e s) ->
  Core E [] s /\ Vars false false false s /\ VectorTiles s = [].
Proof.
  unfold startup, initial_state. fields.
  destruct (disk_StateFile E) as [p|];
    [destruct (py_index (Maplist E) (St_Source p)) as [[name src]|]|];
    (intros [H|[e H]]; inversion H; subst; clear H);
    (split; [constructor; fields;
             [eexists; reflexivity
             |intros HW; split; [cbn; lia | repeat constructor]
             |congruence]
            |split; [unfold Vars; fields; repeat split; right;
                     (split; [reflexivity | lia])
                    |reflexivity]]).
Qed.

Lemma main_loop_inv (E : environment) (t0 : list event) (fuel : nat) :
  forall s,
  Core E t0 s /\ Vars false false false s /\ VectorTiles s = [] ->
  Core E t0 (result_state (main_loop E fuel s)) /\
  forall s', main_loop E fuel s = StillRunning s' ->
    Vars false false false s' /\ VectorTiles s' = [] /\ Run s' = true.
Proof.
  induction fuel as [|fuel IH]; intros s (HC & HV & Hv); cbn [main_loop].
  - destruct (Run s) eqn:HR; cbn [result_state].
    + split; auto. intros s' H. inversion H; subst. auto.
    + split; [|discriminate]. unfold exit_logs. passive. exact HC.
  - destruct (Run s) eqn:HR; cbn [result_state].
    + pose proof (iteration_inv E t0 s (conj (conj HC HV) Hv)) as Hit.
      destruct (iteration E s) as [s1|e s1]; cbn [holds] in Hit.
      * apply IH. unfold At in Hit. tauto.
      * cbn [result_state]. split; [exact Hit | discriminate].
    + split; [|discriminate]. unfold exit_logs. passive. exact HC.
Qed.

Lemma main_inv (E : environment) (fuel : nat) :
  Core E [] (result_state (main E fuel)) /\
  forall s', main E fuel = StillRunning s' ->
    Vars false false false s' /\ VectorTiles s' = [] /\ Run s' = true.
Proof.
  unfold main. destruct (startup E) as [s|e s] eqn:Hs.
  - apply main_loop_inv. apply initial_Core. auto.
  - cbn [result_state]. split; [|discriminate].
    apply initial_Core. right. eauto.
Qed.

(** ** The pending batch *)

Lemma tile_fetched_buffer (E : environment) (src : MapSource) (Zv Yv Xv : Z)
    (data : nat) (s : state) :
  Z.of_nat (length (VectorTiles s)) < WriteInterval E ->
  let s' := tile_fetched E src Zv Yv Xv data s in
  (Z.of_nat (length (VectorTiles s)) + 1 = WriteInterval E /\
   VectorTiles s' = []) \/
  (Z.of_nat (length (VectorTiles s)) + 1 < WriteInterval E /\
   VectorTiles s' = VectorTiles s ++ [mkTile Zv Xv (2 ^ Zv - 1 - Yv) data]).
Proof.
  intros Hlen. unfold tile_fetched. fields. rewrite length_app. cbn [length].
  destruct (Z.eqb_spec (Z.of_nat (length (VectorTiles s) + 1)) (WriteInterval E));
    fields; [left | right]; split; auto; lia.
Qed.

(** C8.  With a positive flush threshold, in every run of the process (ended,
    crashed or still going) the buffer holds fewer tiles than the threshold
    between two operations, every append recorded in the history left at
    most [WriteInterval] tiles in it, and an append from below the threshold
    either reaches the threshold and is flushed to an empty buffer at once or
    stays below it. *)
Theorem pending_batch_within_threshold (E : environment) (fuel : nat) :
  1 <= WriteInterval E ->
  let s := result_state (main E fuel) in
  Z.of_nat (length (VectorTiles s)) < WriteInterval E /\
  Forall (within E) (trace s) /\
  forall src Zv Yv Xv data s0,
    Z.of_nat (length (VectorTiles s0)) < WriteInterval E ->
    let s1 := tile_fetched E src Zv Yv Xv data s0 in
    (Z.of_nat (length (VectorTiles s0)) + 1 = WriteInterval E /\
     VectorTiles s1 = []) \/
    (Z.of_nat (length (VectorTiles s0)) + 1 < WriteInterval E /\
     VectorTiles s1 = VectorTiles s0 ++ [mkTile Zv Xv (2 ^ Zv - 1 - Yv) data]).
Proof.
  intros HW s. destruct (main_inv E fuel) as [[_ Hb _] _].
  destruct (Hb HW) as [Hlen Hev]. repeat split; auto.
  intros. apply tile_fetched_buffer. assumption.
Qed.

Lemma pending_batch_within_threshold_witness :
  let s := result_state (main env_seven 1) in
  Z.of_nat (length (VectorTiles s)) < 3 /\
  Forall (within env_seven) (trace s) /\
  forall src Zv Yv Xv data s0,
    Z.of_nat (length (VectorTiles s0)) < 3 ->
    let s1 := tile_fetched env_seven src Zv Yv Xv data s0 in
    (Z.of_nat (length (VectorTiles s0)) + 1 = 3 /\ VectorTiles s1 = []) \/
    (Z.of_nat (length (VectorTiles s0)) + 1 < 3 /\
     VectorTiles s1 = VectorTiles s0 ++ [mkTile Zv Xv (2 ^ Zv - 1 - Yv) data]).
Proof.
  apply (pending_batch_within_threshold env_seven 1). cbn. lia.
Defined.

(** ** Checkpoints *)

Lemma zoom_start_StateFile (E : environment) (src : MapSource) (Zv : Z)
    (s : state) :
  StateFile (zoom_start E src Zv s)
  = Some (mkStatus (SourceCounter s)
            (fst (fst (fst (tile_rect E src Zv))))
            (snd (fst (fst (tile_rect E src Zv))))
            (min_z s) (TotalTileCount s)).
Proof.
  unfold zoom_start. destruct (tile_rect E src Zv) as [[[min_x min_y] max_x] max_y].
  reflexivity.
Qed.

(** C1 (the script departs from the claim).  Entering a zoom level writes the
    checkpoint with the rectangle's minimum column and row, but its zoom
    field is [min_z], the first zoom of the pass, whatever the level entered.
    In the run of [env_two_zooms] the checkpoint written on entering zoom 2
    is (column 2, row 1, zoom 1). *)
Theorem zoom_checkpoint_records_min_z :
  saves (trace (result_state (main env_two_zooms 1)))
  = [(AtZoomStart, mkStatus 0 1 0 1 0);
     (AtZoomStart, mkStatus 0 2 1 1 0);
     (AtLoopExit, mkStatus 0 2 1 2 2)] /\
  tile_rect env_two_zooms (source europe ["a"] 1 2) 2 = (2, 1, 2, 1) /\
  forall E src Zv s,
    StateFile (zoom_start E src Zv s)
    = Some (mkStatus (SourceCounter s)
              (fst (fst (fst (tile_rect E src Zv))))
              (snd (fst (fst (tile_rect E src Zv))))
              (min_z s) (TotalTileCount s)).
Proof.
  split; [vm_compute; reflexivity|]. split; [vm_compute; reflexivity|].
  exact zoom_start_StateFile.
Qed.

Lemma retry_loop_vars (E : environment) (src : MapSource) (Zv Yv Xv : Z)
    (r : nat) :
  forall s,
  let s' := final (retry_loop E src Zv Yv Xv r s) in
  cur_X s' = cur_X s /\ cur_Y s' = cur_Y s /\ cur_Z s' = cur_Z s.
Proof.
  induction r as [|r IH]; intros s; cbn [retry_loop final]; auto.
  destruct (next_ServerPart _ _) as [[ServerPart n]|]; cbn [final]; auto.
  set (s1 := blocking E _).
  assert (H1 : cur_X s1 = cur_X s /\ cur_Y s1 = cur_Y s /\ cur_Z s1 = cur_Z s)
    by (subst s1; fields; auto).
  clearbody s1. destruct H1 as (HX & HY & HZ). rewrite <- HX, <- HY, <- HZ.
  destruct (_ =? 200).
  - cbn [final]. unfold tile_fetched. fields. destruct (_ =? _); fields; auto.
  - match goal with |- context [if Run ?st then _ else _] => set (s2 := st) end.
    assert (H2 : cur_X s2 = cur_X s1 /\ cur_Y s2 = cur_Y s1 /\ cur_Z s2 = cur_Z s1)
      by (subst s2; destruct (_ =? 404), r; fields; auto).
    clearbody s2. destruct H2 as (HX2 & HY2 & HZ2). rewrite <- HX2, <- HY2, <- HZ2.
    destruct (Run s2); cbn [final]; auto.
Qed.

(** C2, amended.  The checkpoint written when the batch is full holds the
    position of the tile whose fetch filled it, that is the tile just
    completed, with the new cumulative count.  The save after the loops, on
    shutdown and at the end of a pass alike, holds the loop variables [X],
    [Y], [Z]; after a tile has been handled these hold that tile's position. *)
Theorem checkpoints_record_current_tile (E : environment) (src : MapSource)
    (Zv Yv Xv : Z) :
  (forall data s,
     Z.of_nat (length (VectorTiles s)) + 1 = WriteInterval E ->
     let s' := tile_fetched E src Zv Yv Xv data s in
     StateFile s'
     = Some (mkStatus (SourceCounter s) Xv Yv Zv
               (TotalTileCount s + WriteInterval E)) /\
     exists evs, trace s' = evs ++ [EvWriteGlobalStatus AtBatchFlush
                                     (mkStatus (SourceCounter s) Xv Yv Zv
                                        (TotalTileCount s + WriteInterval E))]) /\
  (forall name s,
     0 < SessionTileCount s ->
     cur_X s = Some Xv -> cur_Y s = Some Yv -> cur_Z s = Some Zv ->
     exists s', after_loops E name src s = Ok s' /\
       StateFile s'
       = Some (mkStatus (SourceCounter s) Xv Yv Zv
                 (TotalTileCount s + Z.of_nat (length (VectorTiles s)))) /\
       In (EvWriteGlobalStatus AtLoopExit
             (mkStatus (SourceCounter s) Xv Yv Zv
                (TotalTileCount s + Z.of_nat (length (VectorTiles s)))))
          (trace s')) /\
  (forall s,
     cur_Y s = Some Yv -> cur_Z s = Some Zv ->
     let s' := final (tile E src Zv Yv Xv s) in
     cur_X s' = Some Xv /\ cur_Y s' = Some Yv /\ cur_Z s' = Some Zv).
Proof.
  split; [|split].
  - intros data s Hfull s'. subst s'. unfold tile_fetched. fields.
    rewrite length_app. cbn [length].
    replace (Z.of_nat (length (VectorTiles s) + 1)) with (WriteInterval E) by lia.
    rewrite Z.eqb_refl. fields. split; [reflexivity | eexists; reflexivity].
  - intros name s Hsess HX HY HZ. unfold after_loops.
    destruct (VectorTiles s) as [|t v] eqn:Hv.
    + cbn [length Nat.ltb Nat.leb]. rewrite (proj2 (Z.ltb_lt _ _) Hsess), HX, HY, HZ.
      cbn [bind]. rewrite Z.add_0_r.
      destruct (Run s) eqn:HR; fields; rewrite HR; eexists;
        (split; [reflexivity|]); try destruct (_ >=? _); fields;
        (split; [reflexivity|]); rewrite ?in_app_iff; cbn [In]; tauto.
    + cbn [length Nat.ltb Nat.leb]. fields.
      rewrite (proj2 (Z.ltb_lt _ _) Hsess), HX, HY, HZ. cbn [bind].
      destruct (Run s) eqn:HR; fields; rewrite HR; eexists;
        (split; [reflexivity|]); try destruct (_ >=? _); fields;
        (split; [reflexivity|]); rewrite ?in_app_iff; cbn [In]; tauto.
  - intros s HY HZ s'. subst s'. unfold tile.
    destruct (retry_loop_vars E src Zv Yv Xv (length (ServerParts src))
                (emit (EvTile Zv Xv Yv) (set_cur_X (Some Xv) s))) as (H1 & H2 & H3).
    rewrite H1, H2, H3. fields. auto.
Qed.

Lemma checkpoints_record_current_tile_witness :
  let E := env_flush_each in
  let src := source europe ["a"] 3 3 in
  let s0 := initial_state E in
  let s1 := set_SessionTileCount 1
              (set_cur_X (Some 4) (set_cur_Y (Some 2) (set_cur_Z (Some 3) s0))) in
  StateFile (tile_fetched E src 3 2 4 0 s0) = Some (mkStatus 0 4 2 3 1) /\
  (exists s', after_loops E "eu" src s1 = Ok s' /\
              StateFile s' = Some (mkStatus 0 4 2 3 0)) /\
  cur_X (final (tile E src 3 2 4 s1)) = Some 4.
Proof.
  intros E src s0 s1.
  destruct (checkpoints_record_current_tile E src 3 2 4) as (Hflush & Hexit & Hvars).
  split; [|split].
  - apply (Hflush 0%nat s0). reflexivity.
  - destruct (Hexit "eu" s1) as (s' & Hrun & Hfile & _); try reflexivity.
    exists s'. split; [exact Hrun | exact Hfile].
  - apply (Hvars s1); reflexivity.
Defined.

(** C2 as stated fails: with threshold 1 on the two tiles (4,2) and (4,3) of
    zoom 3, the checkpoint written on the first batch flush holds (4,2), the
    tile just fetched, while the tile attempted next is (4,3). *)
Lemma flush_checkpoint_is_not_next_tile :
  let t := trace (result_state (main env_flush_each 1)) in
  enumerated t = [(3, 4, 2); (3, 4, 3)] /\
  firstn 2 (skipn 1 (saves t))
  = [(AtBatchFlush, mkStatus 0 4 2 3 1); (AtBatchFlush, mkStatus 0 4 3 3 2)] /\
  flush_saves_point_ahead t = false.
Proof. vm_compute. auto. Qed.

(** ** Batches *)

Lemma added_app (t u : list event) : added (t ++ u) = added t ++ added u.
Proof. apply flat_map_app. Qed.

Lemma flushes_app (t u : list event) :
  flushes (t ++ u) = flushes t ++ flushes u.
Proof. apply flat_map_app. Qed.

Lemma logged_totals_app (T : Z) (a b : list nat) :
  logged_totals T (a ++ b)
  = logged_totals T a
    ++ logged_totals (T + Z.of_nat (list_sum a)) b.
Proof.
  revert T. induction a as [|n a IH]; intros T; cbn [app logged_totals list_sum].
  - now rewrite Z.add_0_r.
  - rewrite IH. cbn [app]. change (list_sum (n :: a)) with (n + list_sum a)%nat.
    replace (T + Z.of_nat (n + list_sum a))
      with (T + Z.of_nat n + Z.of_nat (list_sum a)) by lia.
    reflexivity.
Qed.

Section Delivered.

Variable E : environment.
Variable src : MapSource.
Variables Zv Yv : Z.
Variable w : nat.
Hypothesis threshold : WriteInterval E = Z.of_nat w.

(** A tile delivered at the first attempt. *)
Lemma tile_delivered (Xv : Z) (s : state) :
  (ServerPartNumber s < length (ServerParts src))%nat ->
  http_status E (requests s) = 200 ->
  exists s',
    tile E src Zv Yv Xv s = Ok s' /\
    Run s' = Run s && negb (stop_signal E (clock s)) /\
    (ServerPartNumber s' < length (ServerParts src))%nat /\
    requests s' = S (requests s) /\ clock s' = S (clock s) /\
    SourceCounter s' = SourceCounter s /\
    cur_X s' = Some Xv /\ cur_Y s' = cur_Y s /\ cur_Z s' = cur_Z s /\
    SessionTileCount s' = SessionTileCount s + 1 /\
    length (VectorTiles s') = snd (batches w (length (VectorTiles s)) 1) /\
    added (trace s')
    = added (trace s)
      ++ logged_totals (TotalTileCount s)
           (fst (batches w (length (VectorTiles s)) 1)) /\
    flushes (trace s')
    = flushes (trace s) ++ fst (batches w (length (VectorTiles s)) 1) /\
    TotalTileCount s'
    = TotalTileCount s
      + Z.of_nat (list_sum (fst (batches w (length (VectorTiles s)) 1))) /\
    PickupDone s' = PickupDone s.
Proof.
  intros Hi H200. unfold tile.
  destruct (length (ServerParts src)) as [|m] eqn:HL; [lia|].
  cbn [retry_loop].
  rewrite next_ServerPart_in_range by (fields; rewrite HL; exact Hi). fields.
  rewrite H200. cbn [Z.eqb Pos.eqb]. eexists. split; [reflexivity|].
  unfold tile_fetched. fields. rewrite length_app, threshold. cbn [length batches].
  rewrite Nat.add_1_r.
  assert (Hmod : (S (ServerPartNumber s) mod length (ServerParts src) < S m)%nat)
    by (rewrite <- HL; apply Nat.mod_upper_bound; lia).
  destruct (Nat.eqb_spec (S (length (VectorTiles s))) w) as [Hfull|Hroom].
  - rewrite (proj2 (Z.eqb_eq _ _)) by lia. fields. cbn [fst snd list_sum fold_right logged_totals].
    rewrite !added_app, !flushes_app. cbn [added flushes flat_map app length].
    rewrite !app_nil_r, Hfull, length_app. cbn [length].
    rewrite Nat.add_1_r, Hfull. repeat split; auto; lia.
  - rewrite (proj2 (Z.eqb_neq _ _)) by lia. fields. cbn [fst snd list_sum fold_right logged_totals].
    rewrite !added_app, !flushes_app. cbn [added flushes flat_map app length].
    rewrite !app_nil_r, length_app. cbn [length].
    repeat split; auto; lia.
Qed.

End Delivered.

Lemma batches_S (w b n : nat) :
  batches w b (S n)
  = if (S b =? w)%nat
    then (w :: fst (batches w 0 n), snd (batches w 0 n))
    else batches w (S b) n.
Proof. reflexivity. Qed.

(** One more tile after [n]. *)
Lemma batches_snoc (w n : nat) :
  forall b,
  batches w b (S n)
  = (fst (batches w b n) ++ fst (batches w (snd (batches w b n)) 1),
     snd (batches w (snd (batches w b n)) 1)).
Proof.
  induction n as [|n IH]; intros b.
  - cbn [batches fst snd app]. destruct (S b =? w)%nat; reflexivity.
  - rewrite (batches_S w b (S n)), (batches_S w b n).
    destruct (S b =? w)%nat; cbn [fst snd].
    + rewrite (IH 0%nat). reflexivity.
    + apply IH.
Qed.

Lemma Fed_same (src : MapSource) (w : nat) (s0 s s' : state) (n : nat) :
  ServerPartNumber s' = ServerPartNumber s ->
  PickupDone s' = PickupDone s ->
  requests s' = requests s ->
  SessionTileCount s' = SessionTileCount s ->
  VectorTiles s' = VectorTiles s ->
  TotalTileCount s' = TotalTileCount s ->
  added (trace s') = added (trace s) ->
  flushes (trace s') = flushes (trace s) ->
  Fed src w s0 s n -> Fed src w s0 s' n.
Proof.
  intros E1 E2 E3 E4 E5 E6 E7 E8 [H1 H2 H3 H4 H5 H6 H7 H8].
  constructor; congruence.
Qed.

Ltac same_history :=
  fields; rewrite ?added_app, ?flushes_app; cbn [added flushes flat_map app];
  rewrite ?app_nil_r; reflexivity.

Ltac fed H := eapply Fed_same; [..|exact H]; same_history.

Lemma Feeding_same (E : environment) (src : MapSource) (w M : nat)
    (s0 : state) (c0 : nat) (s s' : state) (n : nat) :
  Fed src w s0 s' n -> Run s' = Run s -> clock s' = clock s ->
  Feeding E src w M s0 c0 s n -> Feeding E src w M s0 c0 s' n.
Proof.
  intros HF HR Hc (_ & HR0 & Hc0 & Hs). unfold Feeding.
  rewrite HR, Hc. auto.
Qed.

Ltac feeding H :=
  eapply Feeding_same; [| | |exact H];
  [fed (proj1 H) | reflexivity | reflexivity].

Section Feed.

Variable E : environment.
Variable src : MapSource.
Variables w M : nat.
Variable s0 : state.
Variable c0 : nat.
Hypothesis threshold : WriteInterval E = Z.of_nat w.
Hypothesis answered :
  forall i, (i <= M)%nat -> http_status E (requests s0 + i) = 200.
Hypothesis calm :
  forall t, (t < 2 * M)%nat -> stop_signal E (c0 + t) = false.

(** Tile number [n] is delivered. *)
Lemma tile_fed (Zv Yv Xv : Z) (s : state) (n : nat) :
  Feeding E src w M s0 c0 s n -> (n <= M)%nat ->
  exists s1,
    tile E src Zv Yv Xv s = Ok s1 /\
    Fed src w s0 s1 (S n) /\
    Run s1 = negb (stop_signal E (c0 + 2 * n)) /\
    clock s1 = S (c0 + 2 * n).
Proof.
  intros ([H1 H2 H3 H4 H5 H6 H7 H8] & HR & Hc & _) Hn.
  destruct (tile_delivered E src Zv Yv w threshold Xv s H1)
    as (s1 & Htile & HR1 & Hi1 & Hq1 & Hc1 & _ & _ & _ & _ & Hn1 & Hb1 & Ha1
        & Hf1 & HT1 & HP1).
  { rewrite H3. apply answered. exact Hn. }
  exists s1. split; [exact Htile|]. split; [|split].
  - constructor.
    + exact Hi1.
    + congruence.
    + rewrite Hq1, H3. lia.
    + rewrite Hn1, H4. lia.
    + rewrite Hb1, H5, (batches_snoc w n). reflexivity.
    + rewrite Ha1, H6, H5, H8, (batches_snoc w n). cbn [fst].
      rewrite logged_totals_app, <- app_assoc. reflexivity.
    + rewrite Hf1, H7, H5, (batches_snoc w n). cbn [fst].
      rewrite <- app_assoc. reflexivity.
    + rewrite HT1, H8, H5, (batches_snoc w n). cbn [fst].
      rewrite list_sum_app. lia.
  - rewrite HR1, HR, Hc. reflexivity.
  - rewrite Hc1, Hc. reflexivity.
Qed.

(** A row, or the rest of it. *)
Lemma for_X_fed (Zv Yv : Z) (xs : list Z) :
  forall s n,
  Feeding E src w M s0 c0 s n ->
  (stop_signal E (c0 + 2 * M) = false -> (n + length xs <= S M)%nat) ->
  exists s',
    for_X E src Zv Yv xs s = Ok s' /\
    Fed_up E src w M s0 c0 s' (n + length xs).
Proof.
  unfold for_X.
  induction xs as [|Xv xs IH]; intros s n HF Hroom.
  - exists s. split; [reflexivity|]. left. rewrite Nat.add_0_r. exact HF.
  - assert (Hn : (n <= M)%nat).
    { destruct HF as (_ & _ & _ & Hsig).
      destruct (stop_signal E (c0 + 2 * M)); [auto|].
      specialize (Hroom eq_refl). cbn [length] in Hroom. lia. }
    destruct (tile_fed Zv Yv Xv s n HF Hn) as (s1 & Htile & HF1 & HR1 & Hc1).
    cbn [for_each]. rewrite Htile. cbn [bind].
    destruct (Nat.eq_dec n M) as [->|Hne].
    + destruct (stop_signal E (c0 + 2 * M)) eqn:Hs; cbn [negb] in HR1;
        rewrite HR1.
      * exists s1. split; [reflexivity|]. right. auto.
      * specialize (Hroom eq_refl). cbn [length] in Hroom.
        assert (xs = []) by (destruct xs; [reflexivity | cbn in Hroom; lia]).
        subst xs. cbn [for_each length].
        exists (sleep E src s1). split; [reflexivity|].
        replace (M + 1)%nat with (S M) by lia.
        destruct (stop_signal E (S (c0 + 2 * M))) eqn:Hs2.
        -- right. split; [fed HF1|]. fields. rewrite HR1, Hc1, Hs2. reflexivity.
        -- left. split; [fed HF1|]. fields. rewrite HR1, Hc1, Hs2, Hs.
           repeat split; [lia | discriminate].
    + rewrite calm in HR1 by lia. cbn [negb] in HR1. rewrite HR1.
      destruct (IH (sleep E src s1) (S n)) as (s' & Hrun & Hup).
      * split; [fed HF1|]. fields. rewrite HR1, Hc1.
        replace (S (c0 + 2 * n)) with (c0 + (2 * n + 1))%nat by lia.
        rewrite calm by lia. repeat split; lia.
      * intros Hs. specialize (Hroom Hs). cbn [length] in Hroom. lia.
      * exists s'. split; [exact Hrun|].
        replace (n + length (Xv :: xs))%nat with (S n + length xs)%nat
          by (cbn [length]; lia).
        exact Hup.
Qed.

(** A loop over rows or zoom levels, [size a] being the number of tiles of
    [a]. *)
Lemma fed_loop {A : Type} (body : A -> state -> outcome) (size : A -> nat) :
  (forall a s n,
     Feeding E src w M s0 c0 s n ->
     (stop_signal E (c0 + 2 * M) = false -> (n + size a <= S M)%nat) ->
     exists s', body a s = Ok s' /\ Fed_up E src w M s0 c0 s' (n + size a)) ->
  forall l s n,
    Feeding E src w M s0 c0 s n ->
    (stop_signal E (c0 + 2 * M) = false ->
     (n + list_sum (map size l) <= S M)%nat) ->
    exists s',
      for_each body (fun s => s) l s = Ok s' /\
      Fed_up E src w M s0 c0 s' (n + list_sum (map size l)).
Proof.
  intros Hbody. induction l as [|a l IH]; intros s n HF Hroom.
  - exists s. split; [reflexivity|]. left. cbn. rewrite Nat.add_0_r. exact HF.
  - change (list_sum (map size (a :: l)))
      with (size a + list_sum (map size l))%nat in *.
    destruct (Hbody a s n HF) as (s1 & Hrun1 & [HF1|[HF1 HR1]]).
    { intros Hs. specialize (Hroom Hs). lia. }
    + cbn [for_each]. rewrite Hrun1. cbn [bind].
      rewrite (proj1 (proj2 HF1)).
      destruct (IH s1 (n + size a)%nat HF1) as (s' & Hrun & Hup).
      { intros Hs. specialize (Hroom Hs). lia. }
      exists s'. split; [exact Hrun|]. rewrite Nat.add_assoc. exact Hup.
    + cbn [for_each]. rewrite Hrun1. cbn [bind]. rewrite HR1.
      exists s1. split; [reflexivity|]. right. auto.
Qed.

Lemma rows_fed (Zv min_x max_x : Z) (ys : list Z) (s : state) (n : nat) :
  Feeding E src w M s0 c0 s n ->
  (stop_signal E (c0 + 2 * M) = false ->
   (n + list_sum (map (fun _ => length (range min_x (max_x + 1))) ys)
    <= S M)%nat) ->
  exists s',
    for_each (row E src Zv min_x max_x) (fun s => s) ys s = Ok s' /\
    Fed_up E src w M s0 c0 s'
      (n + list_sum (map (fun _ => length (range min_x (max_x + 1))) ys)).
Proof.
  apply (fed_loop (row E src Zv min_x max_x)
           (fun _ => length (range min_x (max_x + 1)))).
  intros Yv s1 n1 HF1 Hroom. unfold row. fields.
  rewrite (fed_pickup _ _ _ _ _ (proj1 HF1)).
  apply for_X_fed; [feeding HF1 | exact Hroom].
Qed.

Lemma zoom_size_rows (Zv min_x min_y max_x max_y : Z) :
  tile_rect E src Zv = (min_x, min_y, max_x, max_y) ->
  zoom_size E src Zv
  = list_sum (map (fun _ => length (range min_x (max_x + 1)))
                (range min_y (max_y + 1))).
Proof.
  intros Hrect. unfold zoom_size. rewrite Hrect, length_flat_map.
  f_equal. apply map_ext. intros y. apply length_map.
Qed.

Lemma for_Z_fed (zs : list Z) (s : state) (n : nat) :
  Feeding E src w M s0 c0 s n ->
  (stop_signal E (c0 + 2 * M) = false ->
   (n + list_sum (map (zoom_size E src) zs) <= S M)%nat) ->
  exists s',
    for_Z E src zs s = Ok s' /\
    Fed_up E src w M s0 c0 s' (n + list_sum (map (zoom_size E src) zs)).
Proof.
  unfold for_Z. apply (fed_loop (zoom_level E src) (zoom_size E src)).
  intros Zv s1 n1 HF1. unfold zoom_level.
  destruct (tile_rect E src Zv) as [[[min_x min_y] max_x] max_y] eqn:Hrect.
  rewrite (zoom_size_rows Zv min_x min_y max_x max_y Hrect).
  set (s2 := zoom_start E src Zv s1).
  assert (HF2 : Feeding E src w M s0 c0 s2 n1)
    by (subst s2; unfold zoom_start; rewrite Hrect; feeding HF1).
  clearbody s2. rewrite (fed_pickup _ _ _ _ _ (proj1 HF2)).
  apply rows_fed. exact HF2.
Qed.

End Feed.

Lemma grid_size (E : environment) (src : MapSource) (lo : Z) :
  length (grid E src lo)
  = list_sum (map (zoom_size E src) (range lo (max_z src + 1))).
Proof. unfold grid. apply length_flat_map. Qed.

(** The code after the loops writes what is left in the buffer. *)
Lemma after_loops_writes_the_rest (E : environment) (name : string)
    (src : MapSource) (s : state) :
  Vars false false false s ->
  exists s',
    after_loops E name src s = Ok s' /\
    VectorTiles s' = [] /\ requests s' = requests s /\
    flushes (trace s')
    = flushes (trace s)
      ++ (if (0 <? length (VectorTiles s))%nat
          then [length (VectorTiles s)] else []) /\
    added (trace s')
    = added (trace s)
      ++ (if (0 <? length (VectorTiles s))%nat
          then [(Z.of_nat (length (VectorTiles s)),
                 TotalTileCount s + Z.of_nat (length (VectorTiles s)))]
          else []).
Proof.
  intros (HZ & HY & HX). unfold after_loops.
  destruct (0 <? length (VectorTiles s))%nat; fields;
    (destruct (Z.ltb_spec 0 (SessionTileCount s)) as [Hpos|Hneg];
     [destruct (cur_X s), (cur_Y s), (cur_Z s);
      try (exfalso; intuition (congruence || lia))|]);
    cbn [bind]; fields;
    destruct (Run s); try (destruct (_ >=? _));
    (eexists; split; [reflexivity|]); fields;
    rewrite ?added_app, ?flushes_app; cbn [added flushes flat_map app];
    rewrite ?app_nil_r; auto.
Qed.

(** C7.  With threshold 3, a turn of the main loop in which the first seven
    tiles of the source's grid are delivered one after the other, whatever
    the rows and zoom levels they lie in, and which then ends because the
    grid has no more tiles or because a stop signal arrives during the
    seventh request, writes the store three times, with 3, 3 and 1 tiles, in
    that order, and the totals logged grow by 3, 6 and 7: each write adds
    the size of its batch.  The pause between tiles is not negative (else
    line 285 raises).  The same is observed on two whole runs: seven tiles
    over three zoom levels followed by the end of the pass, and a grid of
    four rows of two tiles stopped during the seventh request. *)
Theorem batch_flush_boundary :
  (let t := trace (result_state (main env_three_zooms 1)) in
   enumerated t = [(2, 2, 1); (3, 4, 2); (3, 5, 2);
                   (4, 8, 5); (4, 9, 5); (4, 10, 5); (4, 11, 5)] /\
   length (fetched t) = 7%nat /\ flushes t = [3; 3; 1]%nat /\
   added t = [(3, 3); (3, 6); (1, 7)] /\ In (EvLog MsgWholeArea) t) /\
  (let r := main env_rows_stopped 2 in
   let t := trace (result_state r) in
   enumerated t = [(3, 2, 1); (3, 3, 1); (3, 2, 2); (3, 3, 2);
                   (3, 2, 3); (3, 3, 3); (3, 2, 4)] /\
   length (fetched t) = 7%nat /\ flushes t = [3; 3; 1]%nat /\
   added t = [(3, 3); (3, 6); (1, 7)] /\
   r = Exited (result_state r) /\ VectorTiles (result_state r) = []) /\
  forall E k s name src,
    main E k = StillRunning s ->
    py_index (Maplist E) (SourceCounter s) = Some (name, src) ->
    WriteInterval E = 3 ->
    PickupDone s = true ->
    (ServerPartNumber s < length (ServerParts src))%nat ->
    (0 <= ReadSpacing src)%Q ->
    (forall i, (i < 7)%nat -> http_status E (requests s + i) = 200) ->
    (forall t, (t < 13)%nat -> stop_signal E (clock s + t) = false) ->
    (7 <= length (grid E src (min_z0 src)))%nat ->
    length (grid E src (min_z0 src)) = 7%nat \/
    stop_signal E (clock s + 13) = true ->
    requests (final (iteration E s)) = (requests s + 7)%nat /\
    VectorTiles (final (iteration E s)) = [] /\
    flushes (trace (final (iteration E s)))
    = flushes (trace s) ++ [3; 3; 1]%nat /\
    added (trace (final (iteration E s)))
    = added (trace s)
      ++ [(3, TotalTileCount s + 3); (3, TotalTileCount s + 6);
          (1, TotalTileCount s + 7)].
Proof.
  split; [|split].
  - vm_compute. repeat split; auto 50.
  - vm_compute. repeat split; auto.
  - intros E k s name src Hrun Hsrc H3 HD Hi _ Hhttp Hstop Hmin Hend.
    destruct (main_inv E k) as [HC Hhead]. rewrite Hrun in HC.
    cbn [result_state] in HC. destruct (Hhead s Hrun) as (HV & Hv & HR).
    pose proof (Hstop 0%nat ltac:(lia)) as Hopen. rewrite Nat.add_0_r in Hopen.
    unfold iteration. rewrite Hsrc. unfold map_loop.
    pose proof (source_setup_inv E [] name src s (conj HC HV)) as HA1.
    set (s1 := source_setup E name src s) in *.
    assert (H1 : Feeding E src 3 6 s (S (clock s)) s1 0 /\
                 MapRun s1 = true /\ min_z s1 = min_z0 src).
    { subst s1. unfold source_setup, Feeding.
      destruct (MapStatusFiles s name); fields; rewrite HD; fields;
        rewrite HR, Hopen;
        (split; [split; [constructor; fields;
                         cbn [batches fst snd logged_totals list_sum
                                fold_right];
                         rewrite ?added_app, ?flushes_app;
                         cbn [added flushes flat_map app];
                         rewrite ?app_nil_r; auto; lia
                        |repeat split; lia]
                |split; reflexivity]). }
    clearbody s1. destruct H1 as (HF1 & HM1 & Hmin1).
    rewrite HM1, (proj1 (proj2 HF1)). cbn [andb]. unfold map_body.
    set (s2 := Log _ s1).
    assert (HF2 : Feeding E src 3 6 s (S (clock s)) s2 0)
      by (subst s2; feeding HF1).
    assert (HA2 : At E [] false false false s2).
    { destruct HA1 as [HC1 HV1]. subst s2.
      split; [passive; exact HC1 | same_vars; exact HV1]. }
    assert (Hz : min_z s2 = min_z0 src) by (subst s2; exact Hmin1).
    clearbody s2. rewrite Hz.
    assert (Hsig : stop_signal E (S (clock s) + 2 * 6)
                   = stop_signal E (clock s + 13))
      by (f_equal; lia).
    destruct (for_Z_fed E src 3 6 s (S (clock s)) H3) with
      (zs := range (min_z0 src) (max_z src + 1)) (s := s2) (n := 0%nat)
      as (s3 & Hloops & Hup).
    { intros i Hle. apply Hhttp. lia. }
    { intros t Ht.
      replace (S (clock s) + t)%nat with (clock s + S t)%nat by lia.
      apply Hstop. lia. }
    { exact HF2. }
    { rewrite Hsig, <- grid_size. intros Hnone.
      destruct Hend as [->|Hsome]; [lia|congruence]. }
    pose proof (for_Z_inv E [] src (range (min_z0 src) (max_z src + 1)) s2 HA2)
      as HA3.
    rewrite Hloops in HA3. cbn [holds] in HA3. destruct HA3 as [_ HV3].
    rewrite Hloops. cbn [bind].
    assert (HF3 : Fed src 3 s s3 7).
    { destruct Hup as [(HF & _ & _ & Hlate)|[HF _]]; [|exact HF].
      rewrite <- grid_size, Nat.add_0_l in HF, Hlate.
      destruct Hend as [Hseven|Hsome].
      - rewrite Hseven in HF. exact HF.
      - rewrite Hsig in Hlate. specialize (Hlate Hsome). lia. }
    destruct (after_loops_writes_the_rest E name src s3 HV3)
      as (s4 & Hafter & Hv4 & Hq4 & Hf4 & Ha4).
    rewrite Hafter. cbn [final].
    destruct HF3 as [_ _ Hq3 _ Hb3 Ha3 Hf3 HT3].
    rewrite Hv in Hb3, Ha3, Hf3, HT3.
    cbn [length batches Nat.eqb fst snd logged_totals list_sum fold_right
           Nat.add] in Hb3, Ha3, Hf3, HT3.
    rewrite Hb3 in Hf4, Ha4. cbn [Nat.ltb Nat.leb] in Hf4, Ha4.
    rewrite Hq4, Hq3, Hf4, Hf3, Ha4, Ha3, HT3, <- !app_assoc.
    cbn [app Z.of_nat Pos.of_succ_nat Pos.succ].
    replace (TotalTileCount s + 3 + 3) with (TotalTileCount s + 6) by lia.
    replace (TotalTileCount s + 6 + 1) with (TotalTileCount s + 7) by lia.
    repeat split; auto.
Qed.

Lemma batch_flush_boundary_witness :
  let E := env_rows_stopped in
  let s := result_state (main E 0) in
  requests (final (iteration E s)) = 7%nat /\
  VectorTiles (final (iteration E s)) = [] /\
  flushes (trace (final (iteration E s))) = [3; 3; 1]%nat /\
  added (trace (final (iteration E s))) = [(3, 3); (3, 6); (1, 7)].
Proof.
  intros E s. destruct batch_flush_boundary as (_ & _ & H).
  apply (H E 0%nat s "at" (source atlantic ["a"] 3 3)).
  - reflexivity.
  - reflexivity.
  - reflexivity.
  - reflexivity.
  - cbn. lia.
  - unfold Qle. cbn. lia.
  - intros i Hi. reflexivity.
  - intros t Ht. apply Nat.eqb_neq. cbn. lia.
  - vm_compute. lia.
  - right. reflexivity.
Defined.

(** ** The fatal halt *)

Section Halt_steps.

Lemma Clean_passive (s s' : state) (evs : list event) :
  trace s' = trace s ++ evs -> Forall not_failure evs -> Clean s -> Clean s'.
Proof. unfold Clean. intros -> Hev Hs. apply Forall_app; auto. Qed.

Lemma Going_passive (z y x : option Z) (s s' : state) (evs : list event) :
  trace s' = trace s ++ evs -> Forall not_failure evs ->
  cur_Z s' = cur_Z s -> cur_Y s' = cur_Y s -> cur_X s' = cur_X s ->
  Going z y x s -> Going z y x s'.
Proof.
  unfold Going. intros Ht Hev -> -> -> (Hc & H). split; auto.
  eapply Clean_passive; eauto.
Qed.

Lemma Halted_passive (z x y : Z) (s s' : state) (evs : list event) :
  trace s' = trace s ++ evs -> Forall not_failure evs ->
  Run s' = Run s ->
  cur_Z s' = cur_Z s -> cur_Y s' = cur_Y s -> cur_X s' = cur_X s ->
  Halted z x y s -> Halted z x y s'.
Proof.
  unfold Halted. intros -> Hev -> -> -> -> (HR & HX & HY & HZ & Hu).
  repeat split; auto. intros z' x' y' Hin. apply in_app_or in Hin.
  destruct Hin as [Hin|Hin]; [auto|].
  rewrite Forall_forall in Hev. destruct (Hev _ Hin).
Qed.

Lemma Going_forget (z y x z' y' x' : option Z) (s : state) :
  (z' = None \/ z' = z) -> (y' = None \/ y' = y) -> (x' = None \/ x' = x) ->
  Going z y x s -> Going z' y' x' s.
Proof.
  unfold Going. intros [-> | ->] [-> | ->] [-> | ->]; cbn [agrees]; tauto.
Qed.

Lemma Going_not_Halted (z y x : option Z) (a b c : Z) (s : state) :
  Run s = true -> Going z y x s \/ Halted a b c s -> Going z y x s.
Proof. intros HR [H|[H _]]; [exact H | congruence]. Qed.

End Halt_steps.

Ltac trace_step :=
  fields; first [rewrite <- ?app_assoc; reflexivity | symmetry; apply app_nil_r].

Ltac going :=
  eapply Going_passive;
  [trace_step | cbn [app]; repeat constructor | reflexivity ..| ].

Ltac halted :=
  eapply Halted_passive;
  [trace_step | cbn [app]; repeat constructor | reflexivity ..| ].

Section Halt.

Variable E : environment.

Lemma tile_fetched_Going (src : MapSource) (Zv Yv Xv : Z) (data : nat)
    (z y x : option Z) (s : state) :
  Going z y x s -> Going z y x (tile_fetched E src Zv Yv Xv data s).
Proof.
  intros H. unfold tile_fetched. fields.
  destruct (_ =? _); fields; (going; exact H).
Qed.

Lemma tile_failed_Halted (Zv Yv Xv code : Z) (server : string) (s : state) :
  Going (Some Zv) (Some Yv) (Some Xv) s ->
  Halted Zv Xv Yv (tile_failed Zv Yv Xv code server s).
Proof.
  intros (Hc & HZ & HY & HX). cbn [agrees] in *. unfold Halted. fields.
  repeat split; auto. intros z' x' y' Hin.
  rewrite <- !app_assoc in Hin. apply in_app_or in Hin.
  destruct Hin as [Hin|Hin].
  - unfold Clean in Hc. rewrite Forall_forall in Hc. destruct (Hc _ Hin).
  - cbn in Hin. repeat (destruct Hin as [Hin|Hin]; [inversion Hin; subst; auto|]).
    destruct Hin.
Qed.

Lemma retry_loop_halt (src : MapSource) (Zv Yv Xv : Z) (r : nat) :
  forall s, Going (Some Zv) (Some Yv) (Some Xv) s ->
  holds (fun s' => Going (Some Zv) (Some Yv) (Some Xv) s' \/ Halted Zv Xv Yv s')
    Clean (retry_loop E src Zv Yv Xv r s).
Proof.
  induction r as [|r IH]; intros s HG; cbn [retry_loop holds]; auto.
  destruct (next_ServerPart _ _) as [[ServerPart n]|]; cbn [holds];
    [|exact (proj1 HG)].
  set (code := http_status E _).
  set (s1 := blocking E _).
  assert (H1 : Going (Some Zv) (Some Yv) (Some Xv) s1)
    by (subst s1; going; exact HG).
  clearbody s1.
  destruct (code =? 200).
  - cbn [holds]. left. apply tile_fetched_Going. exact H1.
  - match goal with |- holds _ _ (if Run ?st then _ else _) => set (s2 := st) end.
    assert (H2 : Going (Some Zv) (Some Yv) (Some Xv) s2 \/ Halted Zv Xv Yv s2).
    { subst s2. destruct (code =? 404), r; auto.
      - left. going. exact H1.
      - right. apply tile_failed_Halted. exact H1. }
    clearbody s2. destruct (Run s2) eqn:HR; cbn [holds]; auto.
    apply IH. eapply Going_not_Halted; eauto.
Qed.

Lemma tile_halt (src : MapSource) (Zv Yv Xv : Z) (s : state) :
  Going (Some Zv) (Some Yv) None s ->
  holds (fun s' => Going (Some Zv) (Some Yv) (Some Xv) s' \/ Halted Zv Xv Yv s')
    Clean (tile E src Zv Yv Xv s).
Proof.
  intros (Hc & HZ & HY & _). unfold tile. apply retry_loop_halt.
  cbn [agrees] in *. unfold Going, Clean. fields. cbn [agrees].
  repeat split; auto. apply Forall_app. split; auto. repeat constructor.
Qed.

Lemma for_X_halt (src : MapSource) (Zv Yv : Z) (xs : list Z) (s : state) :
  Going (Some Zv) (Some Yv) None s ->
  holds (fun s' => Going (Some Zv) (Some Yv) None s' \/
                   exists x, Halted Zv x Yv s')
    Clean (for_X E src Zv Yv xs s).
Proof.
  unfold for_X. apply (for_each_rule _ _ (Going (Some Zv) (Some Yv) None)); auto.
  intros Xv s1 H1. eapply holds_weaken; [| |apply tile_halt; exact H1]; auto.
  cbn beta. intros s2 H2. destruct (Run s2) eqn:HR.
  - apply (Going_not_Halted _ _ _ _ _ _ _ HR) in H2.
    going. eapply Going_forget; [..|exact H2]; auto.
  - destruct H2 as [H2|H2]; [left|right; eauto].
    eapply Going_forget; [..|exact H2]; auto.
Qed.

Lemma row_halt (src : MapSource) (Zv min_x max_x Yv : Z) (s : state) :
  Going (Some Zv) None None s ->
  holds (fun s' => Going (Some Zv) None None s' \/ exists x y, Halted Zv x y s')
    Clean (row E src Zv min_x max_x Yv s).
Proof.
  intros HG. unfold row.
  set (s1 := set_cur_Y (Some Yv) s).
  assert (H1 : Going (Some Zv) (Some Yv) None s1).
  { destruct HG as (Hc & HZ & _). subst s1. unfold Going, Clean. fields.
    cbn [agrees] in *. auto. }
  assert (Hpost : forall s',
            Going (Some Zv) (Some Yv) None s' \/ (exists x, Halted Zv x Yv s') ->
            Going (Some Zv) None None s' \/ exists x y, Halted Zv x y s').
  { intros s' [H|[x H]]; [left|right; eauto].
    eapply Going_forget; [..|exact H]; auto. }
  clearbody s1.
  destruct (PickupDone s1).
  - eapply holds_weaken; [exact Hpost| |apply for_X_halt; exact H1]; auto.
  - destruct (PickupStatus s1) as [p|]; [|exact (proj1 H1)].
    eapply holds_weaken; [exact Hpost| |apply for_X_halt]; auto.
Qed.

Lemma zoom_level_halt (src : MapSource) (Zv : Z) (s : state) :
  Clean s ->
  holds (fun s' => Clean s' \/ exists z x y, Halted z x y s')
    Clean (zoom_level E src Zv s).
Proof.
  intros HC. unfold zoom_level.
  destruct (tile_rect E src Zv) as [[[min_x min_y] max_x] max_y] eqn:Hrect.
  set (s1 := zoom_start E src Zv s).
  assert (H1 : Going (Some Zv) None None s1).
  { subst s1. unfold zoom_start. rewrite Hrect. unfold Going, Clean. fields.
    cbn [agrees]. repeat split; auto.
    rewrite <- app_assoc. apply Forall_app. split; auto. repeat constructor. }
  assert (Hrows : forall a b ys,
            holds (fun s' => Clean s' \/ exists z x y, Halted z x y s') Clean
              (for_each (row E src Zv a b) (fun s => s) ys s1)).
  { intros a b ys.
    eapply (holds_weaken
              (fun s' => Going (Some Zv) None None s' \/
                         exists x y, Halted Zv x y s'));
      [intros s' [H|(x & y & H)]; [left; exact (proj1 H) | right; eauto]
      |intros ? H; exact H|].
    apply (for_each_rule _ _ (Going (Some Zv) None None)); [auto| |exact H1].
    intros Yv s2 H2. eapply holds_weaken; [| |apply row_halt; exact H2]; auto.
    cbn beta. intros s3 H3. destruct (Run s3) eqn:HR; auto.
    destruct H3 as [H3|(x & y & HR' & _)]; [exact H3 | congruence]. }
  clearbody s1.
  destruct (PickupDone s1); [apply Hrows|].
  destruct (PickupStatus s1); [apply Hrows | exact (proj1 H1)].
Qed.

Lemma for_Z_halt (src : MapSource) (zs : list Z) (s : state) :
  Clean s ->
  holds (fun s' => Clean s' \/ exists z x y, Halted z x y s')
    Clean (for_Z E src zs s).
Proof.
  unfold for_Z. apply (for_each_rule _ _ Clean); auto.
  intros Zv s1 H1. eapply holds_weaken; [| |apply zoom_level_halt; exact H1]; auto.
  cbn beta. intros s2 H2. destruct (Run s2) eqn:HR; auto.
  destruct H2 as [H2|(z & x & y & HR' & _)]; [exact H2 | congruence].
Qed.

Lemma after_loops_halt (name : string) (src : MapSource) (s : state) :
  Clean s \/ (exists z x y, Halted z x y s) ->
  holds (fun s' => Clean s' \/ exists z x y, HaltedSaved z x y s')
    Clean (after_loops E name src s).
Proof.
  intros [HC|(z & x & y & HH)]; unfold after_loops.
  - destruct (0 <? length (VectorTiles s))%nat; fields;
      destruct (0 <? SessionTileCount s);
      try (destruct (cur_X s), (cur_Y s), (cur_Z s)); cbn [bind holds]; fields;
      try (eapply Clean_passive; [trace_step | cbn [app]; repeat constructor
                                 | exact HC]);
      destruct (Run s); cbn [holds]; fields;
      try (destruct (_ >=? _)); fields; left;
      (eapply Clean_passive; [trace_step | cbn [app]; repeat constructor
                             | exact HC]).
  - pose proof HH as (HR & HX & HY & HZ & _).
    destruct (0 <? length (VectorTiles s))%nat; fields;
      destruct (Z.ltb_spec 0 (SessionTileCount s)); rewrite ?HX, ?HY, ?HZ;
      cbn [bind holds]; fields; rewrite HR; cbn [holds];
      right; exists z, x, y;
      (split; [halted; exact HH | split; [reflexivity | fields; auto; lia]]).
Qed.

Lemma map_body_halt (name : string) (src : MapSource) (s : state) :
  Clean s ->
  holds (fun s' => Clean s' \/ exists z x y, HaltedSaved z x y s')
    Clean (map_body E name src s).
Proof.
  intros HC. unfold map_body.
  eapply holds_bind; [apply for_Z_halt | intros; apply after_loops_halt; tauto].
  eapply Clean_passive; [trace_step | repeat constructor | exact HC].
Qed.

Lemma iteration_halt (s : state) :
  Clean s ->
  holds (fun s' => Clean s' \/ exists z x y, HaltedSaved z x y s')
    Clean (iteration E s).
Proof.
  intros HC. unfold iteration.
  destruct (py_index _ _) as [[name src]|]; [|exact HC].
  assert (H1 : Clean (source_setup E name src s)).
  { unfold source_setup.
    destruct (MapStatusFiles s name), (PickupDone s) eqn:HD; fields; rewrite ?HD;
      fields;
      (eapply Clean_passive; [trace_step | repeat constructor | exact HC]). }
  unfold map_loop. destruct (_ && _); [apply map_body_halt; exact H1|].
  cbn [holds]. auto.
Qed.

Lemma main_loop_halt (fuel : nat) :
  forall s, Clean s ->
  Clean (result_state (main_loop E fuel s)) \/
  exists z x y s', main_loop E fuel s = Exited (exit_logs s') /\
                   HaltedSaved z x y s'.
Proof.
  assert (Hexit : forall s, Clean s -> Clean (exit_logs s)).
  { intros s HC. unfold exit_logs.
    eapply Clean_passive; [trace_step | repeat constructor | exact HC]. }
  assert (Hstop : forall n z x y s, HaltedSaved z x y s ->
            main_loop E n s = Exited (exit_logs s)).
  { intros n z x y s ((HR & _) & _). destruct n; cbn [main_loop]; rewrite HR; auto. }
  induction fuel as [|fuel IH]; intros s HC; cbn [main_loop].
  - destruct (Run s); cbn [result_state]; auto.
  - destruct (Run s); cbn [result_state]; auto.
    pose proof (iteration_halt s HC) as Hit.
    destruct (iteration E s) as [s1|e s1]; cbn [holds result_state] in *; auto.
    destruct Hit as [H1|(z & x & y & H1)]; [apply IH; exact H1|].
    right. exists z, x, y, s1. split; [eapply Hstop; eauto | exact H1].
Qed.

End Halt.

(** C3, amended.  A tile whose attempts all return 500, one per mirror and
    with no stop signal in between, logs the failure and clears [Run].  In
    any run in which the failure of tile [(z, x, y)] is logged, the process
    has left the main loop: the buffer was flushed and, provided a tile was
    fetched since the process started, the checkpoint on disk at exit holds
    the position of the tile that failed, with the cumulative count; no
    other failure was logged. *)
Theorem fatal_halt_checkpoint (E : environment) :
  (forall src Zv Yv Xv s,
     (ServerPartNumber s < length (ServerParts src))%nat ->
     Run s = true ->
     (forall k, (k < length (ServerParts src))%nat ->
        http_status E (requests s + k) = 500) ->
     (forall k, (k < length (ServerParts src))%nat ->
        stop_signal E (clock s + k) = false) ->
     exists s', tile E src Zv Yv Xv s = Ok s' /\ Run s' = false /\
                In (EvLog (MsgFailed Zv Xv Yv)) (trace s')) /\
  (forall fuel z x y,
     In (EvLog (MsgFailed z x y)) (trace (result_state (main E fuel))) ->
     exists s,
       main E fuel = Exited (exit_logs s) /\
       Run s = false /\
       VectorTiles s = [] /\
       (0 < SessionTileCount s ->
        StateFile (exit_logs s)
        = Some (mkStatus (SourceCounter s) x y z (TotalTileCount s))) /\
       (forall z' x' y', In (EvLog (MsgFailed z' x' y')) (trace s) ->
                         (z', x', y') = (z, x, y))).
Proof.
  split.
  - intros src Zv Yv Xv s Hi HR Hhttp Hstop. unfold tile.
    set (s0 := emit _ _).
    destruct (retry_loop_exhausted E src Zv Yv Xv (length (ServerParts src)) s0)
      as (s' & Hrun & _ & Htr & HR'); try (subst s0; fields; auto).
    { intros k Hk. rewrite (Hhttp k Hk). discriminate. }
    exists s'. split; [exact Hrun|].
    destruct (length (ServerParts src)) as [|m] eqn:HM; [lia|].
    fields in Htr. fields in HR'.
    rewrite (Hhttp m) in HR', Htr by lia. cbn in HR'. split; [exact HR'|].
    rewrite Htr, !in_app_iff. right. right. cbn. auto.
  - intros fuel z x y Hin. unfold main in *.
    destruct (startup E) as [s0|e s0] eqn:Hs.
    + assert (H0 : Clean s0).
      { revert Hs. unfold startup, initial_state. fields.
        destruct (disk_StateFile E) as [p|];
          [destruct (py_index (Maplist E) (St_Source p)) as [[name src]|]|];
          intros H; inversion H; subst; unfold Clean; fields; repeat constructor. }
      destruct (main_loop_halt E fuel s0 H0) as [HC|(z' & x' & y' & s & Hrun & HS)].
      * unfold Clean in HC. rewrite Forall_forall in HC. destruct (HC _ Hin).
      * rewrite Hrun in Hin. cbn [result_state] in Hin.
        destruct HS as ((HR & HX & HY & HZ & Hu) & Hv & Hfile).
        assert (Heq : (z, x, y) = (z', x', y')).
        { apply Hu. unfold exit_logs in Hin. fields in Hin.
          rewrite <- app_assoc in Hin. apply in_app_or in Hin.
          destruct Hin as [Hin|Hin]; [exact Hin|].
          cbn in Hin. intuition discriminate. }
        inversion Heq; subst. exists s. auto.
    + cbn [result_state] in Hin. exfalso. revert Hs Hin.
      unfold startup, initial_state. fields.
      destruct (disk_StateFile E) as [p|];
        [destruct (py_index (Maplist E) (St_Source p)) as [[name src]|]|];
        intros H; inversion H; subst; fields; cbn; intuition discriminate.
Qed.

Lemma fatal_halt_checkpoint_witness :
  (exists s', tile env_broken (source europe ["a"] 3 3) 3 3 4
                (set_requests 1 (initial_state env_broken)) = Ok s' /\
              Run s' = false /\ In (EvLog (MsgFailed 3 4 3)) (trace s')) /\
  main env_broken 1 = Exited (result_state (main env_broken 1)) /\
  StateFile (result_state (main env_broken 1)) = Some (mkStatus 0 4 3 3 1).
Proof.
  destruct (fatal_halt_checkpoint env_broken) as [Htile Hrun].
  split; [|split].
  - apply Htile; [cbn; lia | reflexivity | | reflexivity].
    intros [|k] Hk; [reflexivity | cbn in Hk; lia].
  - destruct (Hrun 1%nat 3 4 3) as (s & Hexit & _).
    + vm_compute. auto 20.
    + rewrite Hexit. reflexivity.
  - destruct (Hrun 1%nat 3 4 3) as (s & Hexit & _ & _ & Hfile & _).
    + vm_compute. auto 20.
    + assert (Hs : SessionTileCount (result_state (main env_broken 1)) = 1 /\
                   SourceCounter (result_state (main env_broken 1)) = 0 /\
                   TotalTileCount (result_state (main env_broken 1)) = 1)
        by (vm_compute; auto).
      rewrite Hexit in *. cbn [result_state] in *.
      unfold exit_logs in Hs. fields in Hs. destruct Hs as (H1 & H2 & H3).
      rewrite Hfile, H2, H3 by lia. reflexivity.
Defined.

(** C3 as stated fails: tile (4,2) of zoom 3 is delivered, tile (4,3) is
    answered 500 by the only mirror; the process exits and the checkpoint on
    disk holds (4,3), the tile that failed, not (4,2), the last tile that
    was fetched. *)
Lemma failed_tile_is_checkpointed :
  let r := main env_broken 1 in
  let s := result_state r in
  r = Exited s /\
  fetched (trace s) = [(3, 4, 2)] /\
  In (EvLog (MsgFailed 3 4 3)) (trace s) /\
  option_map position (StateFile s) = Some (3, 4, 3) /\
  option_map position (StateFile s) <> Some (last (fetched (trace s)) (0, 0, 0)).
Proof.
  vm_compute. repeat split; auto 20. discriminate.
Qed.

(** ** Resuming *)

Lemma after_loops_next_source (E : environment) (name : string)
    (src : MapSource) (s s' : state) :
  after_loops E name src s = Ok s' -> Run s' = true ->
  PickupDone s' = true /\ MapRun s' = false.
Proof.
  unfold after_loops.
  destruct (0 <? length (VectorTiles s))%nat; fields;
    destruct (0 <? SessionTileCount s);
    try (destruct (cur_X s), (cur_Y s), (cur_Z s)); cbn [bind]; fields;
    try discriminate;
    destruct (Run s) eqn:HR; fields; try (destruct (_ >=? _));
    intros H; inversion H; subst; fields; auto; congruence.
Qed.

(** The body of [while (MapRun and Run)] is not entered twice. *)
Lemma map_body_leaves_loop (E : environment) (name : string)
    (src : MapSource) (s s' : state) :
  map_body E name src s = Ok s' -> MapRun s' && Run s' = false.
Proof.
  unfold map_body. destruct (for_Z E src _ _) as [s1|e s1]; cbn [bind];
    [|discriminate].
  intros H. destruct (Run s') eqn:HR; [|apply andb_false_r].
  destruct (after_loops_next_source E name src s1 s' H HR) as [_ ->]. reflexivity.
Qed.

Lemma iteration_next_source (E : environment) (s s' : state) :
  iteration E s = Ok s' -> Run s' = true -> PickupDone s' = true.
Proof.
  unfold iteration. destruct (py_index _ _) as [[name src]|]; [|discriminate].
  unfold map_loop. set (s1 := source_setup E name src s).
  assert (HM : MapRun s1 = true).
  { subst s1. unfold source_setup.
    destruct (MapStatusFiles s name), (PickupDone s) eqn:HD; fields;
      rewrite ?HD; reflexivity. }
  rewrite HM. cbn [andb]. destruct (Run s1) eqn:HR.
  - unfold map_body. destruct (for_Z E src _ _) as [s2|e s2]; cbn [bind];
      [|discriminate].
    intros H HR'. apply (after_loops_next_source E name src s2 s' H HR').
  - intros H. inversion H; subst. congruence.
Qed.

Lemma main_loop_next_source (E : environment) (fuel : nat) :
  forall s s', main_loop E (S fuel) s = StillRunning s' -> PickupDone s' = true.
Proof.
  induction fuel as [|fuel IH]; intros s s'.
  - cbn [main_loop]. destruct (Run s); [|discriminate].
    destruct (iteration E s) as [s1|e s1] eqn:Hit; [|discriminate].
    destruct (Run s1) eqn:HR; [|discriminate].
    intros H. inversion H; subst. eapply iteration_next_source; eauto.
  - intros H. change (main_loop E (S (S fuel)) s)
      with (if Run s then match iteration E s with
                          | Ok s1 => main_loop E (S fuel) s1
                          | Crash e s1 => Crashed e s1
                          end
            else Exited (exit_logs s)) in H.
    destruct (Run s); [|discriminate].
    destruct (iteration E s) as [s1|e s1]; [|discriminate].
    eapply IH; eauto.
Qed.

Lemma range_cons (a b : Z) : a < b -> range a b = a :: range (a + 1) b.
Proof.
  intros Hab. unfold range.
  replace (Z.to_nat (b - a)) with (S (Z.to_nat (b - (a + 1)))) by lia.
  cbn [seq map]. f_equal; [lia|].
  rewrite <- seq_shift, map_map. apply map_ext. intros i. lia.
Qed.

Lemma enumerated_app (t u : list event) :
  enumerated (t ++ u) = enumerated t ++ enumerated u.
Proof. apply flat_map_app. Qed.

(** Where the first tile is reached after a checkpoint was found. *)
Section First_tile.

Variable E : environment.
Variable src : MapSource.
Variable p : Status.

Lemma tile_first (Zv Yv Xv : Z) (s : state) :
  Fresh E s -> PickupDone s = true -> cur_Z s <> None -> cur_Y s <> None ->
  Starts E Zv Xv Yv (true, true, true) (tile E src Zv Yv Xv s).
Proof.
  intros (Hv & Hw & He) HD HZ HY. exists (trace s). split; [exact He|].
  unfold tile. apply retry_loop_inv. split.
  - constructor; fields.
    + exists []. now rewrite app_nil_r.
    + intros HW. rewrite Hv. split; [cbn; lia|].
      apply Forall_app. split; auto. repeat constructor.
    + congruence.
  - unfold Vars. fields. repeat split; left; auto; discriminate.
Qed.

Lemma for_X_first (Zv Yv Xv : Z) (xs : list Z) (s : state) :
  Fresh E s -> PickupDone s = true -> cur_Z s <> None -> cur_Y s <> None ->
  Starts E Zv Xv Yv (true, true, false) (for_X E src Zv Yv (Xv :: xs) s).
Proof.
  intros HF HD HZ HY.
  destruct (tile_first Zv Yv Xv s HF HD HZ HY) as (t & Ht & Htile).
  exists t. split; [exact Ht|]. unfold for_X. cbn [for_each].
  eapply holds_bind; [exact Htile|]. cbn beta. intros s1 [HC HV].
  assert (H1 : At E (t ++ [EvTile Zv Xv Yv]) true true false s1)
    by (split; auto; eapply Vars_mono; [..|exact HV]; auto).
  destruct (Run s1); [|exact H1].
  apply for_X_inv. destruct H1 as [HC1 HV1].
  split; [passive; exact HC1 | same_vars; exact HV1].
Qed.

Lemma rows_first (Zv min_x max_x Yv : Z) (ys : list Z) (s : state) :
  Fresh E s -> PickupDone s = false -> PickupStatus s = Some p ->
  St_X p <= max_x -> cur_Z s <> None ->
  Starts E Zv (St_X p) Yv (true, false, false)
    (for_each (row E src Zv min_x max_x) (fun s => s) (Yv :: ys) s).
Proof.
  intros HF HD HP HX HZ. cbn [for_each]. unfold row at 1. fields.
  rewrite HD, HP, (range_cons (St_X p)) by lia.
  destruct (for_X_first Zv Yv (St_X p) (range (St_X p + 1) (max_x + 1))
              (set_PickupDone true (set_cur_Y (Some Yv) s)))
    as (t & Ht & Hrow); fields; auto; try discriminate.
  exists t. split; [exact Ht|].
  eapply holds_bind; [exact Hrow|]. cbn beta. intros s1 [HC HV].
  assert (H1 : At E (t ++ [EvTile Zv (St_X p) Yv]) true false false s1)
    by (split; auto; eapply Vars_mono; [..|exact HV]; auto).
  destruct (Run s1); [|exact H1]. apply rows_inv. exact H1.
Qed.

Lemma for_Z_first (Zv : Z) (zs : list Z) (s : state) :
  Fresh E s -> PickupDone s = false -> PickupStatus s = Some p ->
  St_Y p <= snd (tile_rect E src Zv) ->
  St_X p <= snd (fst (tile_rect E src Zv)) ->
  Starts E Zv (St_X p) (St_Y p) (false, false, false)
    (for_Z E src (Zv :: zs) s).
Proof.
  intros (Hv & Hw & He) HD HP HY HX. unfold for_Z. cbn [for_each].
  unfold zoom_level at 1.
  destruct (tile_rect E src Zv) as [[[min_x min_y] max_x] max_y] eqn:Hrect.
  cbn [fst snd] in HY, HX.
  set (s1 := zoom_start E src Zv s).
  assert (H1 : Fresh E s1 /\ PickupDone s1 = false /\ PickupStatus s1 = Some p /\
               cur_Z s1 <> None).
  { subst s1. unfold zoom_start, Fresh. rewrite Hrect. fields.
    repeat split; auto; try discriminate.
    - rewrite <- app_assoc. apply Forall_app. split; auto. repeat constructor.
    - rewrite <- app_assoc, enumerated_app, He. reflexivity. }
  clearbody s1. destruct H1 as (HF1 & HD1 & HP1 & HZ1).
  rewrite HD1, HP1, (range_cons (St_Y p)) by lia.
  destruct (rows_first Zv min_x max_x (St_Y p) (range (St_Y p + 1) (max_y + 1))
              s1 HF1 HD1 HP1 HX HZ1) as (t & Ht & Hrows).
  exists t. split; [exact Ht|].
  eapply holds_bind; [exact Hrows|]. cbn beta. intros s2 [HC HV].
  assert (H2 : At E (t ++ [EvTile Zv (St_X p) (St_Y p)]) false false false s2)
    by (split; auto; eapply Vars_mono; [..|exact HV]; auto).
  destruct (Run s2); [|exact H2]. apply for_Z_inv. exact H2.
Qed.

End First_tile.

Lemma source_setup_min_z (E : environment) (name : string) (src : MapSource)
    (s : state) :
  min_z (source_setup E name src s)
  = if PickupDone s then min_z0 src else min_z s.
Proof.
  unfold source_setup.
  destruct (MapStatusFiles s name), (PickupDone s) eqn:HD; fields; rewrite ?HD;
    reflexivity.
Qed.

(** C4, amended.  A process that finds a checkpoint [p] with a nonzero column
    starts at the checkpointed source with the checkpointed zoom as first
    zoom.  If that zoom is not above the source's maximum zoom, the
    checkpointed row and column are not beyond the maximum row and column of
    the rectangle at that zoom, and no stop signal arrives while the store is
    opened, the first tile reached is (checkpointed zoom, checkpointed
    column, checkpointed row).  Every later turn of the main loop starts its
    source at the source's own minimum zoom. *)
Theorem resume_from_checkpoint (E : environment) (p : Status) (name : string)
    (src : MapSource) :
  disk_StateFile E = Some p ->
  St_X p <> 0 ->
  py_index (Maplist E) (St_Source p) = Some (name, src) ->
  St_Z p <= max_z src ->
  St_Y p <= snd (tile_rect E src (St_Z p)) ->
  St_X p <= snd (fst (tile_rect E src (St_Z p))) ->
  stop_signal E 0 = false ->
  (exists s0, startup E = Ok s0 /\ SourceCounter s0 = St_Source p /\
              min_z (source_setup E name src s0) = St_Z p) /\
  (forall fuel,
     hd_error (enumerated (trace (result_state (main E (S fuel)))))
     = Some (St_Z p, St_X p, St_Y p)) /\
  (forall fuel s name' src',
     main E (S fuel) = StillRunning s ->
     py_index (Maplist E) (SourceCounter s) = Some (name', src') ->
     min_z (source_setup E name' src' s) = min_z0 src').
Proof.
  intros Hdisk HX Hidx HZ HY HXm Hsig.
  assert (Hstart : exists s0, startup E = Ok s0 /\
            SourceCounter s0 = St_Source p /\ min_z s0 = St_Z p /\
            PickupDone s0 = false /\ PickupStatus s0 = Some p /\
            Run s0 = true /\ clock s0 = 0%nat /\ VectorTiles s0 = [] /\
            trace s0 = [EvLog MsgStart;
                        EvLog (MsgPickup name (St_Z p) (St_X p) (St_Y p)
                                 (St_TotalTileCount p))]).
  { unfold startup, initial_state. fields. rewrite Hdisk, Hidx. fields.
    eexists. split; [reflexivity|]. fields.
    rewrite (proj2 (Z.eqb_neq _ _) HX). repeat split. }
  destruct Hstart as (s0 & Hs0 & HS & Hmin & HD & HP & HR & Hclock & Hv & Htr).
  split; [|split].
  - exists s0. rewrite source_setup_min_z, HD. auto.
  - intros fuel. unfold main. rewrite Hs0. cbn [main_loop]. rewrite HR.
    unfold iteration. rewrite HS, Hidx. unfold map_loop.
    set (s1 := source_setup E name src s0).
    assert (H1 : Fresh E s1 /\ PickupDone s1 = false /\ PickupStatus s1 = Some p /\
                 min_z s1 = St_Z p /\ MapRun s1 = true /\ Run s1 = true).
    { subst s1. unfold source_setup, Fresh.
      destruct (MapStatusFiles s0 name); fields; rewrite HD; fields;
        rewrite ?HD, ?HR, ?Hclock, ?Hsig, ?Htr, ?Hv; repeat split; auto;
        repeat constructor. }
    clearbody s1. destruct H1 as (HF1 & HD1 & HP1 & Hmin1 & HM1 & HR1).
    rewrite HM1, HR1. cbn [andb]. unfold map_body.
    set (s2 := Log _ s1).
    assert (H2 : Fresh E s2 /\ PickupDone s2 = false /\ PickupStatus s2 = Some p /\
                 min_z s2 = St_Z p).
    { subst s2. destruct HF1 as (Hv1 & Hw1 & He1). unfold Fresh. fields.
      repeat split; auto.
      - apply Forall_app. split; auto. repeat constructor.
      - rewrite enumerated_app, He1. reflexivity. }
    clearbody s2. destruct H2 as (HF2 & HD2 & HP2 & Hmin2).
    rewrite Hmin2, (range_cons (St_Z p)) by lia.
    destruct (for_Z_first E src p (St_Z p) (range (St_Z p + 1) (max_z src + 1))
                s2 HF2 HD2 HP2 HY HXm) as (t & Ht & Hloops).
    set (t0 := t ++ [EvTile (St_Z p) (St_X p) (St_Y p)]) in *.
    assert (Hpass : holds (fun s' => At E t0 false false false s' /\
                                     VectorTiles s' = []) (Core E t0)
                      (s <- for_Z E src (St_Z p :: range (St_Z p + 1) (max_z src + 1)) s2 ;;
                       after_loops E name src s)).
    { eapply holds_bind; [exact Hloops|]. intros s3 H3. apply after_loops_inv.
      exact H3. }
    match type of Hpass with holds _ _ ?o => destruct o as [s3|e s3] end;
      cbn [holds] in Hpass.
    + destruct Hpass as [[HC3 HV3] Hv3].
      destruct (main_loop_inv E t0 fuel s3 (conj HC3 (conj HV3 Hv3)))
        as [[[evs Hevs] _ _] _].
      rewrite Hevs. subst t0.
      rewrite !enumerated_app, Ht. reflexivity.
    + cbn [result_state]. destruct Hpass as [[evs Hevs] _ _].
      rewrite Hevs. subst t0. rewrite !enumerated_app, Ht. reflexivity.
  - intros fuel s name' src' Hrun Hsrc. unfold main in Hrun. rewrite Hs0 in Hrun.
    rewrite source_setup_min_z, (main_loop_next_source E fuel s0 s Hrun).
    reflexivity.
Qed.

Lemma resume_from_checkpoint_witness :
  let E := env_resumed_inside in
  let src := source atlantic ["a"] 1 3 in
  (exists s0, startup E = Ok s0 /\ SourceCounter s0 = 0 /\
              min_z (source_setup E "at" src s0) = 3) /\
  (forall fuel,
     hd_error (enumerated (trace (result_state (main E (S fuel)))))
     = Some (3, 3, 2)) /\
  (forall fuel s name' src',
     main E (S fuel) = StillRunning s ->
     py_index (Maplist E) (SourceCounter s) = Some (name', src') ->
     min_z (source_setup E name' src' s) = min_z0 src').
Proof.
  intros E src.
  apply (resume_from_checkpoint E (mkStatus 0 3 2 3 5) "at" src);
    vm_compute; try reflexivity; discriminate.
Defined.

(** C4 as stated fails.  [env_resumed] holds the checkpoint (zoom 1, column
    1, row 0), which is what the script itself leaves on disk when it is
    stopped on entering zoom 2 ([env_interrupted]).  At zoom 1 the rectangle
    is (0,0)-(0,1): row 0 has no column 1, so the first tile reached is
    (zoom 1, column 0, row 1) and not the checkpointed column 1 of row 0. *)
Lemma resume_misses_checkpointed_tile :
  StateFile (result_state (main env_interrupted 1)) = disk_StateFile env_resumed /\
  disk_StateFile env_resumed = Some (mkStatus 0 1 0 1 0) /\
  tile_rect env_resumed (source atlantic ["a"] 1 2) 1 = (0, 0, 0, 1) /\
  enumerated (trace (result_state (main env_resumed 1)))
  = [(1, 0, 1); (2, 1, 0); (2, 1, 1); (2, 1, 2)] /\
  hd_error (enumerated (trace (result_state (main env_resumed 1))))
  <> Some (1, 1, 0).
Proof. vm_compute. repeat split; auto. discriminate. Qed.

(** ** A source without mirrors *)



Section No_mirrors.

Variable E : environment.
Variable src : MapSource.
Hypothesis no_mirrors : ServerParts src = [].
Variable s0 : state.






(** The same pass when no stop signal ever arrives: every tile of the grid is
    reached, in order. *)
Hypothesis never_stopped : forall n, stop_signal E n = false.





End No_mirrors.




(** ** The rectangle of the whole world *)





(** * Further properties *)

(** ** Stop signals *)

Section Stop.

Variable E : environment.

Lemma Armed_Prompt (s : state) : Armed E s -> Prompt E s.
Proof. intros H n Hn Hs. destruct (H n Hn Hs) as [HR ->]. split; auto. lia. Qed.

Lemma Prompt_Armed (s : state) : Prompt E s -> Run s = true -> Armed E s.
Proof. intros H HR n Hn Hs. destruct (H n Hn Hs). congruence. Qed.

Lemma Prompt_same (s s' : state) :
  clock s' = clock s -> Run s' = Run s \/ Run s' = false ->
  Prompt E s -> Prompt E s'.
Proof.
  intros Hc HR H n Hn Hs. rewrite Hc in *. destruct (H n Hn Hs) as [HF ?].
  split; auto. destruct HR; congruence.
Qed.

Lemma Armed_same (s s' : state) :
  clock s' = clock s -> Run s' = Run s \/ Run s' = false ->
  Armed E s -> Armed E s'.
Proof.
  intros Hc HR H n Hn Hs. rewrite Hc in *. destruct (H n Hn Hs) as [HF ?].
  split; auto. destruct HR; congruence.
Qed.

(** A blocking operation started with at most the last operation
    signalled. *)
Lemma blocking_Prompt (s : state) : Armed E s -> Prompt E (blocking E s).
Proof.
  intros H n Hn Hs. fields in Hn. fields.
  destruct (Nat.eq_dec n (clock s)) as [->|Hne].
  - rewrite Hs. rewrite andb_false_r. split; auto. lia.
  - destruct (H n ltac:(lia) Hs) as [-> ->]. split; auto. lia.
Qed.

(** A blocking operation started with no operation signalled. *)
Lemma blocking_Armed (s : state) :
  Prompt E s -> Run s = true -> Armed E (blocking E s).
Proof.
  intros H HR n Hn Hs. fields in Hn. fields.
  destruct (Nat.eq_dec n (clock s)) as [->|Hne].
  - rewrite Hs, andb_false_r. auto.
  - destruct (H n ltac:(lia) Hs). congruence.
Qed.

Ltac unchanged L H :=
  eapply L; [| |exact H];
  [reflexivity | first [left; reflexivity | right; reflexivity]].

Lemma retry_loop_Prompt (src : MapSource) (Zv Yv Xv : Z) (r : nat) :
  forall s, Armed E s ->
  holds (Prompt E) (Prompt E) (retry_loop E src Zv Yv Xv r s).
Proof.
  induction r as [|r IH]; intros s HA; cbn [retry_loop holds].
  - apply Armed_Prompt. exact HA.
  - destruct (next_ServerPart _ _) as [[ServerPart n]|]; cbn [holds];
      [|apply Armed_Prompt; exact HA].
    set (code := http_status E _).
    set (s1 := blocking E _).
    assert (H1 : Prompt E s1).
    { subst s1. apply blocking_Prompt. unchanged Armed_same HA. }
    clearbody s1. destruct (code =? 200).
    + cbn [holds]. unfold tile_fetched. fields.
      destruct (_ =? _); fields; unchanged Prompt_same H1.
    + match goal with |- holds _ _ (if Run ?st then _ else _) => set (s2 := st) end.
      assert (H2 : Prompt E s2).
      { subst s2. destruct (code =? 404), r; auto; unchanged Prompt_same H1. }
      clearbody s2. destruct (Run s2) eqn:HR; cbn [holds]; auto.
      apply IH. apply Prompt_Armed; auto.
Qed.

Lemma for_X_Prompt (src : MapSource) (Zv Yv : Z) (xs : list Z) (s : state) :
  Armed E s -> holds (Prompt E) (Prompt E) (for_X E src Zv Yv xs s).
Proof.
  unfold for_X. apply (for_each_rule _ _ (Armed E)); [apply Armed_Prompt|].
  intros Xv s1 H1. unfold tile.
  eapply holds_weaken; [| |apply retry_loop_Prompt; unchanged Armed_same H1]; auto.
  cbn beta. intros s2 H2. destruct (Run s2) eqn:HR; auto.
  unfold sleep. apply blocking_Armed; [unchanged Prompt_same H2 | exact HR].
Qed.

Lemma rows_Prompt (src : MapSource) (Zv a b : Z) (ys : list Z) (s : state) :
  Armed E s ->
  holds (Prompt E) (Prompt E) (for_each (row E src Zv a b) (fun s => s) ys s).
Proof.
  apply (for_each_rule _ _ (Armed E)); [apply Armed_Prompt|].
  intros Yv s1 H1.
  assert (Hpost : forall o, holds (Prompt E) (Prompt E) o ->
            holds (fun s' => if Run s' then Armed E s' else Prompt E s')
              (Prompt E) o).
  { intros o. apply holds_weaken; auto. intros s' H'.
    destruct (Run s') eqn:HR; auto. apply Prompt_Armed; auto. }
  apply Hpost. unfold row. fields.
  destruct (PickupDone s1); [apply for_X_Prompt; unchanged Armed_same H1|].
  destruct (PickupStatus s1);
    [apply for_X_Prompt; unchanged Armed_same H1
    |cbn [holds]; apply Armed_Prompt; unchanged Armed_same H1].
Qed.

Lemma for_Z_Prompt (src : MapSource) (zs : list Z) (s : state) :
  Armed E s -> holds (Prompt E) (Prompt E) (for_Z E src zs s).
Proof.
  unfold for_Z. apply (for_each_rule _ _ (Armed E)); [apply Armed_Prompt|].
  intros Zv s1 H1.
  assert (Hpost : forall o, holds (Prompt E) (Prompt E) o ->
            holds (fun s' => if Run s' then Armed E s' else Prompt E s')
              (Prompt E) o).
  { intros o. apply holds_weaken; auto. intros s' H'.
    destruct (Run s') eqn:HR; auto. apply Prompt_Armed; auto. }
  apply Hpost. unfold zoom_level.
  destruct (tile_rect E src Zv) as [[[min_x min_y] max_x] max_y] eqn:Hrect.
  set (s2 := zoom_start E src Zv s1).
  assert (H2 : Armed E s2)
    by (subst s2; unfold zoom_start; rewrite Hrect; unchanged Armed_same H1).
  clearbody s2.
  destruct (PickupDone s2); [apply rows_Prompt; exact H2|].
  destruct (PickupStatus s2);
    [apply rows_Prompt; exact H2 | cbn [holds]; apply Armed_Prompt; exact H2].
Qed.

Lemma after_loops_Prompt (name : string) (src : MapSource) (s : state) :
  Prompt E s -> holds (Prompt E) (Prompt E) (after_loops E name src s).
Proof.
  intros H. unfold after_loops.
  destruct (0 <? length (VectorTiles s))%nat; fields;
    destruct (0 <? SessionTileCount s);
    try (destruct (cur_X s), (cur_Y s), (cur_Z s)); cbn [bind holds]; fields;
    try (unchanged Prompt_same H);
    destruct (Run s) eqn:HR; cbn [holds]; fields; try (destruct (_ >=? _));
    fields; (eapply Prompt_same; [| |exact H]; fields; auto).
Qed.

Lemma iteration_Prompt (s : state) :
  Prompt E s -> Run s = true -> holds (Prompt E) (Prompt E) (iteration E s).
Proof.
  intros H HR. unfold iteration.
  destruct (py_index _ _) as [[name src]|]; [|exact H].
  set (s1 := source_setup E name src s).
  assert (H1 : Armed E s1).
  { subst s1. unfold source_setup.
    destruct (MapStatusFiles s name), (PickupDone s) eqn:HD; fields; rewrite ?HD;
      (apply blocking_Armed; [unchanged Prompt_same H | exact HR]). }
  clearbody s1. unfold map_loop.
  destruct (_ && _); [|cbn [holds]; apply Armed_Prompt; exact H1].
  unfold map_body.
  eapply holds_bind; [apply for_Z_Prompt; unchanged Armed_same H1|].
  intros s2 H2. apply after_loops_Prompt. exact H2.
Qed.

Lemma main_loop_Prompt (fuel : nat) :
  forall s, Prompt E s -> Prompt E (result_state (main_loop E fuel s)).
Proof.
  induction fuel as [|fuel IH]; intros s H; cbn [main_loop];
    destruct (Run s) eqn:HR; cbn [result_state]; auto;
    try (unfold exit_logs; unchanged Prompt_same H).
  pose proof (iteration_Prompt s H HR) as Hit.
  destruct (iteration E s); cbn [holds result_state] in *; auto.
Qed.

End Stop.

Lemma main_Prompt (E : environment) (fuel : nat) :
  Prompt E (result_state (main E fuel)).
Proof.
  unfold main. destruct (startup E) as [s0|e s0] eqn:H0.
  - apply main_loop_Prompt. intros m Hm. exfalso. revert H0 Hm.
    unfold startup, initial_state. fields.
    destruct (disk_StateFile E) as [p|];
      [destruct (py_index (Maplist E) (St_Source p)) as [[name src]|]|];
      intros H; inversion H; subst; fields; lia.
  - cbn [result_state]. intros m Hm. exfalso. revert H0 Hm.
    unfold startup, initial_state. fields.
    destruct (disk_StateFile E) as [p|];
      [destruct (py_index (Maplist E) (St_Source p)) as [[name src]|]|];
      intros H; inversion H; subst; fields; lia.
Qed.

(** *** What follows a signal *)

Lemma timed_app (t1 t2 : list event) :
  timed (t1 ++ t2) = timed t1 ++ timed t2.
Proof. apply filter_app. Qed.

Lemma Heeded_same (E : environment) (s s' : state) :
  clock s' = clock s -> timed (trace s') = timed (trace s) ->
  Run s' = Run s \/ Run s' = false ->
  Heeded E s -> Heeded E s'.
Proof.
  intros Hc Ht HR (H1 & H2 & H3). unfold Heeded. rewrite Hc, Ht.
  repeat split; auto.
  intros HR'. apply H2. destruct HR; congruence.
Qed.

(** One more blocking operation: a request at any time, a sleep or an
    opening of the store when [Run] is set. *)
Lemma Heeded_tick (E : environment) (s s' : state) (e : event) :
  clock s' = S (clock s) -> timed (trace s') = timed (trace s) ++ [e] ->
  Run s' = Run s && negb (stop_signal E (clock s)) ->
  request e = true \/ Run s = true ->
  Heeded E s -> Heeded E s'.
Proof.
  intros Hc Ht HR He (H1 & H2 & H3). unfold Heeded. rewrite Hc, Ht.
  split; [|split].
  - rewrite length_app, H1. cbn [length]. lia.
  - rewrite HR. intros HR' j Hj.
    apply andb_true_iff in HR'. destruct HR' as [HR1 HR2].
    destruct (Nat.eq_dec j (clock s)) as [->|Hne].
    + destruct (stop_signal E (clock s)); [discriminate|reflexivity].
    + apply H2; [exact HR1|lia].
  - intros k e' Hk He' j Hj.
    destruct (Nat.lt_ge_cases k (length (timed (trace s)))) as [Hlt|Hge].
    + rewrite nth_error_app1 in Hk by exact Hlt. eapply H3; eauto.
    + rewrite nth_error_app2 in Hk by exact Hge.
      destruct (k - length (timed (trace s)))%nat as [|m] eqn:Hm;
        cbn [nth_error] in Hk.
      * inversion Hk; subst e'. destruct He as [He|He]; [congruence|].
        apply H2; [exact He|lia].
      * destruct m; discriminate.
Qed.

Ltac heeded H :=
  eapply Heeded_same; [| | |exact H];
  [reflexivity
  |fields; rewrite ?timed_app; cbn [timed filter app]; rewrite ?app_nil_r;
   reflexivity
  |first [left; reflexivity | right; reflexivity]].

Section Heed.

Variable E : environment.

Lemma retry_loop_Heeded (src : MapSource) (Zv Yv Xv : Z) (r : nat) :
  forall s, Heeded E s ->
  holds (Heeded E) (Heeded E) (retry_loop E src Zv Yv Xv r s).
Proof.
  induction r as [|r IH]; intros s H; cbn [retry_loop holds]; [exact H|].
  destruct (next_ServerPart _ _) as [[ServerPart n]|]; cbn [holds];
    [|exact H].
  set (code := http_status E _).
  set (s1 := blocking E _).
  assert (H1 : Heeded E s1).
  { subst s1. eapply Heeded_tick; [| | | |exact H].
    - reflexivity.
    - fields. rewrite timed_app. reflexivity.
    - reflexivity.
    - left. reflexivity. }
  clearbody s1. destruct (code =? 200).
  - cbn [holds]. unfold tile_fetched. fields.
    destruct (_ =? _); fields; heeded H1.
  - match goal with |- holds _ _ (if Run ?st then _ else _) => set (s2 := st) end.
    assert (H2 : Heeded E s2).
    { subst s2. destruct (code =? 404), r; auto; heeded H1. }
    clearbody s2. destruct (Run s2) eqn:HR; cbn [holds]; auto.
Qed.

Lemma for_X_Heeded (src : MapSource) (Zv Yv : Z) (xs : list Z) (s : state) :
  Heeded E s -> holds (Heeded E) (Heeded E) (for_X E src Zv Yv xs s).
Proof.
  unfold for_X. apply (for_each_rule _ _ (Heeded E)); [auto|].
  intros Xv s1 H1. unfold tile.
  eapply holds_weaken; [| |apply retry_loop_Heeded; heeded H1]; auto.
  cbn beta. intros s2 H2. destruct (Run s2) eqn:HR; auto.
  unfold sleep. eapply Heeded_tick; [| | | |exact H2].
  - reflexivity.
  - fields. rewrite timed_app. reflexivity.
  - reflexivity.
  - right. exact HR.
Qed.

Lemma Heeded_loop (o : outcome) :
  holds (Heeded E) (Heeded E) o ->
  holds (fun s' => if Run s' then Heeded E s' else Heeded E s') (Heeded E) o.
Proof.
  apply holds_weaken; auto. intros s' H'. destruct (Run s'); exact H'.
Qed.

Lemma rows_Heeded (src : MapSource) (Zv a b : Z) (ys : list Z) (s : state) :
  Heeded E s ->
  holds (Heeded E) (Heeded E) (for_each (row E src Zv a b) (fun s => s) ys s).
Proof.
  apply (for_each_rule _ _ (Heeded E)); [auto|].
  intros Yv s1 H1. apply Heeded_loop. unfold row. fields.
  destruct (PickupDone s1); [apply for_X_Heeded; heeded H1|].
  destruct (PickupStatus s1);
    [apply for_X_Heeded; heeded H1 | cbn [holds]; heeded H1].
Qed.

Lemma for_Z_Heeded (src : MapSource) (zs : list Z) (s : state) :
  Heeded E s -> holds (Heeded E) (Heeded E) (for_Z E src zs s).
Proof.
  unfold for_Z. apply (for_each_rule _ _ (Heeded E)); [auto|].
  intros Zv s1 H1. apply Heeded_loop. unfold zoom_level.
  destruct (tile_rect E src Zv) as [[[min_x min_y] max_x] max_y] eqn:Hrect.
  set (s2 := zoom_start E src Zv s1).
  assert (H2 : Heeded E s2)
    by (subst s2; unfold zoom_start; rewrite Hrect; heeded H1).
  clearbody s2.
  destruct (PickupDone s2); [apply rows_Heeded; exact H2|].
  destruct (PickupStatus s2);
    [apply rows_Heeded; exact H2 | cbn [holds]; exact H2].
Qed.

Lemma after_loops_Heeded (name : string) (src : MapSource) (s : state) :
  Heeded E s -> holds (Heeded E) (Heeded E) (after_loops E name src s).
Proof.
  intros H. unfold after_loops.
  destruct (0 <? length (VectorTiles s))%nat; fields;
    destruct (0 <? SessionTileCount s);
    try (destruct (cur_X s), (cur_Y s), (cur_Z s)); cbn [bind holds]; fields;
    try (heeded H);
    destruct (Run s) eqn:HR; cbn [holds]; fields; try (destruct (_ >=? _));
    fields;
    (eapply Heeded_same; [| | |exact H];
     [reflexivity
     |fields; rewrite ?timed_app; cbn [timed filter app];
      rewrite ?app_nil_r; reflexivity
     |fields; auto]).
Qed.

Lemma iteration_Heeded (s : state) :
  Heeded E s -> Run s = true -> holds (Heeded E) (Heeded E) (iteration E s).
Proof.
  intros H HR. unfold iteration.
  destruct (py_index _ _) as [[name src]|]; [|exact H].
  set (s1 := source_setup E name src s).
  assert (H1 : Heeded E s1).
  { subst s1. unfold source_setup.
    destruct (MapStatusFiles s name), (PickupDone s) eqn:HD; fields; rewrite ?HD;
      (eapply Heeded_tick; [| | | |exact H];
       [reflexivity
       |fields; rewrite timed_app; reflexivity
       |reflexivity
       |right; exact HR]). }
  clearbody s1. unfold map_loop.
  destruct (_ && _); [|exact H1].
  unfold map_body.
  eapply holds_bind; [apply for_Z_Heeded; heeded H1|].
  intros s2 H2. apply after_loops_Heeded. exact H2.
Qed.

Lemma main_loop_Heeded (fuel : nat) :
  forall s, Heeded E s -> Heeded E (result_state (main_loop E fuel s)).
Proof.
  induction fuel as [|fuel IH]; intros s H; cbn [main_loop];
    destruct (Run s) eqn:HR; cbn [result_state]; auto;
    try (unfold exit_logs; heeded H).
  pose proof (iteration_Heeded s H HR) as Hit.
  destruct (iteration E s); cbn [holds result_state] in *; auto.
Qed.

End Heed.

Lemma main_Heeded (E : environment) (fuel : nat) :
  Heeded E (result_state (main E fuel)).
Proof.
  assert (H0 : Heeded E (final (startup E))).
  { unfold startup, initial_state, Heeded. fields.
    destruct (disk_StateFile E) as [p|];
      [destruct (py_index (Maplist E) (St_Source p)) as [[name src]|]|];
      cbn [final]; fields; cbn [timed filter app length];
      (split; [reflexivity|split; [intros; lia|]]);
      intros k e Hk; destruct k; discriminate. }
  unfold main. destruct (startup E) as [s0|e s0]; cbn [final] in H0.
  - apply main_loop_Heeded. exact H0.
  - exact H0.
Qed.

(** X1.  In every run, once a stop signal has been delivered during a
    request, a sleep or the opening of the store at the head of a turn
    (line 198), [Run] is false, the process sends at most one more request,
    sleeps no more and opens no store for another turn, and it is not left
    looping.  (The buffered tiles are still written to the store, lines
    296-297.) *)
Theorem stop_signal_is_prompt (E : environment) (fuel n : nat) :
  stop_signal E n = true ->
  (n < length (timed (trace (result_state (main E fuel)))))%nat ->
  Run (result_state (main E fuel)) = false /\
  (skipn (S n) (timed (trace (result_state (main E fuel)))) = [] \/
   exists server x y z code,
     skipn (S n) (timed (trace (result_state (main E fuel))))
     = [EvGet server x y z code]) /\
  forall s, main E fuel <> StillRunning s.
Proof.
  intros Hs Hn. destruct (main_Heeded E fuel) as (Hc & _ & Hp).
  rewrite <- Hc in Hn.
  destruct (main_Prompt E fuel n Hn Hs) as [HR Hle]. repeat split; auto.
  - rewrite Hc in Hn, Hle.
    set (t := timed (trace (result_state (main E fuel)))) in *.
    assert (Hlen : (length (skipn (S n) t) <= 1)%nat)
      by (rewrite length_skipn; lia).
    destruct (skipn (S n) t) as [|e [|e' l]] eqn:Hskip; cbn [length] in Hlen;
      [left; reflexivity| |lia].
    right.
    assert (Hnth : nth_error t (S n) = Some e).
    { rewrite <- (firstn_skipn (S n) t), Hskip.
      rewrite nth_error_app2 by (rewrite length_firstn; lia).
      rewrite length_firstn.
      replace (S n - Nat.min (S n) (length t))%nat with 0%nat by lia.
      reflexivity. }
    destruct e; try (specialize (Hp (S n) _ Hnth eq_refl n ltac:(lia));
                     congruence).
    eauto 6.
  - intros s Hrun. destruct (main_inv E fuel) as [_ Hhead].
    destruct (Hhead s Hrun) as (_ & _ & HR'). rewrite Hrun in HR.
    cbn [result_state] in HR. congruence.
Qed.

Lemma stop_signal_is_prompt_witness :
  Run (result_state (main env_stopped_asleep 2)) = false /\
  (skipn 13 (timed (trace (result_state (main env_stopped_asleep 2)))) = [] \/
   exists server x y z code,
     skipn 13 (timed (trace (result_state (main env_stopped_asleep 2))))
     = [EvGet server x y z code]) /\
  forall s, main env_stopped_asleep 2 <> StillRunning s.
Proof.
  apply (stop_signal_is_prompt env_stopped_asleep 2 12).
  - reflexivity.
  - vm_compute. lia.
Defined.

(** ** A stop signal ends the run *)

Section Clock.

Variable E : environment.
Variable src : MapSource.
Variable c : nat.

Lemma retry_loop_clock (Zv Yv Xv : Z) (r : nat) :
  forall s, (c <= clock s)%nat ->
  holds (fun s' => (c <= clock s')%nat) (fun s' => (c <= clock s')%nat)
    (retry_loop E src Zv Yv Xv r s).
Proof.
  induction r as [|r IH]; intros s H; cbn [retry_loop holds]; auto.
  destruct (next_ServerPart _ _) as [[ServerPart n]|]; cbn [holds]; auto.
  set (code := http_status E _).
  set (s1 := blocking E _).
  assert (H1 : (c <= clock s1)%nat) by (subst s1; fields; lia).
  clearbody s1. destruct (code =? 200).
  - cbn [holds]. unfold tile_fetched. fields. destruct (_ =? _); fields; lia.
  - match goal with |- holds _ _ (if Run ?st then _ else _) => set (s2 := st) end.
    assert (H2 : (c <= clock s2)%nat)
      by (subst s2; destruct (code =? 404), r; fields; lia).
    clearbody s2. destruct (Run s2); cbn [holds]; auto.
Qed.

Lemma clock_post (o : outcome) :
  holds (fun s' => (c <= clock s')%nat) (fun s' => (c <= clock s')%nat) o ->
  holds (fun s' => if Run s' then (c <= clock s')%nat else (c <= clock s')%nat)
        (fun s' => (c <= clock s')%nat) o.
Proof. apply holds_weaken; auto. intros s'. destruct (Run s'); auto. Qed.

Lemma for_X_clock (Zv Yv : Z) (xs : list Z) (s : state) :
  (c <= clock s)%nat ->
  holds (fun s' => (c <= clock s')%nat) (fun s' => (c <= clock s')%nat)
    (for_X E src Zv Yv xs s).
Proof.
  unfold for_X. apply (for_each_rule _ _ (fun s' => (c <= clock s')%nat)); auto.
  intros Xv s1 H1. unfold tile.
  eapply holds_weaken; [| |apply retry_loop_clock; fields; exact H1]; auto.
  cbn beta. intros s2 H2. destruct (Run s2); auto. fields. lia.
Qed.

Lemma rows_clock (Zv a b : Z) (ys : list Z) (s : state) :
  (c <= clock s)%nat ->
  holds (fun s' => (c <= clock s')%nat) (fun s' => (c <= clock s')%nat)
    (for_each (row E src Zv a b) (fun s => s) ys s).
Proof.
  apply (for_each_rule _ _ (fun s' => (c <= clock s')%nat)); auto.
  intros Yv s1 H1. apply clock_post. unfold row. fields.
  destruct (PickupDone s1); [apply for_X_clock; fields; exact H1|].
  destruct (PickupStatus s1); [apply for_X_clock; fields; exact H1|].
  cbn [holds]. fields. exact H1.
Qed.

Lemma for_Z_clock (zs : list Z) (s : state) :
  (c <= clock s)%nat ->
  holds (fun s' => (c <= clock s')%nat) (fun s' => (c <= clock s')%nat)
    (for_Z E src zs s).
Proof.
  unfold for_Z. apply (for_each_rule _ _ (fun s' => (c <= clock s')%nat)); auto.
  intros Zv s1 H1. apply clock_post. unfold zoom_level.
  destruct (tile_rect E src Zv) as [[[min_x min_y] max_x] max_y] eqn:Hrect.
  set (s2 := zoom_start E src Zv s1).
  assert (H2 : (c <= clock s2)%nat)
    by (subst s2; unfold zoom_start; rewrite Hrect; fields; exact H1).
  clearbody s2.
  destruct (PickupDone s2); [apply rows_clock; exact H2|].
  destruct (PickupStatus s2); [apply rows_clock; exact H2|].
  cbn [holds]. exact H2.
Qed.

Lemma after_loops_clock (name : string) (s : state) :
  (c <= clock s)%nat ->
  holds (fun s' => (c <= clock s')%nat) (fun s' => (c <= clock s')%nat)
    (after_loops E name src s).
Proof.
  intros H. unfold after_loops.
  destruct (0 <? length (VectorTiles s))%nat; fields;
    destruct (0 <? SessionTileCount s);
    try (destruct (cur_X s), (cur_Y s), (cur_Z s)); cbn [bind holds]; fields;
    try exact H;
    destruct (Run s); cbn [holds]; fields;
    try (destruct (_ >=? _)); fields; exact H.
Qed.

End Clock.

(** Every turn of the main loop opens the store, which takes time. *)
Lemma iteration_clock (E : environment) (s : state) :
  holds (fun s' => (S (clock s) <= clock s')%nat) (fun _ => True)
    (iteration E s).
Proof.
  unfold iteration.
  destruct (py_index _ _) as [[name src]|]; [|exact I].
  set (s1 := source_setup E name src s).
  assert (H1 : (S (clock s) <= clock s1)%nat).
  { subst s1. unfold source_setup.
    destruct (MapStatusFiles s name), (PickupDone s) eqn:HD; fields; rewrite ?HD;
      fields; lia. }
  clearbody s1. unfold map_loop. destruct (_ && _); [|exact H1].
  unfold map_body.
  eapply holds_weaken; [intros s' H; exact H | intros; exact I |].
  eapply holds_bind.
  - apply for_Z_clock. fields. exact H1.
  - intros s2 H2. apply after_loops_clock. exact H2.
Qed.

Lemma main_loop_clock (E : environment) (fuel : nat) :
  forall s s', main_loop E fuel s = StillRunning s' ->
  (clock s + fuel <= clock s')%nat.
Proof.
  induction fuel as [|fuel IH]; intros s s'; cbn [main_loop];
    destruct (Run s); try discriminate.
  - intros H. inversion H; subst. lia.
  - pose proof (iteration_clock E s) as Hit.
    destruct (iteration E s) as [s1|e s1]; [|discriminate].
    cbn [holds] in Hit. intros H. apply IH in H. lia.
Qed.

(** X2.  A stop signal ends the run: if one is delivered during the [n]-th
    blocking operation, the process is out of the main loop after at most
    [n + 1] turns of it (every turn opens the store, which is a blocking
    operation), whatever the servers answer. *)
Theorem stop_signal_ends_the_run (E : environment) (n fuel : nat) :
  stop_signal E n = true ->
  (n < fuel)%nat ->
  exists s, main E fuel = Exited s \/ exists e, main E fuel = Crashed e s.
Proof.
  intros Hs Hn. destruct (main E fuel) as [s|e s|s] eqn:Hrun; eauto.
  exfalso.
  assert (Hc : (fuel <= clock s)%nat).
  { revert Hrun. unfold main. destruct (startup E) as [s0|e s0] eqn:H0;
      [|discriminate].
    intros H. apply main_loop_clock in H.
    assert (clock s0 = 0%nat); [|lia].
    revert H0. unfold startup, initial_state. fields.
    destruct (disk_StateFile E) as [p|];
      [destruct (py_index (Maplist E) (St_Source p)) as [[name src]|]|];
      intros H0; inversion H0; subst; reflexivity. }
  pose proof (main_Prompt E fuel) as HP. rewrite Hrun in HP.
  cbn [result_state] in HP. destruct (HP n) as [HR _]; [lia | exact Hs |].
  destruct (main_inv E fuel) as [_ Hhead].
  destruct (Hhead s Hrun) as (_ & _ & HR'). congruence.
Qed.

Lemma stop_signal_ends_the_run_witness :
  exists s, main env_seven_stopped 14 = Exited s \/
            exists e, main env_seven_stopped 14 = Crashed e s.
Proof.
  apply (stop_signal_ends_the_run env_seven_stopped 13 14).
  - reflexivity.
  - lia.
Defined.

(** ** Exceptions *)

Lemma ends_weaken (R R' : state -> Prop) (P : exn -> Prop) (o : outcome) :
  (forall s, R s -> R' s) -> ends R P o -> ends R' P o.
Proof. destruct o; cbn; auto. Qed.

Lemma ends_bind (R Q : state -> Prop) (P : exn -> Prop) (o : outcome)
    (k : state -> outcome) :
  ends Q P o -> (forall s, Q s -> ends R P (k s)) -> ends R P (bind o k).
Proof. destruct o; cbn; auto. Qed.

Lemma ends_both (R C J : state -> Prop) (P : exn -> Prop) (o : outcome) :
  holds R C o -> ends J P o -> ends (fun s => R s /\ J s) P o.
Proof. destruct o; cbn; auto. Qed.

Lemma for_each_ends {A : Type} (body : A -> state -> outcome)
    (between : state -> state) (I : state -> Prop) (P : exn -> Prop) :
  (forall a s, I s ->
     ends (fun s' => if Run s' then I (between s') else I s') P (body a s)) ->
  forall l s, I s -> ends I P (for_each body between l s).
Proof.
  intros Hbody l. induction l as [|a l IH]; intros s HI; cbn; auto.
  specialize (Hbody a s HI). destruct (body a s) as [s'|e s']; cbn in *; auto.
  destruct (Run s'); cbn; auto.
Qed.

(** The lemmas of this section follow the subscripts and the names the script
    reads: [M] is what is known of [ServerPartNumber] and [SourceCounter],
    [Known] what is known of a configured source, and [P] what an exception
    can be. *)
Section Exceptions.

Variable E : environment.
Variable Known : MapSource -> Prop.
Variable M : state -> Prop.
Variable P : exn -> Prop.

Hypothesis M_same : forall s s',
  ServerPartNumber s' = ServerPartNumber s ->
  SourceCounter s' = SourceCounter s -> M s -> M s'.

Hypothesis M_rotate : forall src s,
  Known src -> M s -> (0 < length (ServerParts src))%nat ->
  match next_ServerPart (ServerParts src) (ServerPartNumber s) with
  | Some (_, n) => forall s', ServerPartNumber s' = n ->
                              SourceCounter s' = SourceCounter s -> M s'
  | None => P IndexError
  end.

Hypothesis M_advance : forall s s',
  M s -> ServerPartNumber s' = ServerPartNumber s ->
  SourceCounter s'
  = (if SourceCounter s + 1 >=? Z.of_nat (length (Maplist E))
     then 0 else SourceCounter s + 1) ->
  M s'.

Hypothesis M_index : forall s, M s ->
  match py_index (Maplist E) (SourceCounter s) with
  | Some (_, src) => Known src
  | None => P IndexError
  end.

Lemma Bound_same (s s' : state) :
  ServerPartNumber s' = ServerPartNumber s ->
  SourceCounter s' = SourceCounter s ->
  PickupStatus s' = PickupStatus s ->
  PickupDone s' = PickupDone s \/ PickupDone s' = true ->
  Bound M s -> Bound M s'.
Proof.
  intros Hn Hc Hp Hd [HM Hk]. split; [eapply M_same; eauto|].
  rewrite Hp. destruct Hd as [->| ->]; [exact Hk | discriminate].
Qed.

Ltac same H :=
  eapply Bound_same; [..|exact H];
  [reflexivity | reflexivity | reflexivity
  |first [left; reflexivity | right; reflexivity]].

Lemma tile_fetched_Bound (src : MapSource) (Zv Yv Xv : Z) (data : nat) (s : state) :
  Bound M s -> Bound M (tile_fetched E src Zv Yv Xv data s).
Proof.
  intros H. unfold tile_fetched. fields. destruct (_ =? _); same H.
Qed.

Lemma retry_loop_ends (src : MapSource) (Zv Yv Xv : Z) (r : nat) :
  Known src -> (r <= length (ServerParts src))%nat ->
  forall s, Bound M s -> ends (Bound M) P (retry_loop E src Zv Yv Xv r s).
Proof.
  intros HK. induction r as [|r IH]; intros Hr s H; cbn [retry_loop ends]; auto.
  pose proof (M_rotate src s HK (proj1 H)) as Hrot.
  destruct (next_ServerPart _ _) as [[ServerPart n]|]; cbn [ends];
    [|apply Hrot; lia].
  set (code := http_status E _).
  set (s1 := blocking E _).
  assert (H1 : Bound M s1).
  { split; [apply Hrot; [lia | reflexivity | reflexivity]|].
    subst s1. fields. exact (proj2 H). }
  clearbody s1. destruct (code =? 200); [apply tile_fetched_Bound; exact H1|].
  match goal with |- ends _ _ (if Run ?st then _ else _) => set (s2 := st) end.
  assert (H2 : Bound M s2) by (subst s2; destruct (code =? 404), r; auto; same H1).
  clearbody s2. destruct (Run s2); [apply IH; auto; lia | exact H2].
Qed.

Lemma for_X_ends (src : MapSource) (Zv Yv : Z) (xs : list Z) (s : state) :
  Known src -> Bound M s -> ends (Bound M) P (for_X E src Zv Yv xs s).
Proof.
  intros HK. unfold for_X. apply for_each_ends.
  intros Xv s1 H1. unfold tile.
  eapply ends_weaken; [|apply retry_loop_ends; [exact HK|lia|same H1]].
  cbn beta. intros s2 H2. destruct (Run s2); [same H2 | exact H2].
Qed.

Lemma rows_ends (src : MapSource) (Zv a b : Z) (ys : list Z) (s : state) :
  Known src -> Bound M s ->
  ends (Bound M) P (for_each (row E src Zv a b) (fun s => s) ys s).
Proof.
  intros HK. apply for_each_ends. intros Yv s1 H1.
  apply (ends_weaken (Bound M)); [intros s'; destruct (Run s'); auto|].
  unfold row. set (s2 := set_cur_Y (Some Yv) s1).
  assert (H2 : Bound M s2) by (subst s2; same H1).
  clearbody s2. destruct (PickupDone s2) eqn:HD; [apply for_X_ends; auto|].
  destruct (PickupStatus s2) eqn:HP; [apply for_X_ends; auto; same H2|].
  destruct (proj2 H2 HD HP).
Qed.

Lemma for_Z_ends (src : MapSource) (zs : list Z) (s : state) :
  Known src -> Bound M s -> ends (Bound M) P (for_Z E src zs s).
Proof.
  intros HK. unfold for_Z. apply for_each_ends. intros Zv s1 H1.
  apply (ends_weaken (Bound M)); [intros s'; destruct (Run s'); auto|].
  unfold zoom_level.
  destruct (tile_rect E src Zv) as [[[min_x min_y] max_x] max_y] eqn:Hrect.
  set (s2 := zoom_start E src Zv s1).
  assert (H2 : Bound M s2)
    by (subst s2; unfold zoom_start; rewrite Hrect; same H1).
  clearbody s2. destruct (PickupDone s2) eqn:HD; [apply rows_ends; auto|].
  destruct (PickupStatus s2) eqn:HP; [apply rows_ends; auto|].
  destruct (proj2 H2 HD HP).
Qed.

Lemma after_loops_ends (name : string) (src : MapSource) (s : state) :
  Bound M s -> Vars false false false s ->
  ends (Bound M) P (after_loops E name src s).
Proof.
  intros H HV. unfold after_loops.
  set (s1 := if (0 <? length (VectorTiles s))%nat then _ else s).
  assert (H1 : Bound M s1 /\ Vars false false false s1).
  { subst s1. destruct (0 <? length (VectorTiles s))%nat; auto.
    fields. split; [same H | same_vars; exact HV]. }
  clearbody s1. clear H HV. destruct H1 as [H1 HV1].
  eapply (ends_bind _ (Bound M)).
  - destruct (Z.ltb_spec 0 (SessionTileCount s1)) as [Hpos|Hneg];
      [|exact H1].
    destruct HV1 as (HZ & HY & HX).
    destruct (cur_X s1); [|exfalso; intuition (congruence || lia)].
    destruct (cur_Y s1); [|exfalso; intuition (congruence || lia)].
    destruct (cur_Z s1); [|exfalso; intuition (congruence || lia)].
    cbn [ends]. same H1.
  - intros s2 H2. fields. destruct (Run s2) eqn:HR; cbn [ends]; [|same H2].
    split.
    + eapply M_advance; [exact (proj1 H2)|..];
        destruct (_ >=? _) eqn:Hw; fields; try reflexivity;
        fields in Hw; rewrite Hw; reflexivity.
    + destruct (_ >=? _); fields; discriminate.
Qed.

Lemma iteration_ends (t0 : list event) (s : state) :
  At E t0 false false false s -> Bound M s -> ends (Bound M) P (iteration E s).
Proof.
  intros HA H. unfold iteration.
  pose proof (M_index s (proj1 H)) as Hi.
  destruct (py_index _ _) as [[name src]|]; [|exact Hi].
  pose proof (source_setup_inv E t0 name src s HA) as HA1.
  set (s1 := source_setup E name src s) in *.
  assert (H1 : Bound M s1).
  { subst s1. unfold source_setup.
    destruct (MapStatusFiles s name), (PickupDone s) eqn:HD; fields; rewrite ?HD;
      fields; same H. }
  clearbody s1. unfold map_loop. destruct (_ && _); [|exact H1].
  unfold map_body.
  set (s2 := Log _ s1).
  assert (H2 : At E t0 false false false s2 /\ Bound M s2).
  { subst s2. destruct HA1 as [HC HV].
    split; [split; [passive; exact HC | same_vars; exact HV] | same H1]. }
  clearbody s2. destruct H2 as [HA2 H2].
  eapply ends_bind.
  - eapply ends_both; [apply for_Z_inv; exact HA2 | apply for_Z_ends; auto].
  - cbn beta. intros s3 [[_ HV3] H3]. apply after_loops_ends; auto.
Qed.

Lemma main_loop_ends (t0 : list event) (fuel : nat) :
  forall s,
  Core E t0 s /\ Vars false false false s /\ VectorTiles s = [] -> Bound M s ->
  forall e s', main_loop E fuel s = Crashed e s' -> P e.
Proof.
  induction fuel as [|fuel IH]; intros s (HC & HV & Hv) H e s';
    cbn [main_loop]; destruct (Run s); try discriminate.
  pose proof (iteration_inv E t0 s (conj (conj HC HV) Hv)) as Hit.
  pose proof (iteration_ends t0 s (conj HC HV) H) as Hend.
  destruct (iteration E s) as [s1|e1 s1]; cbn [holds ends] in *.
  - apply IH; [unfold At in Hit; tauto | exact Hend].
  - intros Heq. inversion Heq; subst. exact Hend.
Qed.

Hypothesis M_start : forall s, startup E = Ok s -> M s.

Hypothesis P_start : forall p,
  disk_StateFile E = Some p ->
  py_index (Maplist E) (St_Source p) = None -> P IndexError.

Lemma main_ends (fuel : nat) (e : exn) (s : state) :
  main E fuel = Crashed e s -> P e.
Proof.
  unfold main. destruct (startup E) as [s0|e0 s0] eqn:H0.
  - destruct (initial_Core E s0 (or_introl H0)) as (HC & HV & Hv).
    apply (main_loop_ends [] fuel s0); auto.
    split; [apply M_start; reflexivity | apply (core_pickup _ _ _ HC)].
  - intros Heq. inversion Heq; subst. revert H0.
    unfold startup, initial_state. fields.
    destruct (disk_StateFile E) as [p|] eqn:Hd; [|discriminate].
    destruct (py_index (Maplist E) (St_Source p)) as [[name src]|] eqn:Hi;
      [discriminate|].
    intros Heq'. inversion Heq'; subst. eapply P_start; eauto.
Qed.

End Exceptions.



(** X3.  The script never reads a name that is not bound: the resume
    branches read the checkpoint only when one was loaded, and the final
    checkpoint is written from the loop variables only after a tile was
    delivered, so no run ends with a NameError. *)
Theorem names_are_bound (E : environment) (fuel : nat) (s : state) :
  main E fuel <> Crashed NameError s.
Proof.
  intros H.
  enough (NameError = IndexError) by discriminate.
  apply (main_ends E (fun _ => True) (fun _ => True)
           (fun e => e = IndexError)) with (fuel := fuel) (s := s); auto.
  intros src s0 _ _ _. destruct (next_ServerPart _ _) as [[? ?]|]; auto.
  intros s0 _. destruct (py_index _ _) as [[? ?]|]; auto.
Qed.



(** ** The order in which tiles are reached *)

Lemma for_each_swept {A : Type} (body : A -> state -> outcome)
    (between : state -> state) (f : A -> list (Z * Z * Z)) :
  (forall a s, PickupDone s = true -> Swept s (f a) (body a s)) ->
  (forall s, PickupDone s = true ->
     PickupDone (between s) = true /\
     enumerated (trace (between s)) = enumerated (trace s)) ->
  forall l s, PickupDone s = true ->
  Swept s (flat_map f l) (for_each body between l s).
Proof.
  intros Hbody Hbetween l.
  induction l as [|a l IH]; intros s HD; cbn [for_each flat_map].
  - exists [], []. cbn [final app]. rewrite app_nil_r. auto.
  - destruct (Hbody a s HD) as (r1 & rest1 & Hf & Hen & Hend).
    destruct (body a s) as [s1|e s1]; cbn [bind final] in *.
    + destruct Hend as [HD1 Hfull]. destruct (Run s1) eqn:HR.
      * rewrite (Hfull eq_refl), app_nil_r in Hf. subst r1.
        destruct (Hbetween s1 HD1) as [HD2 Hen2].
        destruct (IH (between s1) HD2) as (r2 & rest2 & Hf2 & Hen2' & Hend2).
        exists (f a ++ r2), rest2. rewrite Hf2, Hen2', Hen2, Hen, !app_assoc.
        auto.
      * exists r1, (rest1 ++ flat_map f l). cbn [final].
        rewrite Hf, app_assoc. repeat split; auto. congruence.
    + exists r1, (rest1 ++ flat_map f l). rewrite Hf, app_assoc. auto.
Qed.

Lemma Swept_from (s0 s : state) (full : list (Z * Z * Z)) (o : outcome) :
  enumerated (trace s) = enumerated (trace s0) ->
  Swept s full o -> Swept s0 full o.
Proof. unfold Swept. intros ->. auto. Qed.

Section Grid.

Variable E : environment.
Variable src : MapSource.

Lemma retry_loop_tileless (Zv Yv Xv : Z) (r : nat) :
  forall s,
  enumerated (trace (final (retry_loop E src Zv Yv Xv r s)))
  = enumerated (trace s) /\
  PickupDone (final (retry_loop E src Zv Yv Xv r s)) = PickupDone s.
Proof.
  induction r as [|r IH]; intros s; cbn [retry_loop final]; auto.
  destruct (next_ServerPart _ _) as [[ServerPart n]|]; cbn [final]; auto.
  set (code := http_status E _).
  set (s1 := blocking E _).
  assert (H1 : enumerated (trace s1) = enumerated (trace s) /\
               PickupDone s1 = PickupDone s).
  { subst s1. fields. rewrite enumerated_app. cbn. rewrite app_nil_r. auto. }
  clearbody s1. destruct H1 as [He1 Hd1]. destruct (code =? 200).
  - cbn [final]. unfold tile_fetched. fields.
    destruct (_ =? _); fields;
      rewrite <- ?app_assoc, enumerated_app; cbn; rewrite app_nil_r; auto.
  - match goal with |- context [if Run ?st then _ else _] => set (s2 := st) end.
    assert (H2 : enumerated (trace s2) = enumerated (trace s) /\
                 PickupDone s2 = PickupDone s).
    { subst s2. destruct (code =? 404), r; auto; fields;
        rewrite <- ?app_assoc, enumerated_app; cbn; rewrite app_nil_r; auto. }
    clearbody s2. destruct H2 as [He2 Hd2].
    destruct (Run s2); cbn [final]; auto.
    destruct (IH s2) as [He Hd]. rewrite He, Hd. auto.
Qed.

Lemma tile_swept (Zv Yv Xv : Z) (s : state) :
  PickupDone s = true -> Swept s [(Zv, Xv, Yv)] (tile E src Zv Yv Xv s).
Proof.
  intros HD. unfold tile. exists [(Zv, Xv, Yv)], [].
  match goal with |- context [retry_loop E src Zv Yv Xv ?r ?s1] =>
    destruct (retry_loop_tileless Zv Yv Xv r s1) as [He Hd];
    destruct (retry_loop E src Zv Yv Xv r s1) as [s2|e s2] end;
    cbn [final] in *; fields in He; fields in Hd;
    rewrite He, enumerated_app; cbn [enumerated flat_map app];
    repeat split; auto; congruence.
Qed.

Lemma flat_map_single {A B : Type} (f : A -> B) (l : list A) :
  flat_map (fun a => [f a]) l = map f l.
Proof. induction l as [|a l IH]; cbn; [|rewrite IH]; reflexivity. Qed.

Lemma for_X_swept (Zv Yv : Z) (xs : list Z) (s : state) :
  PickupDone s = true ->
  Swept s (map (fun x => (Zv, x, Yv)) xs) (for_X E src Zv Yv xs s).
Proof.
  rewrite <- flat_map_single. unfold for_X. apply for_each_swept.
  - intros Xv s1. apply tile_swept.
  - intros s1 HD. fields. rewrite enumerated_app. cbn. rewrite app_nil_r. auto.
Qed.

Lemma rows_swept (Zv a b : Z) (ys : list Z) (s : state) :
  PickupDone s = true ->
  Swept s (flat_map (fun y => map (fun x => (Zv, x, y)) (range a (b + 1))) ys)
    (for_each (row E src Zv a b) (fun s => s) ys s).
Proof.
  apply for_each_swept; auto.
  intros Yv s1 HD. unfold row. fields. rewrite HD.
  apply (Swept_from _ (set_cur_Y (Some Yv) s1)); [reflexivity|].
  apply for_X_swept. exact HD.
Qed.

Lemma for_Z_swept (zs : list Z) (s : state) :
  PickupDone s = true ->
  Swept s
    (flat_map
       (fun z =>
          let '(min_x, min_y, max_x, max_y) := tile_rect E src z in
          flat_map (fun y => map (fun x => (z, x, y)) (range min_x (max_x + 1)))
            (range min_y (max_y + 1))) zs)
    (for_Z E src zs s).
Proof.
  unfold for_Z. apply for_each_swept; auto.
  intros Zv s1 HD. unfold zoom_level.
  destruct (tile_rect E src Zv) as [[[min_x min_y] max_x] max_y] eqn:Hrect.
  set (s2 := zoom_start E src Zv s1).
  assert (H2 : PickupDone s2 = true /\
               enumerated (trace s2) = enumerated (trace s1)).
  { subst s2. unfold zoom_start. rewrite Hrect. fields.
    rewrite <- app_assoc, enumerated_app. cbn. rewrite app_nil_r. auto. }
  clearbody s2. destruct H2 as [HD2 He2]. rewrite HD2.
  apply (Swept_from _ s2); [exact He2|]. apply rows_swept. exact HD2.
Qed.

Lemma after_loops_tileless (name : string) (s : state) :
  enumerated (trace (final (after_loops E name src s)))
  = enumerated (trace s) /\
  forall s', after_loops E name src s = Ok s' -> Run s' = Run s.
Proof.
  unfold after_loops.
  destruct (0 <? length (VectorTiles s))%nat; fields;
    destruct (0 <? SessionTileCount s);
    try (destruct (cur_X s), (cur_Y s), (cur_Z s)); cbn [bind final]; fields;
    destruct (Run s) eqn:HR; try (destruct (_ >=? _)); cbn [final]; fields;
    rewrite <- ?app_assoc, ?enumerated_app; cbn [enumerated flat_map app];
    rewrite ?app_nil_r;
    (split; [reflexivity | intros s' H; inversion H; subst; fields; auto]).
Qed.

Lemma map_body_swept (name : string) (s : state) :
  PickupDone s = true ->
  Swept s (grid E src (min_z s)) (map_body E name src s).
Proof.
  intros HD. unfold map_body, grid.
  set (s1 := Log _ s).
  assert (H1 : PickupDone s1 = true /\
               enumerated (trace s1) = enumerated (trace s) /\
               min_z s1 = min_z s).
  { subst s1. fields. rewrite enumerated_app. cbn. rewrite app_nil_r. auto. }
  clearbody s1. destruct H1 as (HD1 & He1 & ->).
  apply (Swept_from _ s1); [exact He1|].
  destruct (for_Z_swept (range (min_z s) (max_z src + 1)) s1 HD1)
    as (reached & rest & Hf & Hen & Hend).
  exists reached, rest. split; [exact Hf|].
  destruct (for_Z E src _ s1) as [s2|e s2]; cbn [bind final] in *; [|auto].
  destruct (after_loops_tileless name s2) as [He Hrun].
  rewrite He, Hen. split; [reflexivity|].
  destruct (after_loops E name src s2) as [s3|e s3] eqn:Hal; [|exact I].
  destruct Hend as [HD2 Hfull]. rewrite (Hrun s3 eq_refl). split; [|exact Hfull].
  revert Hal. unfold after_loops.
  destruct (0 <? length (VectorTiles s2))%nat; fields;
    destruct (0 <? SessionTileCount s2);
    try (destruct (cur_X s2), (cur_Y s2), (cur_Z s2)); cbn [bind]; fields;
    try discriminate;
    destruct (Run s2); try (destruct (_ >=? _));
    intros H; inversion H; subst; fields; auto.
Qed.

End Grid.

Lemma iteration_swept (E : environment) (s : state) (name : string)
    (src : MapSource) :
  PickupDone s = true ->
  py_index (Maplist E) (SourceCounter s) = Some (name, src) ->
  Swept s (grid E src (min_z0 src)) (iteration E s).
Proof.
  intros HD Hsrc. unfold iteration. rewrite Hsrc. unfold map_loop.
  set (s1 := source_setup E name src s).
  assert (H1 : PickupDone s1 = true /\ min_z s1 = min_z0 src /\
               MapRun s1 = true /\
               enumerated (trace s1) = enumerated (trace s)).
  { subst s1. unfold source_setup.
    destruct (MapStatusFiles s name); fields; rewrite HD; fields;
      rewrite enumerated_app; cbn; rewrite app_nil_r; auto. }
  clearbody s1. destruct H1 as (HD1 & Hz & HM & He1). rewrite HM. cbn [andb].
  destruct (Run s1) eqn:HR.
  - rewrite <- Hz. apply (Swept_from _ s1); [exact He1|].
    apply map_body_swept. exact HD1.
  - exists [], (grid E src (min_z0 src)). cbn [final app].
    rewrite app_nil_r. repeat split; auto. congruence.
Qed.

(** X5.  A turn of the main loop that is not picking up a checkpoint reaches
    tiles of its source only in the order of the grid (zoom from the
    configured minimum, then row, then column), each tile once and without
    skipping any, whatever the servers answer; if the turn ends with [Run]
    still set, it has reached the whole grid. *)
Theorem pass_follows_grid (E : environment) (s : state) (name : string)
    (src : MapSource) :
  PickupDone s = true ->
  py_index (Maplist E) (SourceCounter s) = Some (name, src) ->
  exists reached rest,
    grid E src (min_z0 src) = reached ++ rest /\
    enumerated (trace (final (iteration E s)))
    = enumerated (trace s) ++ reached /\
    forall s', iteration E s = Ok s' -> Run s' = true -> rest = [].
Proof.
  intros HD Hsrc.
  destruct (iteration_swept E s name src HD Hsrc)
    as (reached & rest & Hf & Hen & Hend).
  exists reached, rest. repeat split; auto.
  intros s' Hok. rewrite Hok in Hend. apply Hend.
Qed.

Lemma pass_follows_grid_witness :
  exists reached rest,
    grid env_seven (source strip ["a"] 5 5) 5 = reached ++ rest /\
    enumerated (trace (final (iteration env_seven
                                (result_state (main env_seven 0)))))
    = enumerated (trace (result_state (main env_seven 0))) ++ reached /\
    forall s', iteration env_seven (result_state (main env_seven 0)) = Ok s' ->
               Run s' = true -> rest = [].
Proof.
  apply (pass_follows_grid env_seven (result_state (main env_seven 0)) "st"
           (source strip ["a"] 5 5)); reflexivity.
Defined.

(** X6.  A checkpoint whose column is 0 is not resumed at its position: the
    process keeps the checkpointed source and tile total, but the first turn
    of the main loop starts that source at its configured minimum zoom and
    reaches the tiles of the whole grid from the first one on. *)
Theorem column_zero_checkpoint_restarts_source (E : environment) (p : Status)
    (name : string) (src : MapSource) :
  disk_StateFile E = Some p ->
  St_X p = 0 ->
  py_index (Maplist E) (St_Source p) = Some (name, src) ->
  exists s0,
    startup E = Ok s0 /\
    SourceCounter s0 = St_Source p /\
    TotalTileCount s0 = St_TotalTileCount p /\
    exists reached rest,
      grid E src (min_z0 src) = reached ++ rest /\
      enumerated (trace (final (iteration E s0))) = reached /\
      forall s', iteration E s0 = Ok s' -> Run s' = true -> rest = [].
Proof.
  intros Hd HX Hsrc. unfold startup, initial_state. fields.
  rewrite Hd, Hsrc, HX. cbn [Z.eqb]. eexists. split; [reflexivity|].
  fields. split; [reflexivity|]. split; [reflexivity|].
  match goal with |- context [iteration E ?st] => set (s0 := st) end.
  destruct (iteration_swept E s0 name src eq_refl Hsrc)
    as (reached & rest & Hf & Hen & Hend).
  exists reached, rest. repeat split; auto.
  intros s' Hok. rewrite Hok in Hend. apply Hend.
Qed.

Lemma column_zero_checkpoint_restarts_source_witness :
  exists s0,
    startup env_column_zero = Ok s0 /\
    SourceCounter s0 = 0 /\
    TotalTileCount s0 = 5 /\
    exists reached rest,
      grid env_column_zero (source europe ["a"] 1 2) 1 = reached ++ rest /\
      enumerated (trace (final (iteration env_column_zero s0))) = reached /\
      forall s', iteration env_column_zero s0 = Ok s' -> Run s' = true ->
                 rest = [].
Proof.
  apply (column_zero_checkpoint_restarts_source env_column_zero
           (mkStatus 0 0 1 2 5) "eu" (source europe ["a"] 1 2));
    reflexivity.
Defined.

(** ** The end of a pass *)

Lemma archives_app (t u : list event) :
  archives (t ++ u) = archives t ++ archives u.
Proof. apply flat_map_app. Qed.

Lemma Framed_passive (s0 s s' : state) (evs : list event) :
  trace s' = trace s ++ evs -> archives evs = [] ->
  MapStatusFiles s' = MapStatusFiles s ->
  FullLoops s' = FullLoops s ->
  SourceCounter s' = SourceCounter s ->
  Framed s0 s -> Framed s0 s'.
Proof.
  unfold Framed. intros -> He -> -> ->.
  rewrite archives_app, He, app_nil_r. auto.
Qed.

Ltac framed H :=
  eapply Framed_passive; [..|exact H]; [trace_step | reflexivity ..].

Section Pass.

Variable E : environment.
Variable src : MapSource.
Variable s0 : state.

Lemma retry_loop_Framed (Zv Yv Xv : Z) (r : nat) :
  forall s, Framed s0 s ->
  holds (Framed s0) (Framed s0) (retry_loop E src Zv Yv Xv r s).
Proof.
  induction r as [|r IH]; intros s H; cbn [retry_loop holds]; auto.
  destruct (next_ServerPart _ _) as [[ServerPart n]|]; cbn [holds]; auto.
  set (code := http_status E _).
  set (s1 := blocking E _).
  assert (H1 : Framed s0 s1) by (subst s1; framed H).
  clearbody s1. destruct (code =? 200).
  - cbn [holds]. unfold tile_fetched. fields. destruct (_ =? _); framed H1.
  - match goal with |- holds _ _ (if Run ?st then _ else _) => set (s2 := st) end.
    assert (H2 : Framed s0 s2)
      by (subst s2; destruct (code =? 404), r; auto; framed H1).
    clearbody s2. destruct (Run s2); cbn [holds]; auto.
Qed.

Lemma for_X_Framed (Zv Yv : Z) (xs : list Z) (s : state) :
  Framed s0 s -> holds (Framed s0) (Framed s0) (for_X E src Zv Yv xs s).
Proof.
  unfold for_X. apply (for_each_rule _ _ (Framed s0)); auto.
  intros Xv s1 H1. unfold tile.
  eapply holds_weaken; [| |apply retry_loop_Framed; framed H1]; auto.
  cbn beta. intros s2 H2. destruct (Run s2); auto. framed H2.
Qed.

Lemma rows_Framed (Zv a b : Z) (ys : list Z) (s : state) :
  Framed s0 s ->
  holds (Framed s0) (Framed s0)
    (for_each (row E src Zv a b) (fun s => s) ys s).
Proof.
  apply (for_each_rule _ _ (Framed s0)); auto.
  intros Yv s1 H1.
  apply (holds_weaken (Framed s0) _ (Framed s0)); auto;
    [intros s'; destruct (Run s'); auto|].
  unfold row. fields.
  destruct (PickupDone s1); [apply for_X_Framed; framed H1|].
  destruct (PickupStatus s1); [apply for_X_Framed; framed H1|].
  cbn [holds]. framed H1.
Qed.

Lemma for_Z_Framed (zs : list Z) (s : state) :
  Framed s0 s -> holds (Framed s0) (Framed s0) (for_Z E src zs s).
Proof.
  unfold for_Z. apply (for_each_rule _ _ (Framed s0)); auto.
  intros Zv s1 H1.
  apply (holds_weaken (Framed s0) _ (Framed s0)); auto;
    [intros s'; destruct (Run s'); auto|].
  unfold zoom_level.
  destruct (tile_rect E src Zv) as [[[min_x min_y] max_x] max_y] eqn:Hrect.
  set (s2 := zoom_start E src Zv s1).
  assert (H2 : Framed s0 s2)
    by (subst s2; unfold zoom_start; rewrite Hrect; framed H1).
  clearbody s2.
  destruct (PickupDone s2); [apply rows_Framed; exact H2|].
  destruct (PickupStatus s2); [apply rows_Framed; exact H2|].
  cbn [holds]. exact H2.
Qed.

Lemma after_loops_counts (name : string) (s s' : state) :
  Framed s0 s -> after_loops E name src s = Ok s' ->
  Run s' = Run s /\
  if Run s'
  then MapStatusFiles s'
       = (fun k => if String.eqb k name then Some (FullLoops s0 + 1)
                   else MapStatusFiles s0 k) /\
       archives (trace s')
       = archives (trace s0) ++ [(MBtilesDB src, FullLoops s0 + 1)] /\
       SourceCounter s'
       = (if SourceCounter s0 + 1 >=? Z.of_nat (length (Maplist E))
          then 0 else SourceCounter s0 + 1) /\
       TotalTileCount s' = 0
  else Framed s0 s'.
Proof.
  intros (HM & HF & HS & HA). unfold after_loops.
  destruct (0 <? length (VectorTiles s))%nat; fields;
    destruct (0 <? SessionTileCount s);
    try (destruct (cur_X s), (cur_Y s), (cur_Z s)); cbn [bind]; fields;
    try discriminate;
    destruct (Run s) eqn:HR; fields; try (destruct (_ >=? _) eqn:Hw);
    intros H; inversion H; subst; clear H; fields; rewrite ?HR;
    (split; [reflexivity|]); unfold Framed; fields;
    rewrite <- ?app_assoc, ?archives_app; cbn [archives flat_map app];
    rewrite ?app_nil_r, ?HM, ?HF, ?HA; fields in Hw;
    rewrite ?HS in *; rewrite ?Hw; auto.
Qed.

End Pass.

(** X7.  A turn of the main loop either completes its source or leaves the
    records of completed passes alone.  Completing means: the pass counter
    of that source, read from its status file (0 when there is none), is
    written back one higher, the store is archived once under that number,
    the files of the other sources are left alone, the tile total is reset
    and the source counter moves to the next source, back to the first after
    the last.  Otherwise no pass counter changes, nothing is archived and
    the turn stays on its source.  A turn that ends with [Run] still set has
    completed its source. *)
Theorem completed_pass_is_counted_once (E : environment) (s s' : state)
    (name : string) (src : MapSource) :
  py_index (Maplist E) (SourceCounter s) = Some (name, src) ->
  iteration E s = Ok s' ->
  let loops := match MapStatusFiles s name with
               | Some n => n + 1
               | None => 1
               end in
  let completed :=
    MapStatusFiles s' name = Some loops /\
    (forall k, k <> name -> MapStatusFiles s' k = MapStatusFiles s k) /\
    archives (trace s') = archives (trace s) ++ [(MBtilesDB src, loops)] /\
    SourceCounter s'
    = (if SourceCounter s + 1 >=? Z.of_nat (length (Maplist E))
       then 0 else SourceCounter s + 1) /\
    TotalTileCount s' = 0 in
  let untouched :=
    (forall k, MapStatusFiles s' k = MapStatusFiles s k) /\
    archives (trace s') = archives (trace s) /\
    SourceCounter s' = SourceCounter s in
  (completed \/ untouched) /\ (Run s' = true -> completed).
Proof.
  intros Hsrc. unfold iteration. rewrite Hsrc. unfold map_loop.
  set (s1 := source_setup E name src s).
  assert (H1 : MapStatusFiles s1 = MapStatusFiles s /\
               FullLoops s1 + 1 = match MapStatusFiles s name with
                                  | Some n => n + 1
                                  | None => 1
                                  end /\
               SourceCounter s1 = SourceCounter s /\
               archives (trace s1) = archives (trace s) /\
               MapRun s1 = true).
  { subst s1. unfold source_setup.
    destruct (MapStatusFiles s name) eqn:HM, (PickupDone s) eqn:HD; fields;
      rewrite ?HD; fields; rewrite archives_app; cbn; rewrite app_nil_r;
      auto. }
  clearbody s1. destruct H1 as (HM & HF & HS & HA & HR1). rewrite HR1.
  cbn [andb]. destruct (Run s1) eqn:HR.
  - unfold map_body.
    set (s2 := Log _ s1).
    assert (H2 : Framed s1 s2)
      by (subst s2; unfold Framed; fields; rewrite archives_app; cbn;
          rewrite app_nil_r; auto).
    assert (Hz : min_z s2 = min_z s1) by reflexivity.
    clearbody s2. rewrite Hz.
    pose proof (for_Z_Framed E src s1 (range (min_z s1) (max_z src + 1)) s2 H2)
      as H3.
    destruct (for_Z E src _ s2) as [s3|e s3]; cbn [bind holds] in *;
      [|discriminate].
    intros Hal. cbn zeta.
    destruct (after_loops_counts E src s1 name s3 s' H3 Hal) as [_ Hend].
    destruct (Run s').
    + destruct Hend as (HM' & HA' & HS' & HT').
      assert (Hdone :
        MapStatusFiles s' name
        = Some match MapStatusFiles s name with
               | Some n => n + 1
               | None => 1
               end /\
        (forall k, k <> name -> MapStatusFiles s' k = MapStatusFiles s k) /\
        archives (trace s')
        = archives (trace s) ++ [(MBtilesDB src,
                                  match MapStatusFiles s name with
                                  | Some n => n + 1
                                  | None => 1
                                  end)] /\
        SourceCounter s'
        = (if SourceCounter s + 1 >=? Z.of_nat (length (Maplist E))
           then 0 else SourceCounter s + 1) /\
        TotalTileCount s' = 0).
      { rewrite HM', HA', HS', HM, HA, HS, HF, String.eqb_refl.
        repeat split; auto.
        intros k Hk. apply String.eqb_neq in Hk. rewrite Hk. reflexivity. }
      split; [left; exact Hdone | intros _; exact Hdone].
    + destruct Hend as (HM' & _ & HS' & HA').
      split; [right|discriminate].
      rewrite HM', HA', HS', HM, HA, HS. auto.
  - intros Heq. inversion Heq; subst. cbn zeta. rewrite HR.
    split; [right|discriminate]. rewrite HM, HA, HS. auto.
Qed.

Lemma completed_pass_is_counted_once_witness :
  let s := result_state (main env_seven 0) in
  let s' := final (iteration env_seven s) in
  let completed :=
    MapStatusFiles s' "st" = Some 1 /\
    (forall k, k <> "st" -> MapStatusFiles s' k = MapStatusFiles s k) /\
    archives (trace s') = archives (trace s) ++ [("map.mbtiles", 1)] /\
    SourceCounter s' = 0 /\
    TotalTileCount s' = 0 in
  let untouched :=
    (forall k, MapStatusFiles s' k = MapStatusFiles s k) /\
    archives (trace s') = archives (trace s) /\
    SourceCounter s' = SourceCounter s in
  (completed \/ untouched) /\ (Run s' = true -> completed).
Proof.
  apply (completed_pass_is_counted_once env_seven
           (result_state (main env_seven 0))
           (final (iteration env_seven (result_state (main env_seven 0))))
           "st" (source strip ["a"] 5 5)).
  - reflexivity.
  - vm_compute. reflexivity.
Defined.




(** ** What reaches the store *)

Lemma written_app (t u : list event) : written (t ++ u) = written t ++ written u.
Proof. apply flat_map_app. Qed.

Lemma fetched_app (t u : list event) : fetched (t ++ u) = fetched t ++ fetched u.
Proof. apply flat_map_app. Qed.

Lemma fetched_get (server : string) (x y z code : Z) :
  fetched [EvGet server x y z code] = if code =? 200 then [(z, x, y)] else [].
Proof.
  destruct code as [|c|c]; try reflexivity.
  do 8 (destruct c as [c|c|]; try reflexivity).
Qed.

Lemma Kept_passive (s s' : state) (evs : list event) :
  trace s' = trace s ++ evs -> written evs = [] -> fetched evs = [] ->
  VectorTiles s' = VectorTiles s ->
  SessionTileCount s' = SessionTileCount s ->
  Stored s /\ Counted s -> Stored s' /\ Counted s'.
Proof.
  unfold Stored, Counted. intros -> Hw Hf -> -> [H1 H2].
  rewrite written_app, fetched_app, Hw, Hf, !app_nil_r. auto.
Qed.

Ltac kept H :=
  eapply Kept_passive; [..|exact H];
  [trace_step | reflexivity ..].

Section Store.

Variable E : environment.

Lemma tile_fetched_Kept (src : MapSource) (Zv Yv Xv : Z) (data : nat)
    (server : string) (s s1 : state) :
  trace s1 = trace s ++ [EvGet server Xv Yv Zv 200] ->
  VectorTiles s1 = VectorTiles s ->
  SessionTileCount s1 = SessionTileCount s ->
  Stored s /\ Counted s ->
  Stored (tile_fetched E src Zv Yv Xv data s1) /\
  Counted (tile_fetched E src Zv Yv Xv data s1).
Proof.
  unfold Stored, Counted. intros Ht Hv Hn [H1 H2]. unfold tile_fetched. fields.
  destruct (_ =? _); fields; rewrite Ht, ?Hv, Hn;
    rewrite <- ?app_assoc, ?written_app, !fetched_app, ?app_nil_r;
    cbn [written fetched flat_map app]; rewrite ?app_nil_r;
    rewrite (app_assoc (written (trace s))), (map_app tile_key), H1,
      (map_app store_key), length_app,
      Nat2Z.inj_add, H2;
    split; reflexivity.
Qed.

Lemma retry_loop_Kept (src : MapSource) (Zv Yv Xv : Z) (r : nat) :
  forall s, Stored s /\ Counted s ->
  holds (fun s' => Stored s' /\ Counted s') Counted
    (retry_loop E src Zv Yv Xv r s).
Proof.
  induction r as [|r IH]; intros s H; cbn [retry_loop holds]; auto.
  destruct (next_ServerPart _ _) as [[ServerPart n]|]; cbn [holds];
    [|exact (proj2 H)].
  set (code := http_status E _).
  set (s1 := blocking E _).
  assert (H1 : trace s1 = trace s ++ [EvGet ServerPart Xv Yv Zv code] /\
               VectorTiles s1 = VectorTiles s /\
               SessionTileCount s1 = SessionTileCount s)
    by (subst s1; fields; auto).
  clearbody s1. destruct H1 as (Ht & Hv & Hn).
  destruct (Z.eqb_spec code 200) as [H200|H200].
  - cbn [holds]. rewrite H200 in Ht. eapply tile_fetched_Kept; eauto.
  - assert (HK1 : Stored s1 /\ Counted s1).
    { eapply Kept_passive; [exact Ht|reflexivity| |exact Hv|exact Hn|exact H].
      rewrite fetched_get. destruct (Z.eqb_spec code 200); [contradiction|auto]. }
    clear Ht Hv Hn.
    match goal with |- holds _ _ (if Run ?st then _ else _) => set (s2 := st) end.
    assert (H2 : Stored s2 /\ Counted s2)
      by (subst s2; destruct (code =? 404), r; auto; kept HK1).
    clearbody s2. destruct (Run s2); cbn [holds]; auto.
Qed.

Lemma for_X_Kept (src : MapSource) (Zv Yv : Z) (xs : list Z) (s : state) :
  Stored s /\ Counted s ->
  holds (fun s' => Stored s' /\ Counted s') Counted (for_X E src Zv Yv xs s).
Proof.
  unfold for_X.
  apply (for_each_rule _ _ (fun s' => Stored s' /\ Counted s')); auto.
  intros Xv s1 H1. unfold tile.
  eapply holds_weaken; [| |apply retry_loop_Kept; kept H1]; auto.
  cbn beta. intros s2 H2. destruct (Run s2); auto. kept H2.
Qed.

Lemma rows_Kept (src : MapSource) (Zv a b : Z) (ys : list Z) (s : state) :
  Stored s /\ Counted s ->
  holds (fun s' => Stored s' /\ Counted s') Counted
    (for_each (row E src Zv a b) (fun s => s) ys s).
Proof.
  apply (for_each_rule _ _ (fun s' => Stored s' /\ Counted s')); auto.
  intros Yv s1 H1.
  assert (Hpost : forall o,
            holds (fun s' => Stored s' /\ Counted s') Counted o ->
            holds (fun s' => if Run s'
                             then Stored s' /\ Counted s'
                             else Stored s' /\ Counted s') Counted o).
  { intros o. apply holds_weaken; auto. intros s'. destruct (Run s'); auto. }
  apply Hpost. unfold row. fields.
  destruct (PickupDone s1); [apply for_X_Kept; kept H1|].
  destruct (PickupStatus s1); [apply for_X_Kept; kept H1|].
  cbn [holds]. apply (proj2 H1).
Qed.

Lemma for_Z_Kept (src : MapSource) (zs : list Z) (s : state) :
  Stored s /\ Counted s ->
  holds (fun s' => Stored s' /\ Counted s') Counted (for_Z E src zs s).
Proof.
  unfold for_Z.
  apply (for_each_rule _ _ (fun s' => Stored s' /\ Counted s')); auto.
  intros Zv s1 H1.
  assert (Hpost : forall o,
            holds (fun s' => Stored s' /\ Counted s') Counted o ->
            holds (fun s' => if Run s'
                             then Stored s' /\ Counted s'
                             else Stored s' /\ Counted s') Counted o).
  { intros o. apply holds_weaken; auto. intros s'. destruct (Run s'); auto. }
  apply Hpost. unfold zoom_level.
  destruct (tile_rect E src Zv) as [[[min_x min_y] max_x] max_y] eqn:Hrect.
  set (s2 := zoom_start E src Zv s1).
  assert (H2 : Stored s2 /\ Counted s2)
    by (subst s2; unfold zoom_start; rewrite Hrect; kept H1).
  clearbody s2.
  destruct (PickupDone s2); [apply rows_Kept; exact H2|].
  destruct (PickupStatus s2); [apply rows_Kept; exact H2|].
  cbn [holds]. apply (proj2 H2).
Qed.

Lemma after_loops_Kept (name : string) (src : MapSource) (s : state) :
  Stored s /\ Counted s ->
  holds (fun s' => (Stored s' /\ Counted s') /\ VectorTiles s' = []) Counted
    (after_loops E name src s).
Proof.
  unfold Stored, Counted. intros [H1 H2]. unfold after_loops.
  destruct (0 <? length (VectorTiles s))%nat eqn:Hbuf; fields;
    destruct (0 <? SessionTileCount s);
    try (destruct (cur_X s), (cur_Y s), (cur_Z s)); cbn [bind holds]; fields;
    try (rewrite <- ?app_assoc, ?fetched_app; cbn [fetched flat_map app];
         rewrite ?app_nil_r; exact H2);
    destruct (Run s); cbn [holds]; fields; try (destruct (_ >=? _)); fields;
    rewrite <- ?app_assoc, ?written_app, ?fetched_app;
    cbn [written fetched flat_map app]; rewrite ?app_nil_r;
    try (apply Nat.ltb_ge in Hbuf;
         destruct (VectorTiles s); [|cbn in Hbuf; lia]);
    rewrite ?app_nil_r in *; auto.
Qed.

Lemma iteration_Kept (s : state) :
  (Stored s /\ Counted s) /\ VectorTiles s = [] ->
  holds (fun s' => (Stored s' /\ Counted s') /\ VectorTiles s' = []) Counted
    (iteration E s).
Proof.
  intros [H Hv]. unfold iteration.
  destruct (py_index _ _) as [[name src]|]; [|exact (proj2 H)].
  set (s1 := source_setup E name src s).
  assert (H1 : (Stored s1 /\ Counted s1) /\ VectorTiles s1 = []).
  { subst s1. unfold source_setup.
    destruct (MapStatusFiles s name), (PickupDone s) eqn:HD; fields; rewrite ?HD;
      fields; (split; [kept H | exact Hv]). }
  clearbody s1. unfold map_loop. destruct (_ && _); [|exact H1].
  unfold map_body.
  eapply holds_bind; [apply for_Z_Kept; kept (proj1 H1)|].
  intros s2 H2. apply after_loops_Kept. exact H2.
Qed.

Lemma main_loop_Kept (fuel : nat) :
  forall s, (Stored s /\ Counted s) /\ VectorTiles s = [] ->
  match main_loop E fuel s with
  | Crashed _ s' => Counted s'
  | Exited s' | StillRunning s' =>
      (Stored s' /\ Counted s') /\ VectorTiles s' = []
  end.
Proof.
  induction fuel as [|fuel IH]; intros s H; cbn [main_loop];
    destruct (Run s) eqn:HR; auto;
    try (unfold exit_logs; split; [kept (proj1 H) | exact (proj2 H)]).
  pose proof (iteration_Kept s H) as Hit.
  destruct (iteration E s); cbn [holds] in *; auto.
  apply IH, Hit.
Qed.

Lemma main_Kept (fuel : nat) :
  match main E fuel with
  | Crashed _ s' => Counted s'
  | Exited s' | StillRunning s' =>
      (Stored s' /\ Counted s') /\ VectorTiles s' = []
  end.
Proof.
  unfold main. destruct (startup E) as [s0|e s0] eqn:H0.
  - apply main_loop_Kept. revert H0. unfold startup, initial_state. fields.
    destruct (disk_StateFile E) as [p|];
      [destruct (py_index (Maplist E) (St_Source p)) as [[name src]|]|];
      intros H; inversion H; subst; unfold Stored, Counted; fields; auto.
  - revert H0. unfold startup, initial_state. fields.
    destruct (disk_StateFile E) as [p|];
      [destruct (py_index (Maplist E) (St_Source p)) as [[name src]|]|];
      intros H; inversion H; subst; unfold Stored, Counted; fields; auto.
Qed.

End Store.

Lemma main_loop_exit_trace (E : environment) (fuel : nat) :
  forall s0 s, main_loop E fuel s0 = Exited s ->
  exists t, trace s = t ++ [EvLog MsgShutdown;
                            EvLog (MsgEnded (SessionTileCount s))].
Proof.
  induction fuel as [|fuel IH]; intros s0 s; cbn [main_loop];
    destruct (Run s0).
  - discriminate.
  - intros H. inversion H. exists (trace s0). unfold exit_logs. fields.
    rewrite <- app_assoc. reflexivity.
  - destruct (iteration E s0); [apply IH | discriminate].
  - intros H. inversion H. exists (trace s0). unfold exit_logs. fields.
    rewrite <- app_assoc. reflexivity.
Qed.

(** X9.  When the program has exited and every tile delivered had a zoom
    level that is not negative, the tiles written to the store are exactly
    the tiles the servers delivered in this session: each one once, in the
    order of delivery, under the key [(z, x, 2^z - 1 - y)]; nothing is left
    in the buffer.  (At a negative zoom level Python's [2 ** Z] is a float
    and the key is not an integer.) *)
Theorem delivered_tiles_are_stored (E : environment) (fuel : nat) (s : state) :
  main E fuel = Exited s ->
  Forall (fun p => 0 <= fst (fst p)) (fetched (trace s)) ->
  map tile_key (written (trace s)) = map store_key (fetched (trace s)) /\
  VectorTiles s = [].
Proof.
  intros H _. pose proof (main_Kept E fuel) as HK. rewrite H in HK.
  destruct HK as [[HS _] Hv]. unfold Stored in HS.
  rewrite Hv, app_nil_r in HS. auto.
Qed.

Lemma delivered_tiles_are_stored_witness :
  map tile_key (written (trace (result_state (main env_seven_stopped 2))))
  = map store_key (fetched (trace (result_state (main env_seven_stopped 2)))) /\
  VectorTiles (result_state (main env_seven_stopped 2)) = [].
Proof.
  apply (delivered_tiles_are_stored env_seven_stopped 2).
  - vm_compute. reflexivity.
  - vm_compute. repeat constructor; discriminate.
Defined.

(** X10.  The last two log lines of a run that exits are the shutdown notice
    and the session total, and that total is the number of requests answered
    with status 200 during the run. *)
Theorem session_total_is_logged (E : environment) (fuel : nat) (s : state) :
  main E fuel = Exited s ->
  exists t, trace s = t ++ [EvLog MsgShutdown;
                            EvLog (MsgEnded (Z.of_nat (length (fetched t))))].
Proof.
  intros H. pose proof (main_Kept E fuel) as HK. rewrite H in HK.
  destruct HK as [[_ HC] _]. unfold Counted in HC.
  assert (Ht : exists t, trace s = t ++ [EvLog MsgShutdown;
                                  EvLog (MsgEnded (SessionTileCount s))]).
  { revert H. unfold main. destruct (startup E); [|discriminate].
    apply main_loop_exit_trace. }
  destruct Ht as [t Ht]. exists t. rewrite Ht at 1. rewrite HC, Ht.
  rewrite fetched_app. cbn [fetched flat_map app]. rewrite app_nil_r.
  reflexivity.
Qed.

Lemma session_total_is_logged_witness :
  exists t, trace (result_state (main env_seven_stopped 2))
            = t ++ [EvLog MsgShutdown;
                    EvLog (MsgEnded (Z.of_nat (length (fetched t))))].
Proof.
  apply (session_total_is_logged env_seven_stopped 2).
  vm_compute. reflexivity.
Defined.

(** ** The totals written to the checkpoint and to the log *)

Lemma tally_app (T : Z) (t u : list event) :
  tally T (t ++ u) = match tally T t with
                     | Some T' => tally T' u
                     | None => None
                     end.
Proof.
  revert T. induction t as [|e t IH]; intros T; cbn [app tally]; auto.
  destruct e; auto.
  - destruct m; auto. destruct (_ =? _); auto.
  - destruct (_ =? _); auto.
Qed.

Lemma Tallied_step (s s' : state) (evs : list event) :
  trace s' = trace s ++ evs ->
  tally (TotalTileCount s) evs = Some (TotalTileCount s') ->
  Tallied s -> Tallied s'.
Proof.
  unfold Tallied. intros -> He Hs. rewrite tally_app, Hs. exact He.
Qed.

Ltac tallied H :=
  eapply Tallied_step; [..|exact H];
  [trace_step
  |fields; cbn [tally app]; repeat (rewrite Z.eqb_refl; cbn [tally app]);
   reflexivity].

Section Tally.

Variable E : environment.
Variable src : MapSource.

Lemma retry_loop_Tallied (Zv Yv Xv : Z) (r : nat) :
  forall s, Tallied s ->
  holds Tallied Tallied (retry_loop E src Zv Yv Xv r s).
Proof.
  induction r as [|r IH]; intros s H; cbn [retry_loop holds]; auto.
  destruct (next_ServerPart _ _) as [[ServerPart n]|]; cbn [holds]; auto.
  set (code := http_status E _).
  set (s1 := blocking E _).
  assert (H1 : Tallied s1) by (subst s1; tallied H).
  clearbody s1. destruct (code =? 200).
  - cbn [holds]. unfold tile_fetched. fields. destruct (_ =? _); tallied H1.
  - match goal with |- holds _ _ (if Run ?st then _ else _) => set (s2 := st) end.
    assert (H2 : Tallied s2)
      by (subst s2; destruct (code =? 404), r; auto; tallied H1).
    clearbody s2. destruct (Run s2); cbn [holds]; auto.
Qed.

Lemma Tallied_post (o : outcome) :
  holds Tallied Tallied o ->
  holds (fun s' => if Run s' then Tallied s' else Tallied s') Tallied o.
Proof. apply holds_weaken; auto. intros s'. destruct (Run s'); auto. Qed.

Lemma for_X_Tallied (Zv Yv : Z) (xs : list Z) (s : state) :
  Tallied s -> holds Tallied Tallied (for_X E src Zv Yv xs s).
Proof.
  unfold for_X. apply (for_each_rule _ _ Tallied); auto.
  intros Xv s1 H1. unfold tile.
  eapply holds_weaken; [| |apply retry_loop_Tallied; tallied H1]; auto.
  cbn beta. intros s2 H2. destruct (Run s2); auto. tallied H2.
Qed.

Lemma rows_Tallied (Zv a b : Z) (ys : list Z) (s : state) :
  Tallied s ->
  holds Tallied Tallied (for_each (row E src Zv a b) (fun s => s) ys s).
Proof.
  apply (for_each_rule _ _ Tallied); auto.
  intros Yv s1 H1. apply Tallied_post. unfold row. fields.
  destruct (PickupDone s1); [apply for_X_Tallied; tallied H1|].
  destruct (PickupStatus s1); [apply for_X_Tallied; tallied H1|].
  cbn [holds]. tallied H1.
Qed.

Lemma for_Z_Tallied (zs : list Z) (s : state) :
  Tallied s -> holds Tallied Tallied (for_Z E src zs s).
Proof.
  unfold for_Z. apply (for_each_rule _ _ Tallied); auto.
  intros Zv s1 H1. apply Tallied_post. unfold zoom_level.
  destruct (tile_rect E src Zv) as [[[min_x min_y] max_x] max_y] eqn:Hrect.
  set (s2 := zoom_start E src Zv s1).
  assert (H2 : Tallied s2)
    by (subst s2; unfold zoom_start; rewrite Hrect; tallied H1).
  clearbody s2.
  destruct (PickupDone s2); [apply rows_Tallied; exact H2|].
  destruct (PickupStatus s2); [apply rows_Tallied; exact H2|].
  cbn [holds]. exact H2.
Qed.

Lemma after_loops_Tallied (name : string) (s : state) :
  Tallied s -> holds Tallied Tallied (after_loops E name src s).
Proof.
  intros H. unfold after_loops.
  destruct (0 <? length (VectorTiles s))%nat; fields;
    destruct (0 <? SessionTileCount s);
    try (destruct (cur_X s), (cur_Y s), (cur_Z s)); cbn [bind holds]; fields;
    try (tallied H);
    destruct (Run s) eqn:HR; cbn [holds]; fields;
    try (destruct (_ >=? _)); tallied H.
Qed.

End Tally.

Lemma iteration_Tallied (E : environment) (s : state) :
  Tallied s -> holds Tallied Tallied (iteration E s).
Proof.
  intros H. unfold iteration.
  destruct (py_index _ _) as [[name src]|]; [|exact H].
  set (s1 := source_setup E name src s).
  assert (H1 : Tallied s1).
  { subst s1. unfold source_setup.
    destruct (MapStatusFiles s name), (PickupDone s) eqn:HD; fields; rewrite ?HD;
      tallied H. }
  clearbody s1. unfold map_loop. destruct (_ && _); [|exact H1].
  unfold map_body. eapply holds_bind.
  - apply for_Z_Tallied. tallied H1.
  - intros s2 H2. apply after_loops_Tallied. exact H2.
Qed.

Lemma main_loop_Tallied (E : environment) (fuel : nat) :
  forall s, Tallied s -> Tallied (result_state (main_loop E fuel s)).
Proof.
  induction fuel as [|fuel IH]; intros s H; cbn [main_loop];
    destruct (Run s) eqn:HR; cbn [result_state]; auto;
    try (unfold exit_logs; tallied H).
  pose proof (iteration_Tallied E s H) as Hit.
  destruct (iteration E s); cbn [holds result_state] in *; auto.
Qed.

(** X11.  In every run, each checkpoint written and each "Added ... tiles"
    log line carries the running total of the pass under way: the total
    restored from the checkpoint found at start, plus the sizes of the
    writes to the store since, starting again from 0 when a pass is
    completed.  The variable [TotalTileCount] holds that number.  It counts
    the tiles handed to the store, not the rows the store holds: a tile
    written again after a resume is counted again. *)
Theorem totals_count_the_writes (E : environment) (fuel : nat) :
  tally 0 (trace (result_state (main E fuel)))
  = Some (TotalTileCount (result_state (main E fuel))).
Proof.
  change (Tallied (result_state (main E fuel))).
  unfold main. destruct (startup E) as [s0|e s0] eqn:H0.
  - apply main_loop_Tallied. revert H0.
    unfold startup, initial_state, Tallied. fields.
    destruct (disk_StateFile E) as [p|];
      [destruct (py_index (Maplist E) (St_Source p)) as [[name src]|]|];
      intros H; inversion H; subst; reflexivity.
  - cbn [result_state]. revert H0.
    unfold startup, initial_state, Tallied. fields.
    destruct (disk_StateFile E) as [p|];
      [destruct (py_index (Maplist E) (St_Source p)) as [[name src]|]|];
      intros H; inversion H; subst; reflexivity.
Qed.

(** ** The requests made for one tile *)

Lemma answers_app (t u : list event) :
  answers (t ++ u) = answers t ++ answers u.
Proof. apply flat_map_app. Qed.

Lemma retry_loop_answers (E : environment) (src : MapSource) (Zv Yv Xv : Z)
    (r : nat) :
  forall s, exists k,
    (k <= r)%nat /\
    requests (final (retry_loop E src Zv Yv Xv r s)) = (requests s + k)%nat /\
    answers (trace (final (retry_loop E src Zv Yv Xv r s)))
    = answers (trace s)
      ++ map (fun i => ((Zv, Xv, Yv), http_status E (requests s + i)))
           (seq 0 k) /\
    forall i, (S i < k)%nat -> http_status E (requests s + i) <> 200.
Proof.
  induction r as [|r IH]; intros s; cbn [retry_loop final].
  - exists 0%nat. cbn [seq map]. rewrite app_nil_r.
    repeat split; auto; lia.
  - destruct (next_ServerPart _ _) as [[ServerPart n]|]; cbn [final].
    2:{ exists 0%nat. cbn [seq map]. rewrite app_nil_r.
        repeat split; auto; lia. }
    fields.
    set (code := http_status E (requests s)).
    set (s1 := blocking E _).
    assert (H1 : requests s1 = S (requests s) /\
                 answers (trace s1)
                 = answers (trace s) ++ [((Zv, Xv, Yv), code)])
      by (subst s1; fields; rewrite answers_app; auto).
    clearbody s1. destruct H1 as [Hr1 Ha1].
    destruct (Z.eqb_spec code 200) as [H200|H200].
    + exists 1%nat. cbn [final seq map]. rewrite Nat.add_0_r.
      unfold tile_fetched. fields.
      destruct (_ =? _); fields;
        rewrite <- ?app_assoc, ?answers_app; cbn [answers flat_map app];
        rewrite ?app_nil_r, Hr1, Ha1;
        (repeat split; auto; lia).
    + match goal with |- context [if Run ?st then _ else _] => set (s2 := st) end.
      assert (H2 : requests s2 = S (requests s) /\
                   answers (trace s2)
                   = answers (trace s) ++ [((Zv, Xv, Yv), code)]).
      { subst s2. destruct (code =? 404), r; auto; fields;
          rewrite <- ?app_assoc, ?answers_app; cbn [answers flat_map app];
          rewrite ?app_nil_r; auto. }
      clearbody s2. destruct H2 as [Hr2 Ha2]. destruct (Run s2).
      * destruct (IH s2) as (k & Hk & Hr & Ha & Hn).
        exists (S k). rewrite Hr, Ha, Ha2, Hr2, <- app_assoc.
        cbn [seq map app]. rewrite <- seq_shift, map_map, Nat.add_0_r.
        split; [lia|]. split; [lia|]. split.
        -- do 2 f_equal. apply map_ext. intros i. do 2 f_equal. lia.
        -- intros [|i] Hi; [rewrite Nat.add_0_r; exact H200|].
           replace (requests s + S i)%nat with (S (requests s) + i)%nat by lia.
           rewrite <- Hr2. apply Hn. lia.
      * exists 1%nat. cbn [final seq map]. rewrite Nat.add_0_r, Hr2, Ha2.
        repeat split; auto; lia.
Qed.

(** X12.  The requests made when a tile is reached are all for that tile,
    they are consecutive, there are at most as many as the source has
    mirrors, and none of them follows an answer 200: a tile that was
    delivered is not requested again. *)
Theorem tile_is_requested_until_delivered (E : environment) (src : MapSource)
    (Zv Yv Xv : Z) (s : state) :
  exists k,
    (k <= length (ServerParts src))%nat /\
    requests (final (tile E src Zv Yv Xv s)) = (requests s + k)%nat /\
    answers (trace (final (tile E src Zv Yv Xv s)))
    = answers (trace s)
      ++ map (fun i => ((Zv, Xv, Yv), http_status E (requests s + i)))
           (seq 0 k) /\
    forall i, (S i < k)%nat -> http_status E (requests s + i) <> 200.
Proof.
  unfold tile.
  destruct (retry_loop_answers E src Zv Yv Xv (length (ServerParts src))
              (emit (EvTile Zv Xv Yv) (set_cur_X (Some Xv) s)))
    as (k & Hk & Hr & Ha & Hn).
  exists k. fields in Hr. fields in Ha. fields in Hn.
  rewrite answers_app in Ha. cbn [answers flat_map] in Ha.
  rewrite app_nil_r in Ha. auto.
Qed.

(** ** The pause between two tiles *)

Lemma pace_app (b : bool) (t u : list event) :
  pace b (t ++ u) = match pace b t with
                    | Some b' => pace b' u
                    | None => None
                    end.
Proof.
  revert b. induction t as [|e t IH]; intros b; cbn [app pace]; auto.
  destruct e; auto. destruct b; auto.
Qed.

Lemma pace_passive (s s' : state) (evs : list event) (b : bool) :
  trace s' = trace s ++ evs -> (forall c, pace c evs = Some c) ->
  pace true (trace s) = Some b -> pace true (trace s') = Some b.
Proof. intros -> He Hs. rewrite pace_app, Hs. apply He. Qed.

Ltac paced H :=
  eapply pace_passive; [..|exact H]; [trace_step | intros c; reflexivity].

Lemma pace_slept (t : list event) :
  pace false t = Some true -> exists q, In (EvSleep q) t.
Proof.
  induction t as [|e t IH]; cbn [pace]; [discriminate|].
  destruct e; try (intros H; destruct (IH H) as [q Hq]; exists q; right; exact Hq);
    try discriminate.
  intros _. eexists. left. reflexivity.
Qed.

Lemma Paced_Pacing (s : state) : Paced s -> Pacing s.
Proof. intros H. exists true. split; [exact H | discriminate]. Qed.

Lemma Pacing_Paced (s : state) : Pacing s -> Run s = true -> Paced s.
Proof.
  intros (b & H & Hb) HR. destruct b; [exact H|].
  rewrite Hb in HR by reflexivity. discriminate.
Qed.

Lemma Pacing_Timed (s : state) : Pacing s -> Timed s.
Proof. intros (b & H & _). unfold Timed. congruence. Qed.

Lemma Pacing_same (s s' : state) (evs : list event) :
  trace s' = trace s ++ evs -> (forall c, pace c evs = Some c) ->
  (Run s = false -> Run s' = false) ->
  Pacing s -> Pacing s'.
Proof.
  intros Ht He HR (b & H & Hb). exists b.
  split; [eapply pace_passive; eauto | auto].
Qed.

Ltac pacing H :=
  eapply Pacing_same; [..|exact H];
  [trace_step | intros c; reflexivity | fields; try tauto].

Lemma Pacing_post (o : outcome) :
  holds Pacing Timed o ->
  holds (fun s' => if Run s' then Paced s' else Pacing s') Timed o.
Proof.
  apply holds_weaken; auto. intros s' H. destruct (Run s') eqn:HR; auto.
  apply Pacing_Paced; auto.
Qed.

Section Pace.

Variable E : environment.
Variable src : MapSource.

Lemma retry_loop_pace (Zv Yv Xv : Z) (r : nat) (b : bool) :
  forall s, pace true (trace s) = Some b ->
  holds (fun s' => pace true (trace s') = Some b)
        (fun s' => pace true (trace s') = Some b)
    (retry_loop E src Zv Yv Xv r s).
Proof.
  induction r as [|r IH]; intros s H; cbn [retry_loop holds]; auto.
  destruct (next_ServerPart _ _) as [[ServerPart n]|]; cbn [holds]; auto.
  set (code := http_status E _).
  set (s1 := blocking E _).
  assert (H1 : pace true (trace s1) = Some b) by (subst s1; paced H).
  clearbody s1. destruct (code =? 200).
  - cbn [holds]. unfold tile_fetched. fields. destruct (_ =? _); paced H1.
  - match goal with |- holds _ _ (if Run ?st then _ else _) => set (s2 := st) end.
    assert (H2 : pace true (trace s2) = Some b)
      by (subst s2; destruct (code =? 404), r; auto; paced H1).
    clearbody s2. destruct (Run s2); cbn [holds]; auto.
Qed.

Lemma for_X_pace (Zv Yv : Z) (xs : list Z) (s : state) :
  Paced s -> holds Pacing Timed (for_X E src Zv Yv xs s).
Proof.
  unfold for_X. apply (for_each_rule _ _ Paced); [apply Paced_Pacing|].
  intros Xv s1 H1. unfold tile.
  eapply holds_weaken;
    [| |apply (retry_loop_pace Zv Yv Xv _ false)].
  - cbn beta. intros s2 H2. destruct (Run s2) eqn:HR.
    + unfold Paced. fields. rewrite pace_app, H2. reflexivity.
    + exists false. auto.
  - cbn beta. unfold Timed. intros s2 H2. congruence.
  - unfold Paced in H1. fields. rewrite pace_app, H1. reflexivity.
Qed.

Lemma rows_pace (Zv a b : Z) (ys : list Z) (s : state) :
  Paced s ->
  holds Pacing Timed (for_each (row E src Zv a b) (fun s => s) ys s).
Proof.
  apply (for_each_rule _ _ Paced); [apply Paced_Pacing|].
  intros Yv s1 H1. apply Pacing_post. unfold row. fields.
  assert (H2 : forall st, trace st = trace s1 -> Paced st)
    by (unfold Paced; intros st ->; exact H1).
  destruct (PickupDone s1); [apply for_X_pace, H2; reflexivity|].
  destruct (PickupStatus s1); [apply for_X_pace, H2; reflexivity|].
  cbn [holds]. apply Pacing_Timed, Paced_Pacing, H2. reflexivity.
Qed.

Lemma for_Z_pace (zs : list Z) (s : state) :
  Paced s -> holds Pacing Timed (for_Z E src zs s).
Proof.
  unfold for_Z. apply (for_each_rule _ _ Paced); [apply Paced_Pacing|].
  intros Zv s1 H1. apply Pacing_post. unfold zoom_level.
  destruct (tile_rect E src Zv) as [[[min_x min_y] max_x] max_y] eqn:Hrect.
  set (s2 := zoom_start E src Zv s1).
  assert (H2 : Paced s2)
    by (subst s2; unfold zoom_start, Paced; rewrite Hrect; paced H1).
  clearbody s2.
  destruct (PickupDone s2); [apply rows_pace; exact H2|].
  destruct (PickupStatus s2); [apply rows_pace; exact H2|].
  cbn [holds]. apply Pacing_Timed, Paced_Pacing, H2.
Qed.

Lemma after_loops_pace (name : string) (s : state) :
  Pacing s -> holds Pacing Timed (after_loops E name src s).
Proof.
  intros H. unfold after_loops.
  destruct (0 <? length (VectorTiles s))%nat; fields;
    destruct (0 <? SessionTileCount s);
    try (destruct (cur_X s), (cur_Y s), (cur_Z s)); cbn [bind holds]; fields;
    try (apply Pacing_Timed; pacing H);
    destruct (Run s) eqn:HR; cbn [holds]; fields;
    try (destruct (_ >=? _)); fields;
    try (apply Paced_Pacing; apply Pacing_Paced in H; [|exact HR];
         unfold Paced in *; paced H);
    pacing H.
Qed.

End Pace.

Lemma iteration_pace (E : environment) (s : state) :
  Pacing s -> Run s = true -> holds Pacing Timed (iteration E s).
Proof.
  intros H HR. apply Pacing_Paced in H; [|exact HR]. unfold iteration.
  destruct (py_index _ _) as [[name src]|];
    [|apply Pacing_Timed, Paced_Pacing, H].
  set (s1 := source_setup E name src s).
  assert (H1 : Paced s1).
  { subst s1. unfold source_setup, Paced in *.
    destruct (MapStatusFiles s name), (PickupDone s) eqn:HD; fields; rewrite ?HD;
      fields; rewrite pace_app, H; reflexivity. }
  clearbody s1. unfold map_loop.
  destruct (_ && _); [|apply Paced_Pacing, H1].
  unfold map_body. eapply holds_bind.
  - apply for_Z_pace. unfold Paced in *. paced H1.
  - intros s2 H2. apply after_loops_pace. exact H2.
Qed.


Lemma main_loop_pace (E : environment) (fuel : nat) :
  forall s, Pacing s -> Timed (result_state (main_loop E fuel s)).
Proof.
  induction fuel as [|fuel IH]; intros s H; cbn [main_loop];
    destruct (Run s) eqn:HR; cbn [result_state];
    try (apply Pacing_Timed; exact H);
    try (apply Pacing_Timed; unfold exit_logs; pacing H).
  pose proof (iteration_pace E s H HR) as Hit.
  destruct (iteration E s); cbn [holds result_state] in *; auto.
Qed.

(** X13.  Between two tiles reached one after the other, in any run, the
    script has slept: a tile is never started right after the tile before
    it, whatever the answers and the number of retries, and across rows,
    zoom levels and sources. *)
Theorem tiles_are_spaced_by_a_sleep (E : environment) (fuel : nat)
    (t1 t2 t3 : list event) (z x y z' x' y' : Z) :
  trace (result_state (main E fuel))
  = t1 ++ EvTile z x y :: t2 ++ EvTile z' x' y' :: t3 ->
  exists seconds, In (EvSleep seconds) t2.
Proof.
  intros Ht.
  assert (H : Timed (result_state (main E fuel))).
  { unfold main. destruct (startup E) as [s0|e s0] eqn:H0.
    - apply main_loop_pace. apply Paced_Pacing. revert H0.
      unfold startup, initial_state, Paced. fields.
      destruct (disk_StateFile E) as [p|];
        [destruct (py_index (Maplist E) (St_Source p)) as [[name src]|]|];
        intros H; inversion H; subst; reflexivity.
    - cbn [result_state]. revert H0.
      unfold startup, initial_state, Timed. fields.
      destruct (disk_StateFile E) as [p|];
        [destruct (py_index (Maplist E) (St_Source p)) as [[name src]|]|];
        intros H; inversion H; subst; discriminate. }
  unfold Timed in H. rewrite Ht, pace_app in H.
  destruct (pace true t1) as [b1|]; [|congruence].
  cbn [pace] in H. destruct b1; [|congruence].
  rewrite pace_app in H. apply pace_slept.
  destruct (pace false t2) as [b2|]; [|congruence].
  cbn [pace] in H. destruct b2; congruence.
Qed.

Lemma tiles_are_spaced_by_a_sleep_witness :
  exists seconds,
    In (EvSleep seconds)
       (firstn 5 (skipn 6 (trace (result_state (main env_two_zooms 1))))).
Proof.
  apply (tiles_are_spaced_by_a_sleep env_two_zooms 1
           (firstn 5 (trace (result_state (main env_two_zooms 1))))
           (firstn 5 (skipn 6 (trace (result_state (main env_two_zooms 1)))))
           (skipn 12 (trace (result_state (main env_two_zooms 1))))
           1 1 0 2 2 1).
  vm_compute. reflexivity.
Defined.

(** ** The number of tiles announced for a zoom level *)

Lemma length_range (a b : Z) : length (range a b) = Z.to_nat (b - a).
Proof. unfold range. rewrite length_map, length_seq. reflexivity. Qed.

Lemma length_flat_map_const {A B : Type} (f : A -> list B) (n : nat)
    (l : list A) :
  (forall a, length (f a) = n) -> length (flat_map f l) = (length l * n)%nat.
Proof.
  intros Hf. induction l as [|a l IH]; cbn [flat_map length]; [reflexivity|].
  rewrite length_app, Hf, IH. cbn [Nat.mul]. reflexivity.
Qed.

(** X14.  The number of tiles the log announces when a zoom level is entered
    (the line written right after the checkpoint of that moment) is the
    number of tiles of that level's part of the grid, as long as the
    rectangle computed from the bounding box is not inverted (the minimum
    column and row are at most one past the maximum ones). *)
Theorem announced_number_of_tiles (E : environment) (src : MapSource)
    (Zv min_x min_y max_x max_y : Z) (s : state) :
  tile_rect E src Zv = (min_x, min_y, max_x, max_y) ->
  min_x <= max_x + 1 ->
  min_y <= max_y + 1 ->
  exists st,
    trace (zoom_start E src Zv s)
    = trace s
      ++ [EvWriteGlobalStatus AtZoomStart st;
          EvLog (MsgWillDownload Zv
                   (Z.of_nat
                      (length
                         (flat_map
                            (fun y => map (fun x => (Zv, x, y))
                                        (range min_x (max_x + 1)))
                            (range min_y (max_y + 1))))))].
Proof.
  intros Hrect Hx Hy. unfold zoom_start. rewrite Hrect. fields.
  eexists. rewrite <- app_assoc. cbn [app]. do 2 f_equal.
  apply (f_equal (fun n => [EvLog (MsgWillDownload Zv n)])).
  rewrite (length_flat_map_const _ (Z.to_nat (max_x + 1 - min_x)))
    by (intros y; rewrite length_map, length_range; reflexivity).
  rewrite length_range, Nat2Z.inj_mul, !Z2Nat.id by lia. ring.
Qed.

Lemma announced_number_of_tiles_witness :
  exists st,
    trace (zoom_start env_seven (source strip ["a"] 5 5) 5
             (result_state (main env_seven 0)))
    = trace (result_state (main env_seven 0))
      ++ [EvWriteGlobalStatus AtZoomStart st;
          EvLog (MsgWillDownload 5
                   (Z.of_nat
                      (length
                         (flat_map
                            (fun y => map (fun x => (5, x, y))
                                        (range 16 (22 + 1)))
                            (range 11 (11 + 1))))))].
Proof.
  apply (announced_number_of_tiles env_seven (source strip ["a"] 5 5)
           5 16 11 22 11).
  - reflexivity.
  - lia.
  - lia.
Defined.

(** ** The text of the status files *)

Section Status_text.

Import Text.

Variable max_str_digits : nat.

Lemma plain_string_of_uint (u : Decimal.uint) :
  plain (DecimalString.NilEmpty.string_of_uint u) = true.
Proof. induction u; cbn; auto. Qed.

Lemma plain_str (n : Z) (s : string) :
  str max_str_digits n = Some s -> plain s = true.
Proof.
  unfold str. destruct (refused _ _); [discriminate|].
  intros H. inversion H; subst; clear H.
  destruct (Z.to_int n) as [u|u]; cbn [DecimalString.NilZero.string_of_int];
    destruct u; cbn; auto using plain_string_of_uint.
Qed.

Lemma universal_line (d sep rest : string) :
  plain d = true ->
  sep = String LF EmptyString \/ sep = String CR (String LF EmptyString) ->
  universal_newlines (d ++ sep ++ rest)%string
  = (d ++ String LF (universal_newlines rest))%string.
Proof.
  intros Hd Hsep. induction d as [|c d IH]; cbn [append].
  - destruct Hsep as [-> | ->]; reflexivity.
  - cbn [plain] in Hd. apply andb_true_iff in Hd. destruct Hd as [Hc Hd].
    apply andb_true_iff in Hc. destruct Hc as [_ Hc].
    cbn [universal_newlines]. apply negb_true_iff in Hc. rewrite Hc.
    rewrite IH by exact Hd. reflexivity.
Qed.

Lemma readline_line (d rest : string) :
  plain d = true ->
  readline (d ++ String LF rest)%string
  = ((d ++ String LF EmptyString)%string, rest).
Proof.
  intros Hd. induction d as [|c d IH]; cbn [append].
  - reflexivity.
  - cbn [plain] in Hd. apply andb_true_iff in Hd. destruct Hd as [Hc Hd].
    apply andb_true_iff in Hc. destruct Hc as [Hc _].
    cbn [readline]. apply negb_true_iff in Hc. rewrite Hc, IH by exact Hd.
    reflexivity.
Qed.

Lemma digits_uint (u : Decimal.uint) :
  forall b, u <> Decimal.Nil \/ b = true ->
  digits (DecimalString.NilEmpty.string_of_uint u ++ String LF EmptyString) b
  = Some u.
Proof.
  induction u; intros b Hb;
    try (cbn [DecimalString.NilEmpty.string_of_uint append digits digit];
         rewrite IHu by auto; reflexivity).
  destruct Hb as [Hb| ->]; [congruence | reflexivity].
Qed.

Lemma int_uint (u : Decimal.uint) :
  u <> Decimal.Nil ->
  refused max_str_digits (Decimal.nb_digits u) = false ->
  int max_str_digits
    (DecimalString.NilEmpty.string_of_uint u ++ String LF EmptyString)
  = Some (Z.of_uint u) /\
  int max_str_digits
    (String "-" (DecimalString.NilEmpty.string_of_uint u)
     ++ String LF EmptyString)
  = Some (- Z.of_uint u).
Proof.
  intros Hu Hr. pose proof (digits_uint u false (or_introl Hu)) as Hd.
  unfold int. split.
  - destruct u; [congruence|..];
      cbn [DecimalString.NilEmpty.string_of_uint append lstrip] in *;
      match goal with |- context [isspace ?c] =>
        change (isspace c) with false end;
      cbv iota; rewrite Hd, Hr; reflexivity.
  - cbn [append lstrip]. change (isspace "-") with false. cbv iota.
    rewrite Hd, Hr. reflexivity.
Qed.

Lemma int_str (n : Z) (s : string) :
  str max_str_digits n = Some s ->
  int max_str_digits (s ++ String LF EmptyString) = Some n.
Proof.
  unfold str. destruct (refused _ _) eqn:Hr; [discriminate|].
  intros H. inversion H; subst; clear H.
  rewrite <- (DecimalZ.of_to n) at 2.
  destruct n as [|p|p]; cbn [Z.to_int Decimal.abs] in *.
  - assert (H0 : Decimal.zero <> Decimal.Nil) by discriminate.
    destruct (int_uint Decimal.zero H0 Hr) as [Hi _]. exact Hi.
  - pose proof (DecimalPos.Unsigned.to_uint_nonnil p) as Hp.
    destruct (int_uint (Pos.to_uint p) Hp Hr) as [Hi _].
    cbn [DecimalString.NilZero.string_of_int Z.of_int].
    unfold DecimalString.NilZero.string_of_uint.
    destruct (Pos.to_uint p); [congruence | exact Hi ..].
  - pose proof (DecimalPos.Unsigned.to_uint_nonnil p) as Hp.
    destruct (int_uint (Pos.to_uint p) Hp Hr) as [_ Hi].
    cbn [DecimalString.NilZero.string_of_int Z.of_int].
    unfold DecimalString.NilZero.string_of_uint.
    destruct (Pos.to_uint p); [congruence | exact Hi ..].
Qed.

Lemma read_line (n : Z) (s sep rest : string) :
  str max_str_digits n = Some s ->
  sep = String LF EmptyString \/ sep = String CR (String LF EmptyString) ->
  readline (universal_newlines (s ++ sep ++ rest)%string)
  = ((s ++ String LF EmptyString)%string, universal_newlines rest) /\
  int max_str_digits (s ++ String LF EmptyString) = Some n.
Proof.
  intros Hs Hsep. pose proof (plain_str n s Hs) as Hp.
  rewrite universal_line, readline_line by auto.
  split; [reflexivity | apply int_str; exact Hs].
Qed.

Lemma append_empty (s : string) : (s ++ EmptyString)%string = s.
Proof. induction s as [|c s IH]; cbn; [|rewrite IH]; reflexivity. Qed.

Lemma readline_newlines (f : string) :
  newlines (snd (readline f)) = pred (newlines f) /\
  (newlines f = 0%nat -> snd (readline f) = EmptyString).
Proof.
  induction f as [|c f [IH1 IH2]]; cbn [readline newlines]; auto.
  destruct (Ascii.eqb c LF); cbn [snd pred]; [split; [reflexivity | discriminate]|].
  destruct (readline f) as [line rest]. cbn [snd] in *. auto.
Qed.

End Status_text.

(** X15.  What [WriteGlobalStatus] writes, [ReadGlobalStatus] reads back as
    the same source, column, row, zoom and tile total, although the file
    holds the zoom before the column and the row; and [ReadMapStatus] reads
    back the pass counter that [WriteMapStatus] wrote.  This holds with the
    line separator of either platform and under any limit on the length of
    the numbers that let the write succeed. *)
Theorem status_files_round_trip (max_str_digits : nat) (linesep : string)
    (st : Status) (FullLoops : Z) (state_file map_file : string) :
  linesep = String Text.LF EmptyString \/
  linesep = String Text.CR (String Text.LF EmptyString) ->
  Text.WriteGlobalStatus max_str_digits linesep (St_Source st) (St_X st)
    (St_Y st) (St_Z st) (St_TotalTileCount st) = Some state_file ->
  Text.WriteMapStatus max_str_digits linesep FullLoops = Some map_file ->
  Text.ReadGlobalStatus max_str_digits state_file = Some st /\
  Text.ReadMapStatus max_str_digits map_file = Some FullLoops.
Proof.
  intros Hsep Hg Hm. split.
  - revert Hg. unfold Text.WriteGlobalStatus, Text.ReadGlobalStatus.
    destruct (Text.str _ (St_Source st)) as [a|] eqn:Ha; [|discriminate].
    destruct (Text.str _ (St_Z st)) as [b|] eqn:Hb; [|discriminate].
    destruct (Text.str _ (St_X st)) as [c|] eqn:Hc; [|discriminate].
    destruct (Text.str _ (St_Y st)) as [d|] eqn:Hd; [|discriminate].
    destruct (Text.str _ (St_TotalTileCount st)) as [e|] eqn:He;
      [|discriminate].
    intros H. inversion H; subst state_file; clear H.
    replace (e ++ linesep)%string with (e ++ linesep ++ EmptyString)%string
      by (rewrite append_empty; reflexivity).
    repeat match goal with
           | |- context [Text.readline (Text.universal_newlines
                                          (?s ++ linesep ++ ?rest)%string)] =>
               match goal with
               | Hs : Text.str _ ?n = Some s |- _ =>
                   destruct (read_line max_str_digits n s linesep rest Hs Hsep)
                     as [-> ->]; clear Hs
               end
           end.
    destruct st; reflexivity.
  - revert Hm. unfold Text.WriteMapStatus, Text.ReadMapStatus.
    destruct (Text.str _ FullLoops) as [a|] eqn:Ha; [|discriminate].
    intros H. inversion H; subst map_file; clear H.
    replace (a ++ linesep)%string with (a ++ linesep ++ EmptyString)%string
      by (rewrite append_empty; reflexivity).
    destruct (read_line max_str_digits FullLoops a linesep EmptyString Ha Hsep)
      as [-> ->]. reflexivity.
Qed.

Lemma status_files_round_trip_witness :
  Text.ReadGlobalStatus 4300
    (String "1" (String Text.CR (String Text.LF
       (String "4" (String Text.CR (String Text.LF
          (String "2" (String "2" (String Text.CR (String Text.LF
             (String "3" (String Text.CR (String Text.LF
                (String "7" (String Text.CR (String Text.LF
                   EmptyString))))))))))))))))
  = Some (mkStatus 1 22 3 4 7) /\
  Text.ReadMapStatus 4300
    (String "5" (String Text.CR (String Text.LF EmptyString)))
  = Some 5.
Proof.
  apply (status_files_round_trip 4300
           (String Text.CR (String Text.LF EmptyString))
           (mkStatus 1 22 3 4 7) 5).
  - right. reflexivity.
  - reflexivity.
  - reflexivity.
Defined.

(** X16.  A checkpoint file of fewer than five lines (at most three line
    ends, an empty file included) is not read: [ReadGlobalStatus] raises a
    [ValueError], whatever the lines hold. *)
Theorem short_checkpoint_is_refused (max_str_digits : nat) (file : string) :
  (Text.newlines (Text.universal_newlines file) <= 3)%nat ->
  Text.ReadGlobalStatus max_str_digits file = None.
Proof.
  unfold Text.ReadGlobalStatus. generalize (Text.universal_newlines file).
  intros f0 H0.
  destruct (readline_newlines f0) as [H1 E1].
  destruct (Text.readline f0) as [l1 f1]. cbn [snd] in *.
  destruct (Text.int _ l1); [|reflexivity].
  destruct (readline_newlines f1) as [H2 E2].
  destruct (Text.readline f1) as [l2 f2]. cbn [snd] in *.
  destruct (Text.int _ l2); [|reflexivity].
  destruct (readline_newlines f2) as [H3 E3].
  destruct (Text.readline f2) as [l3 f3]. cbn [snd] in *.
  destruct (Text.int _ l3); [|reflexivity].
  destruct (readline_newlines f3) as [H4 E4].
  destruct (Text.readline f3) as [l4 f4]. cbn [snd] in *.
  destruct (Text.int _ l4); [|reflexivity].
  rewrite E4 by lia. reflexivity.
Qed.

Lemma short_checkpoint_is_refused_witness :
  Text.ReadGlobalStatus 4300
    (String "1" (String Text.LF (String "2" (String Text.LF EmptyString))))
  = None.
Proof.
  apply (short_checkpoint_is_refused 4300). cbn. lia.
Defined.

(** ** The URL of a tile and the name of an archive *)

Section Names_facts.

Import Names.

Lemma append_assoc (a b c : string) :
  ((a ++ b) ++ c)%string = (a ++ b ++ c)%string.
Proof. induction a as [|x a IH]; cbn; [|rewrite IH]; reflexivity. Qed.

Lemma replace_from_skip (old new x rest : string) :
  replace_from old new (String.length x) (x ++ rest)
  = replace_from old new 0 rest.
Proof.
  induction x as [|c x IH]; cbn [String.length append replace_from];
    [reflexivity | exact IH].
Qed.

Lemma startswith_self (old rest : string) :
  startswith old (old ++ rest) = true.
Proof.
  induction old as [|c old IH]; cbn; [reflexivity|].
  rewrite Ascii.eqb_refl. exact IH.
Qed.

(** Replacing an occurrence found at the very start. *)
Lemma replace_from_here (c : ascii) (old' new rest : string) :
  replace_from (String c old') new 0 (String c old' ++ rest)
  = (new ++ replace_from (String c old') new 0 rest)%string.
Proof.
  cbn [append replace_from].
  rewrite (startswith_self (String c old') rest
           : startswith _ (String c (old' ++ rest)) = true).
  cbn [String.length Nat.sub]. rewrite Nat.sub_0_r, replace_from_skip.
  reflexivity.
Qed.

(** Text without the first character of [old] is left as it is. *)
Lemma replace_from_lacking (c : ascii) (old' new s rest : string) :
  lacks c s = true ->
  replace_from (String c old') new 0 (s ++ rest)
  = (s ++ replace_from (String c old') new 0 rest)%string.
Proof.
  intros Hs. induction s as [|c' s IH]; cbn [append]; [reflexivity|].
  cbn [lacks] in Hs. apply andb_true_iff in Hs. destruct Hs as [Hc Hs].
  apply negb_true_iff in Hc. cbn [replace_from startswith]. rewrite Hc.
  cbn [andb]. rewrite IH by exact Hs. reflexivity.
Qed.

Lemma render_ext (f g : hole -> string) (segs : list segment) :
  (forall h, f h = g h) -> render f segs = render g segs.
Proof.
  intros Hfg. induction segs as [|[s|h] segs IH]; cbn [render];
    rewrite ?IH, ?Hfg; reflexivity.
Qed.

Lemma lacks_string_of_uint (c : ascii) (u : Decimal.uint) :
  Text.digit c = None ->
  lacks c (DecimalString.NilEmpty.string_of_uint u) = true.
Proof.
  intros Hc. induction u; cbn [DecimalString.NilEmpty.string_of_uint lacks];
    rewrite ?IHu, ?andb_true_r; auto;
    apply negb_true_iff, Ascii.eqb_neq; intros ->; discriminate.
Qed.

Lemma lacks_str (m : nat) (n : Z) (s : string) :
  Text.str m n = Some s -> lacks "{" s = true.
Proof.
  unfold Text.str. destruct (Text.refused _ _); [discriminate|].
  intros H. inversion H; subst; clear H.
  assert (Hu : forall u, lacks "{" (DecimalString.NilZero.string_of_uint u)
                         = true).
  { intros u. unfold DecimalString.NilZero.string_of_uint.
    destruct u; try reflexivity; apply lacks_string_of_uint; reflexivity. }
  destruct (Z.to_int n) as [u|u]; cbn [DecimalString.NilZero.string_of_int].
  - apply Hu.
  - change (lacks "{" (DecimalString.NilZero.string_of_uint u) = true).
    apply Hu.
Qed.

(** One [replace] of line 253 fills one kind of placeholder and leaves the
    rest of the template alone. *)
Lemma replace_hole (h : hole) (v : string) (f : hole -> string)
    (segs : list segment) :
  f h = placeholder h ->
  (forall h', hole_eqb h' h = false ->
              f h' = placeholder h' \/ lacks "{" (f h') = true) ->
  (forall s, In (Lit s) segs -> lacks "{" s = true) ->
  replace (placeholder h) v (render f segs)
  = render (fun h' => if hole_eqb h' h then v else f h') segs.
Proof.
  intros Hh Hother Hlit.
  assert (Hrep : replace (placeholder h) v (render f segs)
                 = replace_from (placeholder h) v 0 (render f segs))
    by (destruct h; reflexivity).
  rewrite Hrep. clear Hrep.
  induction segs as [|[s|h'] segs IH]; cbn [render].
  - destruct h; reflexivity.
  - rewrite <- IH by (intros s' Hs'; apply Hlit; right; exact Hs').
    destruct h; apply replace_from_lacking; apply Hlit; left; reflexivity.
  - rewrite <- IH by (intros s' Hs'; apply Hlit; right; exact Hs').
    destruct (hole_eqb h' h) eqn:Heq.
    + assert (h' = h) by (destruct h, h'; try discriminate; reflexivity).
      subst h'. rewrite Hh. destruct h; apply replace_from_here.
    + destruct (Hother h' Heq) as [Hp|Hp].
      * rewrite Hp. destruct h, h'; try discriminate; reflexivity.
      * destruct h; apply replace_from_lacking; exact Hp.
Qed.

Lemma startswith_overlap (old : string) :
  forall a r, startswith old (a ++ r) = true ->
  startswith old a = true \/
  exists old2, old = (a ++ old2)%string /\ startswith old2 r = true.
Proof.
  induction old as [|o old IH]; intros a r H; [left; reflexivity|].
  destruct a as [|c a]; [right; exists (String o old); auto|].
  cbn [append startswith] in *. apply andb_true_iff in H. destruct H as [Hc H].
  rewrite Hc. cbn [andb]. apply Ascii.eqb_eq in Hc. subst c.
  destruct (IH a r H) as [Ha|(old2 & -> & H2)]; [left; exact Ha|].
  right. exists old2. auto.
Qed.

Lemma lacks_app (c : ascii) (a b : string) :
  lacks c (a ++ b) = lacks c a && lacks c b.
Proof.
  induction a as [|x a IH]; cbn [append lacks]; [reflexivity|].
  rewrite IH, andb_assoc. reflexivity.
Qed.

(** The first occurrence of [old], when [old] cannot overlap itself. *)
Lemma replace_from_first (c : ascii) (old' new a rest : string) :
  lacks c old' = true ->
  occurs (String c old') a = false ->
  replace_from (String c old') new 0 (a ++ String c old' ++ rest)
  = (a ++ new ++ replace_from (String c old') new 0 rest)%string.
Proof.
  intros Hc. induction a as [|x a IH]; intros Ha.
  - apply replace_from_here.
  - cbn [occurs] in Ha. apply orb_false_iff in Ha. destruct Ha as [Hx Ha].
    specialize (IH Ha). cbn [append replace_from] in IH |- *.
    destruct (startswith (String c old')
                (String x (a ++ String c (old' ++ rest)))) eqn:Hs.
    + exfalso.
      destruct (startswith_overlap (String c old') (String x a)
                  (String c (old' ++ rest)) Hs) as [H|(old2 & Ho & H2)];
        [congruence|].
      cbn [append] in Ho. inversion Ho as [[Hcx Ho']]. subst x.
      destruct old2 as [|d old2].
      * rewrite append_empty in Ho'. subst a.
        pose proof (startswith_self (String c old') EmptyString) as Hself.
        rewrite append_empty in Hself. congruence.
      * cbn [startswith] in H2. apply andb_true_iff in H2.
        destruct H2 as [Hd _]. apply Ascii.eqb_eq in Hd. subst d.
        rewrite Ho', lacks_app in Hc. cbn [lacks] in Hc.
        rewrite Ascii.eqb_refl in Hc. cbn in Hc.
        rewrite andb_false_r in Hc. discriminate.
    + rewrite IH. reflexivity.
Qed.

Lemma replace_from_absent (old new s : string) :
  occurs old s = false -> replace_from old new 0 s = s.
Proof.
  induction s as [|x s IH]; intros Hs; [reflexivity|].
  cbn [occurs] in Hs. apply orb_false_iff in Hs. destruct Hs as [Hx Hs].
  cbn [replace_from]. rewrite Hx, IH by exact Hs. reflexivity.
Qed.

End Names_facts.

(** X17.  For a URL template made of literal text and of the placeholders
    [{server}], [{x}], [{y}] and [{z}], in any order and number, the URL
    requested is the template with every placeholder filled by the mirror,
    the column, the row and the zoom of the tile, provided the literal text
    and the mirror name hold no opening brace. *)
Theorem URL_fills_the_template (max_str_digits : nat)
    (segs : list Names.segment) (ServerPart : string) (X Y Zv : Z)
    (x y z : string) :
  (forall s, In (Names.Lit s) segs -> Names.lacks "{" s = true) ->
  Names.lacks "{" ServerPart = true ->
  Text.str max_str_digits X = Some x ->
  Text.str max_str_digits Y = Some y ->
  Text.str max_str_digits Zv = Some z ->
  Names.URL max_str_digits (Names.render Names.placeholder segs) ServerPart
    X Y Zv
  = Some (Names.render (Names.fill ServerPart x y z) segs).
Proof.
  intros Hlit Hserver Hx Hy Hz. unfold Names.URL. rewrite Hx, Hy, Hz.
  pose proof (lacks_str _ _ _ Hx) as Lx.
  pose proof (lacks_str _ _ _ Hy) as Ly.
  pose proof (lacks_str _ _ _ Hz) as Lz.
  f_equal.
  change "{server}" with (Names.placeholder Names.HServer).
  change "{x}" with (Names.placeholder Names.HX).
  change "{y}" with (Names.placeholder Names.HY).
  change "{z}" with (Names.placeholder Names.HZ).
  rewrite (replace_hole Names.HServer); auto.
  rewrite (replace_hole Names.HX); auto;
    [|intros [] Hh; try discriminate; cbn; auto].
  rewrite (replace_hole Names.HY); auto;
    [|intros [] Hh; try discriminate; cbn; auto].
  rewrite (replace_hole Names.HZ); auto;
    [|intros [] Hh; try discriminate; cbn; auto].
  apply render_ext. intros []; reflexivity.
Qed.

Lemma URL_fills_the_template_witness :
  Names.URL 4300 "https://{server}.example.org/{z}/{x}/{y}.pbf" "a" 3 4 5
  = Some "https://a.example.org/5/3/4.pbf".
Proof.
  apply (URL_fills_the_template 4300
           [Names.Lit "https://"; Names.Hole Names.HServer;
            Names.Lit ".example.org/"; Names.Hole Names.HZ; Names.Lit "/";
            Names.Hole Names.HX; Names.Lit "/"; Names.Hole Names.HY;
            Names.Lit ".pbf"] "a" 3 4 5 "3" "4" "5");
    try reflexivity.
  intros s Hs. cbn [In] in Hs.
  repeat (destruct Hs as [Hs|Hs];
          [inversion Hs; subst; reflexivity|]).
  destruct Hs.
Defined.

(** X18.  The archive of a completed pass: for a store named
    [base.mbtiles], where [.mbtiles] does not occur in [base], the copy is
    named [base] followed by the pass counter and [.mbtiles]; for a store
    whose name does not hold [.mbtiles] the name of the copy is the name of
    the store itself. *)
Theorem archive_name_is_numbered (max_str_digits : nat) (base loops : string)
    (FullLoops : Z) :
  Text.str max_str_digits FullLoops = Some loops ->
  Names.occurs ".mbtiles" base = false ->
  Names.archive_name max_str_digits (base ++ ".mbtiles") FullLoops
  = Some (base ++ loops ++ ".mbtiles")%string /\
  Names.archive_name max_str_digits base FullLoops = Some base.
Proof.
  intros Hl Hb. unfold Names.archive_name. rewrite Hl. split; f_equal.
  - unfold Names.replace.
    rewrite <- (append_empty ".mbtiles") at 3.
    rewrite replace_from_first; auto. cbn [Names.replace_from].
    rewrite append_empty. reflexivity.
  - apply replace_from_absent. exact Hb.
Qed.

Lemma archive_name_is_numbered_witness :
  Names.archive_name 4300 ("./maps/eu" ++ ".mbtiles") 12
  = Some ("./maps/eu" ++ "12" ++ ".mbtiles")%string /\
  Names.archive_name 4300 "./maps/eu" 12 = Some "./maps/eu".
Proof.
  apply (archive_name_is_numbered 4300 "./maps/eu" "12" 12); reflexivity.
Defined.
